(** * outlook-mcp-oauth: webhook reconciliation and the Graph client

    A shallow embedding of
    - [src/api/lib/kv-helpers.ts]    (the event cache helpers),
    - [src/api/index.ts]             (the four webhook endpoints and [onError]),
    - [src/api/MicrosoftService.ts]  (request, token refresh, pagination),
    followed by the properties of the specification that concern them.

    JavaScript values are modelled by the types the code uses them at:
    a [string | undefined | null] is an [option string], truthiness of such
    a value is [truthy] (absent and the empty string are falsy), a thrown
    value is an [exn] carried by [Throw], and [async] code is a function on
    the state it reads and writes. *)

From Stdlib Require Import ZArith String Ascii List Bool Lia.
From stdpp Require Import gmap strings list fin_maps.

Import ListNotations.
Local Open Scope string_scope.
Local Open Scope list_scope.
Local Open Scope Z_scope.

(** ** JavaScript preliminaries *)

(** [if (s)] for [s : string | null | undefined]. *)
Definition truthy (s : option string) : bool :=
  match s with
  | Some (String _ _) => true
  | _ => false
  end.

(** [`${s}`] for [s : string | undefined]. *)
Definition template (s : option string) : string :=
  match s with
  | Some x => x
  | None => "undefined"
  end.

(** [a ?? b]. *)
Definition nullish (a : option string) (b : string) : string :=
  match a with
  | Some x => x
  | None => b
  end.

(** [a || b], as in [x = a || null] and [if (!s) s = a]. *)
Definition or_else (a b : option string) : option string :=
  if truthy a then a else b.

Definition dquote : string := String (ascii_of_nat 34) EmptyString.

(** Values that the code throws (or that a rejected promise carries). *)
Inductive exn : Type :=
| HTTPException (status : Z) (message : string)
| KVError                       (* the KV binding rejected a get or a put *)
| BodyError                     (* c.req.json() rejected, or body.value is not iterable *)
| NetworkError                  (* fetch rejected *)
| JsonError                     (* res.json() rejected *)
| ApiError (status : Z) (statusText : string)
                                (* Error(`Microsoft API error: ${status} ${statusText}`) *)
| RefreshError (text : string)  (* Error(`Failed to refresh access token: ${text}`) *)
| OutOfFuel.                    (* not a JavaScript value: the bound that the model
                                   puts on a while loop was reached *)

Inductive result (A : Type) : Type :=
| Ok (a : A)
| Throw (e : exn).
Arguments Ok {A} a.
Arguments Throw {A} e.

(** Code that reads and writes a state [S] and may throw. The state
    survives a throw: what was written before it stays written. *)
Definition M (S A : Type) : Type := S -> result A * S.

Definition ret {S A} (a : A) : M S A := fun s => (Ok a, s).
Definition throw {S A} (e : exn) : M S A := fun s => (Throw e, s).
Definition bind {S A B} (c : M S A) (k : A -> M S B) : M S B :=
  fun s =>
    match c s with
    | (Ok a, s') => k a s'
    | (Throw e, s') => (Throw e, s')
    end.

Notation "'let*' x ':=' c 'in' k" := (bind c (fun x => k))
  (at level 100, x name, c at next level, right associativity).
Notation "c ';;;' k" := (bind c (fun _ => k))
  (at level 100, right associativity).

(** ** The event cache: [src/api/lib/kv-helpers.ts] *)

Module KV.

(** A stored value and the second at which it stops being readable
    ([None]: never). *)
Record entry : Type := Entry {
  value : string;
  expiration : option Z
}.

(** One operation asked of the binding. *)
Inductive op : Type :=
| Get (key : string)
| Put (key : string) (data : string) (expirationTtl : option Z).

(** [env.MICROSOFT_EVENT_CACHE], a KVNamespace binding: what it holds,
    the current time in seconds, whether its reads or writes are
    currently rejected, and the operations it has been asked so far. *)
Record KVNamespace : Type := Namespace {
  entries : gmap string entry;
  clock : Z;
  reads_fail : bool;
  writes_fail : bool;
  log : list op
}.

Definition empty (now : Z) : KVNamespace :=
  {| entries := ∅; clock := now; reads_fail := false; writes_fail := false;
     log := [] |}.

Definition logged (o : op) (kv : KVNamespace) : KVNamespace :=
  {| entries := entries kv; clock := clock kv; reads_fail := reads_fail kv;
     writes_fail := writes_fail kv; log := log kv ++ [o] |}.

(** Time passes between two requests. *)
Definition tick (d : Z) (kv : KVNamespace) : KVNamespace :=
  {| entries := entries kv; clock := clock kv + d; reads_fail := reads_fail kv;
     writes_fail := writes_fail kv; log := log kv |}.

Definition live (now : Z) (e : entry) : bool :=
  match expiration e with
  | None => true
  | Some t => now <? t
  end.

(** What a read of [key] finds at the current time. *)
Definition lookup (kv : KVNamespace) (key : string) : option string :=
  match entries kv !! key with
  | Some e => if live (clock kv) e then Some (value e) else None
  | None => None
  end.

(** [KVNamespace.get(key)]: the value, or null when there is none or it
    has expired. *)
Definition get (key : string) : M KVNamespace (option string) :=
  fun kv =>
    if reads_fail kv then (Throw KVError, logged (Get key) kv)
    else (Ok (lookup kv key), logged (Get key) kv).

(** [KVNamespace.put(key, value, { expirationTtl })]: with a ttl the
    entry expires that many seconds from now, without one it stays. *)
Definition put (key data : string) (expirationTtl : option Z)
  : M KVNamespace unit :=
  fun kv =>
    if writes_fail kv then (Throw KVError, logged (Put key data expirationTtl) kv)
    else
      (Ok tt,
       {| entries :=
            <[key := {| value := data;
                        expiration := (fun t => clock kv + t) <$> expirationTtl |}]>
              (entries kv);
          clock := clock kv;
          reads_fail := reads_fail kv;
          writes_fail := writes_fail kv;
          log := log kv ++ [Put key data expirationTtl] |}).

(** [`${serverName}:${eventType}:${eventId}`] *)
Definition cache_key (serverName : string) (eventType : option string)
           (eventId : string) : string :=
  serverName +:+ ":" +:+ template eventType +:+ ":" +:+ eventId.

Definition getEventCache (serverName : string) (eventType : option string)
           (eventId : string) : M KVNamespace (option string) :=
  get (cache_key serverName eventType eventId).

(** The optional parameter [expirationTtl?: number | null]. *)
Inductive ttl_arg : Type :=
| TtlUndefined
| TtlNull
| TtlNumber (n : Z).

Definition putEventCache (serverName : string) (eventType : option string)
           (eventId eventData : string) (expirationTtl : ttl_arg)
  : M KVNamespace unit :=
  put (cache_key serverName eventType eventId) eventData
      (match expirationTtl with
       | TtlUndefined => Some 60
       | TtlNull => None
       | TtlNumber n => Some n
       end).

(** Every stored value is a non-empty text. The handlers only store
    the JSON text of an object, so the stores they build satisfy this. *)
Definition store_inv (kv : KVNamespace) : Prop :=
  forall key e, entries kv !! key = Some e -> value e <> EmptyString.

End KV.

(** ** The webhook endpoints: [src/api/index.ts] *)

Module Webhook.
Import KV.

(** [const DEBOUNCE_TTL = 2 * 60] *)
Definition DEBOUNCE_TTL : Z := 2 * 60.

(** One element of [body.value], by the members the handlers read.
    [members] is the text of all its members, as JSON.stringify prints
    them between the braces of the object. *)
Record Notification : Type := {
  subscriptionId : option string;
  clientState : option string;
  changeType : option string;
  lifecycleEvent : option string;
  resourceData_id : option string;      (* bodyValue.resourceData?.id *)
  members : string
}.

(** [JSON.stringify(bodyValue)]: the text of an object is never empty. *)
Definition JSON_stringify (bodyValue : Notification) : string :=
  "{" +:+ members bodyValue +:+ "}".

(** What a handler reads of the request: the [validationToken] query
    parameter, the [x-mcp-name] header, and [(await c.req.json()).value]:
    its elements, none of them null, or [None] when the body is not
    JSON or what it holds there cannot be iterated. *)
Record Request : Type := {
  validationToken : option string;
  x_mcp_name : option string;
  body : option (list Notification)
}.

Inductive ContentType : Type := text | json.

Record CalendarEventNotification : Type := {
  eventId : string;
  eventType : option string
}.

Inductive ProcessData : Type :=
| EmailProcessData (name subscription : string) (emailIds : list string)
| NotificationProcessData (name subscription : string) (events : list string)
| CalendarProcessData (name subscription : string)
                      (events : list CalendarEventNotification).

Record WebhookResponse : Type := {
  reqResponseCode : Z;
  reqResponseContent : string;
  reqResponseContentType : ContentType;
  processData : option ProcessData
}.

(** [JSON.stringify({ ok: true })] *)
Definition ok_true : string := "{" +:+ dquote +:+ "ok" +:+ dquote +:+ ":true}".

(** The answer to the validation challenge of Microsoft Graph. *)
Definition challenge (token : string) : WebhookResponse :=
  {| reqResponseCode := 200;
     reqResponseContent := token;
     reqResponseContentType := text;
     processData := None |}.

(** The answer to a batch, with what there is to process, if anything. *)
Definition acknowledge (data : option ProcessData) : WebhookResponse :=
  {| reqResponseCode := 202;
     reqResponseContent := ok_true;
     reqResponseContentType := json;
     processData := data |}.

(** [for (const x of xs) { ... }] over the variables [acc] of the loop;
    [continue] is a body that returns them unchanged. *)
Fixpoint for_of {S A B : Type} (xs : list A) (body : A -> B -> M S B) (acc : B)
  : M S B :=
  match xs with
  | [] => ret acc
  | x :: rest => let* acc' := body x acc in for_of rest body acc'
  end.

(** The variables of the four loops: what was collected, and
    [let subscriptionId: string | undefined]. *)
Record Collected (A : Type) : Type := {
  items : list A;
  subscription : option string
}.
Arguments items {A} c.
Arguments subscription {A} c.

Definition nothing {A : Type} : Collected A :=
  {| items := []; subscription := None |}.

(** [xs.push(x); if (!subscriptionId) subscriptionId = bodyValue.subscriptionId] *)
Definition push {A : Type} (x : A) (bodyValue : Notification) (acc : Collected A)
  : Collected A :=
  {| items := items acc ++ [x];
     subscription := if truthy (subscription acc) then subscription acc
                     else subscriptionId bodyValue |}.

(** The end of each handler: nothing to process without a subscription
    id, a name and at least one item. *)
Definition respond {A : Type} (name : option string) (acc : Collected A)
           (data : string -> string -> list A -> ProcessData) : WebhookResponse :=
  match subscription acc, name, items acc with
  | Some (String _ _ as sub), Some (String _ _ as n), _ :: _ =>
      acknowledge (Some (data n sub (items acc)))
  | _, _, _ => acknowledge None
  end.

Section Handlers.

(** [c.env.MICROSOFT_WEBHOOK_SECRET] *)
Variable secret : string.

(** [clientState !== c.env.MICROSOFT_WEBHOOK_SECRET] is false *)
Definition authentic (bodyValue : Notification) : bool :=
  bool_decide (clientState bodyValue = Some secret).

(** *** POST /webhooks/email-notify *)

Definition email_item (bodyValue : Notification) (acc : Collected string)
  : M KVNamespace (Collected string) :=
  if negb (authentic bodyValue) then ret acc
  else
    match resourceData_id bodyValue with
    | Some (String _ _ as resourceId) => ret (push resourceId bodyValue acc)
    | _ => ret acc
    end.

Definition email_notify (req : Request) : M KVNamespace WebhookResponse :=
  match validationToken req with
  | Some (String _ _ as token) => ret (challenge token)
  | _ =>
      match body req with
      | None => throw BodyError
      | Some bodyValues =>
          let* acc := for_of bodyValues email_item nothing in
          ret (respond (x_mcp_name req) acc EmailProcessData)
      end
  end.

(** *** POST /webhooks/email-lifecycle and /webhooks/calendar-lifecycle

    The two handlers differ in the names of their types only. *)

Definition lifecycle_item (bodyValue : Notification) (acc : Collected string)
  : M KVNamespace (Collected string) :=
  if negb (authentic bodyValue) then ret acc
  else
    match lifecycleEvent bodyValue with
    | Some (String _ _ as eventType) =>
        if bool_decide (eventType = "missed") then ret acc
        else ret (push eventType bodyValue acc)
    | _ => ret acc
    end.

Definition lifecycle (req : Request) : M KVNamespace WebhookResponse :=
  match validationToken req with
  | Some (String _ _ as token) => ret (challenge token)
  | _ =>
      match body req with
      | None => throw BodyError
      | Some bodyValues =>
          let* acc := for_of bodyValues lifecycle_item nothing in
          ret (respond (x_mcp_name req) acc NotificationProcessData)
      end
  end.

(** *** POST /webhooks/calendar-notify *)

(** The three branches on [eventType] after the lookup of the
    notification's own key: [true] when one of them ends in
    [continue]. *)
Definition cross_type (serverName : string) (eventType : option string)
           (eventId : string) : M KVNamespace bool :=
  if bool_decide (eventType = Some "updated") then
    let* createdEventData := getEventCache serverName (Some "created") eventId in
    if truthy createdEventData then ret true
    else
      let* deletedEventData := getEventCache serverName (Some "deleted") eventId in
      if truthy deletedEventData then ret true else ret false
  else if bool_decide (eventType = Some "created") then
    let* updatedEventData := getEventCache serverName (Some "updated") eventId in
    if truthy updatedEventData then ret true else ret false
  else if bool_decide (eventType = Some "deleted") then
    let* updatedEventData := getEventCache serverName (Some "updated") eventId in
    if truthy updatedEventData then ret true else ret false
  else ret false.

Definition calendar_item (name : option string) (bodyValue : Notification)
           (acc : Collected CalendarEventNotification)
  : M KVNamespace (Collected CalendarEventNotification) :=
  if negb (authentic bodyValue) then ret acc
  else
    match resourceData_id bodyValue with
    | Some (String _ _ as eventId) =>
        let eventType := changeType bodyValue in
        let* eventData := getEventCache (nullish name "unknown") eventType eventId in
        if truthy eventData then ret acc
        else
          let* skip := cross_type (nullish name "unknown") eventType eventId in
          if skip then ret acc
          else
            (* events.push comes before the put in the source; a put
               that throws ends the handler, and the loop variables
               with it, so the two orders cannot be told apart *)
            putEventCache (nullish name "unknown") eventType eventId
                          (JSON_stringify bodyValue) (TtlNumber DEBOUNCE_TTL) ;;;
            ret (push {| eventId := eventId; eventType := eventType |}
                      bodyValue acc)
    | _ => ret acc
    end.

Definition calendar_notify (req : Request) : M KVNamespace WebhookResponse :=
  match validationToken req with
  | Some (String _ _ as token) => ret (challenge token)
  | _ =>
      match body req with
      | None => throw BodyError
      | Some bodyValues =>
          let* acc := for_of bodyValues (calendar_item (x_mcp_name req)) nothing in
          ret (respond (x_mcp_name req) acc CalendarProcessData)
      end
  end.

(** *** The application *)

Inductive Endpoint : Type :=
| EmailNotify | EmailLifecycle | CalendarNotify | CalendarLifecycle.

Definition handler (route : Endpoint) : Request -> M KVNamespace WebhookResponse :=
  match route with
  | EmailNotify => email_notify
  | EmailLifecycle => lifecycle
  | CalendarNotify => calendar_notify
  | CalendarLifecycle => lifecycle
  end.

(** What goes back to the caller: [c.json(response)], or what
    [onError] makes of a thrown value. *)
Inductive HttpReply : Type :=
| JsonReply (status : Z) (response : WebhookResponse)
| ErrorReply (status : Z) (error : string) (error_description : option string).

(** [.onError((err, c) => ...)]: a 401 for a thrown value whose
    [status] is 401, a 500 for every other one. *)
Definition onError (err : exn) : HttpReply :=
  match err with
  | HTTPException 401 message =>
      ErrorReply 401 "invalid_token"
        (Some (match message with
               | EmptyString => "The access token is invalid or expired"
               | _ => message
               end))
  | _ => ErrorReply 500 "server_error" None
  end.

Definition post (route : Endpoint) (req : Request) (kv : KVNamespace)
  : HttpReply * KVNamespace :=
  match handler route req kv with
  | (Ok response, kv') => (JsonReply 200 response, kv')
  | (Throw err, kv') => (onError err, kv')
  end.

End Handlers.

End Webhook.

(** ** The Graph client: [src/api/MicrosoftService.ts] *)

Module Graph.

Record Env : Type := {
  MICROSOFT_CLIENT_ID : string;
  MICROSOFT_CLIENT_SECRET : string;
  MICROSOFT_TENANT_ID : string
}.

(** The fields of [class MicrosoftService]. *)
Record MicrosoftService : Type := {
  env : Env;
  accessToken : string;
  refreshToken : string;
  userId : string
}.

Definition baseUrl : string := "https://graph.microsoft.com/v1.0".

(** A parsed body of the Graph API, by the two members that are read:
    [data["value"]] (each event kept as its text) and
    [data["@odata.nextLink"]]. *)
Record Json : Type := {
  value : option (list string);
  odata_nextLink : option string
}.

(** A Response of the Graph API; [json] is [None] when [res.json()]
    rejects. *)
Record Response : Type := {
  status : Z;
  statusText : string;
  json : option Json
}.

(** [response.ok] *)
Definition ok (status : Z) : bool := (200 <=? status) && (status <=? 299).

Record TokenJson : Type := {
  access_token : string;
  refresh_token : option string
}.

(** A Response of the token endpoint. *)
Record TokenResponse : Type := {
  token_status : Z;
  token_text : string;              (* await res.text() *)
  token_json : option TokenJson     (* await res.json() *)
}.

(** One call of [fetch]. *)
Inductive Call : Type :=
| GraphCall (url method bearer : string)
| TokenCall (tenant client_id client_secret refresh_token : string).

(** The network as the service sees it: the responses that the Graph
    API and the token endpoint are going to give, in the order in which
    they are asked, and the calls made so far. Any behaviour of the two
    servers towards one run of the service is such a pair of lists. *)
Record Network : Type := {
  graph : list Response;
  login : list TokenResponse;
  trace : list Call
}.

Definition State : Type := MicrosoftService * Network.

(** [fetch(url, { ...options, headers: { Authorization: `Bearer
    ${this.accessToken}`, ... } })]; it rejects when the server gives no
    response. *)
Definition fetch_graph (url method : string) : M State Response :=
  fun '(this, net) =>
    let call := GraphCall url method (accessToken this) in
    match graph net with
    | [] =>
        (Throw NetworkError,
         (this, {| graph := []; login := login net; trace := trace net ++ [call] |}))
    | response :: rest =>
        (Ok response,
         (this, {| graph := rest; login := login net; trace := trace net ++ [call] |}))
    end.

(** The POST to
    [https://login.microsoftonline.com/${tenant}/oauth2/v2.0/token] with
    [grant_type=refresh_token]. *)
Definition fetch_token : M State TokenResponse :=
  fun '(this, net) =>
    let call := TokenCall (MICROSOFT_TENANT_ID (env this))
                          (MICROSOFT_CLIENT_ID (env this))
                          (MICROSOFT_CLIENT_SECRET (env this))
                          (refreshToken this) in
    match login net with
    | [] =>
        (Throw NetworkError,
         (this, {| graph := graph net; login := []; trace := trace net ++ [call] |}))
    | res :: rest =>
        (Ok res,
         (this, {| graph := graph net; login := rest; trace := trace net ++ [call] |}))
    end.

(** [this.accessToken = access_token;
     if (refresh_token) this.refreshToken = refresh_token;] *)
Definition store_tokens (tokens : TokenJson) : M State unit :=
  fun '(this, net) =>
    (Ok tt,
     ({| env := env this;
         accessToken := access_token tokens;
         refreshToken := match refresh_token tokens with
                         | Some (String _ _ as refresh_token) => refresh_token
                         | _ => refreshToken this
                         end;
         userId := userId this |},
      net)).

(** [await res.json()] *)
Definition parsed {A : Type} (body : option A) : M State A :=
  match body with
  | Some data => ret data
  | None => throw JsonError
  end.

Definition refreshAccessToken : M State unit :=
  let* res := fetch_token in
  if negb (ok (token_status res)) then throw (RefreshError (token_text res))
  else
    let* tokens := parsed (token_json res) in
    store_tokens tokens.

(** [makeRequest(url, options)]. The [catch] logs and throws the same
    value again, and a rejection of the promise that the 401 branch
    returns reaches the caller as it is, so neither changes what the
    caller gets. *)
Definition makeRequest (url method : string) : M State Json :=
  let* response := fetch_graph url method in
  if status response =? 401 then
    refreshAccessToken ;;;
    let* res := fetch_graph url method in
    parsed (json res)
  else if negb (ok (status response)) then
    throw (ApiError (status response) (statusText response))
  else parsed (json response).

Section Calendar.

(** [new URLSearchParams(params).toString()] and [limit.toString()] *)
Variable URLSearchParams : list (string * string) -> string.
Variable toString : Z -> string.

Definition initialUrl (this : MicrosoftService) (startDate endDate : string)
           (limit : Z) : string :=
  baseUrl +:+ "/users/" +:+ userId this +:+ "/events?" +:+
  URLSearchParams
    [("$filter", "start/dateTime lt '" +:+ endDate +:+
                 "' and end/dateTime ge '" +:+ startDate +:+ "'");
     ("$orderby", "start/dateTime desc");
     ("$top", toString limit)].

(** [while (url) { ... }], at most [fuel] tests of [url]. *)
Fixpoint pages (fuel : nat) (url : option string) (events : list string)
  : M State (list string) :=
  match fuel with
  | O => throw OutOfFuel
  | S fuel' =>
      match url with
      | Some (String _ _ as u) =>
          let* data := makeRequest u "GET" in
          let events' := match value data with
                         | Some newEvents => events ++ newEvents
                         | None => events
                         end in
          pages fuel' (or_else (odata_nextLink data) None) events'
      | _ => ret events
      end
  end.

(** Every turn of the loop takes a response of the Graph API, so one
    test more than there are responses is all the loop can make. *)
Definition getUserCalendarEvents (startDate endDate : string) (limit : Z)
  : M State (list string) :=
  fun '(this, net) =>
    pages (S (length (graph net)))
          (Some (initialUrl this startDate endDate limit)) [] (this, net).

End Calendar.

End Graph.

(** * Vocabulary of the statements *)

Section Vocabulary.
Import KV Webhook.

(** The store holds the same entries at the same time; only the log
    of operations may have grown. *)
Definition unchanged (kv kv' : KVNamespace) : Prop :=
  entries kv' = entries kv /\ clock kv' = clock kv /\
  reads_fail kv' = reads_fail kv /\ writes_fail kv' = writes_fail kv.

(** What the three branches on [eventType] compute when reads succeed. *)
Definition cross_hit (kv : KVNamespace) (serverName : string)
           (eventType : option string) (eventId : string) : bool :=
  if bool_decide (eventType = Some "updated") then
    truthy (lookup kv (cache_key serverName (Some "created") eventId))
    || truthy (lookup kv (cache_key serverName (Some "deleted") eventId))
  else if bool_decide (eventType = Some "created") then
    truthy (lookup kv (cache_key serverName (Some "updated") eventId))
  else if bool_decide (eventType = Some "deleted") then
    truthy (lookup kv (cache_key serverName (Some "updated") eventId))
  else false.

Definition own_key (name : option string) (bodyValue : Notification)
           (eventId : string) : string :=
  cache_key (nullish name "unknown") (changeType bodyValue) eventId.

Definition accepted_event (bodyValue : Notification) (eventId : string)
  : CalendarEventNotification :=
  {| eventId := eventId; eventType := changeType bodyValue |}.

(** A property of the store that a computation keeps. *)
Definition preserved (P : KVNamespace -> Prop) {A : Type} (c : M KVNamespace A) : Prop :=
  forall kv, P kv -> P (snd (c kv)).

(** The cache holds an entry for [accountName:changeType:eventId]. *)
Definition holds (kv : KVNamespace) (accountName changeType eventId : string) : bool :=
  bool_decide
    (is_Some (lookup kv (accountName +:+ ":" +:+ changeType +:+ ":" +:+ eventId))).

(** The tie-break table of the specification (4.2, step 2), in its
    words: an incoming [updated] is suppressed if the cache holds
    [created] or [deleted] for the same id, an incoming [created] or
    [deleted] if it holds [updated]. *)
Definition suppression_table (kv : KVNamespace) (accountName : string)
           (incoming : option string) (eventId : string) : bool :=
  if bool_decide (incoming = Some "updated") then
    holds kv accountName "created" eventId || holds kv accountName "deleted" eventId
  else if bool_decide (incoming = Some "created") then
    holds kv accountName "updated" eventId
  else if bool_decide (incoming = Some "deleted") then
    holds kv accountName "updated" eventId
  else false.

(** The entry that an accepted notification leaves in the cache. *)
Definition debounce_entry (kv : KVNamespace) (bodyValue : Notification) : entry :=
  {| value := JSON_stringify bodyValue;
     expiration := Some (clock kv + DEBOUNCE_TTL) |}.

(** A notification that passes the two checks of a handler. *)
Definition surviving (secret : string) (bodyValue : Notification) : Prop :=
  authentic secret bodyValue = true /\ truthy (resourceData_id bodyValue) = true.

(** A surviving notification that the cache has no reason to suppress. *)
Definition acceptable (secret : string) (name : option string) (kv : KVNamespace)
           (bodyValue : Notification) : Prop :=
  authentic secret bodyValue = true /\
  exists id, resourceData_id bodyValue = Some id /\ id <> EmptyString /\
    lookup kv (own_key name bodyValue id) = None /\
    suppression_table kv (nullish name "unknown") (changeType bodyValue) id = false.

(** The request with another batch in its body. *)
Definition with_batch (req : Request) (bodyValues : list Notification) : Request :=
  {| validationToken := validationToken req;
     x_mcp_name := x_mcp_name req;
     body := Some bodyValues |}.

(** What an email notification adds to [emailIds], if anything. *)
Definition contributes (secret : string) (bodyValue : Notification) : option string :=
  if authentic secret bodyValue then
    match resourceData_id bodyValue with
    | Some (String a r) => Some (String a r)
    | _ => None
    end
  else None.

Definition email_ids (secret : string) (bodyValues : list Notification) : list string :=
  omap (contributes secret) bodyValues.

(** The subscription id of the first contributing notification that has
    a non-empty one. *)
Definition first_subscription (secret : string) (bodyValues : list Notification)
  : option string :=
  head (omap (fun bodyValue =>
                match contributes secret bodyValue, subscriptionId bodyValue with
                | Some _, Some (String a r) => Some (String a r)
                | _, _ => None
                end) bodyValues).

End Vocabulary.

Section GraphVocabulary.
Import Graph.

(** The tokens of the service after a refresh that was answered with
    [tokens]: the new access token, the new refresh token if one was
    issued, everything else as it was. *)
Definition rotated (this : MicrosoftService) (tokens : TokenJson) : MicrosoftService :=
  {| env := env this;
     accessToken := access_token tokens;
     refreshToken := if truthy (refresh_token tokens)
                     then template (refresh_token tokens)
                     else refreshToken this;
     userId := userId this |}.

(** The call of the token endpoint that a refresh of [this] makes. *)
Definition refresh_call (this : MicrosoftService) : Call :=
  TokenCall (MICROSOFT_TENANT_ID (env this)) (MICROSOFT_CLIENT_ID (env this))
            (MICROSOFT_CLIENT_SECRET (env this)) (refreshToken this).

(** Pages linked by their continuation field: every page but the last
    has a link, the last has none (or an empty one, at which the loop
    stops as well). *)
Fixpoint linked (pages : list Json) : Prop :=
  match pages with
  | [] => False
  | [last] => truthy (odata_nextLink last) = false
  | page :: rest => truthy (odata_nextLink page) = true /\ linked rest
  end.

(** The urls at which the pages are asked for: the first at [url], each
    other one at the link of the page before it. *)
Fixpoint requests (url : string) (pages : list Json) : list string :=
  match pages with
  | [] => []
  | page :: rest => url :: requests (template (odata_nextLink page)) rest
  end.

(** The items of a page. *)
Definition page_items (page : Json) : list string :=
  match value page with
  | Some newEvents => newEvents
  | None => []
  end.

End GraphVocabulary.

(** * Sample requests and stores *)

Module Sample.
Import KV Webhook.

Definition secret : string := "s3cret".

Definition member (key val : string) : string :=
  dquote +:+ key +:+ dquote +:+ ":" +:+ dquote +:+ val +:+ dquote.

(** A calendar notification of the account, with the right secret. *)
Definition change (changeType id : string) : Notification :=
  {| subscriptionId := Some "sub-cal";
     clientState := Some secret;
     changeType := Some changeType;
     lifecycleEvent := None;
     resourceData_id := Some id;
     members := member "changeType" changeType |}.

(** An email notification, with the right secret. *)
Definition mail (id : string) : Notification :=
  {| subscriptionId := Some "sub-mail";
     clientState := Some secret;
     changeType := Some "created";
     lifecycleEvent := None;
     resourceData_id := Some id;
     members := member "changeType" "created" |}.

(** The same with a secret that is not the configured one. *)
Definition forged (id : string) : Notification :=
  {| subscriptionId := Some "sub-mail";
     clientState := Some "guess";
     changeType := Some "created";
     lifecycleEvent := None;
     resourceData_id := Some id;
     members := member "changeType" "created" |}.

Definition batch (name : option string) (bodyValues : list Notification) : Request :=
  {| validationToken := None; x_mcp_name := name; body := Some bodyValues |}.

(** [POST /webhooks/email-notify?validationToken=] with a batch. *)
Definition empty_challenge : Request :=
  {| validationToken := Some EmptyString;
     x_mcp_name := Some "work";
     body := Some [mail "m1"] |}.

(** [POST /webhooks/calendar-notify?validationToken=abc123], with a body
    that is not JSON. *)
Definition challenge_abc123 : Request :=
  {| validationToken := Some "abc123"; x_mcp_name := None; body := None |}.

(** An empty cache whose reads, or whose writes, are rejected. *)
Definition reads_down : KVNamespace :=
  {| entries := ∅; clock := 0; reads_fail := true; writes_fail := false; log := [] |}.

Definition writes_down : KVNamespace :=
  {| entries := ∅; clock := 0; reads_fail := false; writes_fail := true; log := [] |}.


End Sample.

Module GraphSample.
Import Graph.

Definition this : MicrosoftService :=
  {| env := {| MICROSOFT_CLIENT_ID := "client";
               MICROSOFT_CLIENT_SECRET := "hush";
               MICROSOFT_TENANT_ID := "tenant" |};
     accessToken := "old-access";
     refreshToken := "old-refresh";
     userId := "user-1" |}.

Definition page (events : list string) (next : option string) : Json :=
  {| value := Some events; odata_nextLink := next |}.

Definition answer (data : Json) : Response :=
  {| status := 200; statusText := "OK"; json := Some data |}.

(** Three pages, linked. *)
Definition book : list Json :=
  [page ["e1"; "e2"] (Some "https://graph.microsoft.com/v1.0/page2");
   page ["e3"] (Some "https://graph.microsoft.com/v1.0/page3");
   page ["e4"; "e5"] None].

Definition three_pages : Network :=
  {| graph := map answer book; login := []; trace := [] |}.

Definition query (params : list (string * string)) : string := "top=100".
Definition number (limit : Z) : string := "100".

(** A token endpoint that issues a new refresh token, and one that does
    not. *)
Definition rotating : TokenResponse :=
  {| token_status := 200; token_text := EmptyString;
     token_json := Some {| access_token := "new-access";
                           refresh_token := Some "new-refresh" |} |}.

Definition keeping : TokenResponse :=
  {| token_status := 200; token_text := EmptyString;
     token_json := Some {| access_token := "new-access"; refresh_token := None |} |}.

End GraphSample.

(** * The other routes *)

(** ** The bearer middleware: [src/api/lib/microsoft-auth.ts] *)

Module Auth.

(** [c.executionCtx.props] *)
Record Props : Type := {
  accessToken : string;
  refreshToken : string
}.

(** The two headers that the middleware reads. *)
Record Headers : Type := {
  Authorization : option string;
  X_Microsoft_Refresh_Token : option string
}.

(** [microsoftBearerTokenAuthMiddleware], up to [await next()]: the
    props that it sets, or the exception that it throws. [substring(7)]
    is the rest of the header from index 7 on. *)
Definition microsoftBearerTokenAuthMiddleware (headers : Headers) : result Props :=
  match Authorization headers with
  | Some authHeader =>
      if negb (String.prefix "Bearer " authHeader) then
        Throw (HTTPException 401 "Missing or invalid access token")
      else
        Ok {| accessToken :=
                String.substring 7 (String.length authHeader - 7) authHeader;
              refreshToken :=
                match X_Microsoft_Refresh_Token headers with
                | Some (String a r) => String a r
                | _ => EmptyString
                end |}
  | None => Throw (HTTPException 401 "Missing or invalid access token")
  end.

(** [getMicrosoftAuthEndpoint(tenantId, endpoint)] *)
Definition getMicrosoftAuthEndpoint (tenantId endpoint : string) : string :=
  "https://login.microsoftonline.com/" +:+ tenantId +:+ "/oauth2/v2.0/" +:+ endpoint.

End Auth.

(** ** The [/process] routes: [src/api/index.ts] *)

Module Process.

Definition newline : string := String (ascii_of_nat 10) EmptyString.

(** What a [/process] handler reads of the request: the headers of the
    middleware, and [JSON.stringify(await c.req.json(), null, 2)] ([None]
    when the body is not JSON). *)
Record Request : Type := {
  headers : Auth.Headers;
  pretty : option string
}.

(** The first line of [promptContent] on each route. *)
Definition title (route : Webhook.Endpoint) : string :=
  match route with
  | Webhook.EmailNotify => "Outlook email received"
  | Webhook.EmailLifecycle => "Outlook email lifecycle notification received"
  | Webhook.CalendarNotify => "Outlook calendar event notification received"
  | Webhook.CalendarLifecycle => "Outlook calendar lifecycle notification received"
  end.

Definition promptContent (route : Webhook.Endpoint) (printed : string) : string :=
  title route +:+ ":" +:+ newline +:+ newline +:+ "```json" +:+ newline +:+
  printed +:+ newline +:+ "```".

(** What goes back: [c.json({ promptContent })], or what [onError] makes
    of a thrown value. *)
Inductive Reply : Type :=
| Prompt (status : Z) (content : string)
| Failed (reply : Webhook.HttpReply).

(** [.use(path, microsoftBearerTokenAuthMiddleware)] and then
    [.post(path, handler)], for each of the four [/process] paths. *)
Definition post (route : Webhook.Endpoint) (req : Request) : Reply :=
  match Auth.microsoftBearerTokenAuthMiddleware (headers req) with
  | Throw err => Failed (Webhook.onError err)
  | Ok _ =>
      match pretty req with
      | None => Failed (Webhook.onError BodyError)
      | Some printed => Prompt 200 (promptContent route printed)
      end
  end.

End Process.

(** ** [GET /authorize]: [src/api/index.ts] *)

Module Authorize.

(** The name-value pairs of a [URLSearchParams], in their order. *)
Definition Params : Type := list (string * string).

Definition params_remove (name : string) (ps : Params) : Params :=
  List.filter (fun p => negb (bool_decide (fst p = name))) ps.

(** [searchParams.set(name, value)]: the first pair of that name takes
    the value and the others go; without one, the pair is appended. *)
Fixpoint params_set (name value : string) (ps : Params) : Params :=
  match ps with
  | [] => [(name, value)]
  | (k, v) :: rest =>
      if bool_decide (k = name) then (name, value) :: params_remove name rest
      else (k, v) :: params_set name value rest
  end.

(** [searchParams.get(name)]: the value of the first pair of that name. *)
Fixpoint params_get (name : string) (ps : Params) : option string :=
  match ps with
  | [] => None
  | (k, v) :: rest => if bool_decide (k = name) then Some v else params_get name rest
  end.

(** [url.searchParams.forEach((value, key) => { if (key !== "client_id")
    microsoftAuthUrl.searchParams.set(key, value) })] *)
Definition copied (query microsoftAuthUrl : Params) : Params :=
  fold_left
    (fun (microsoftAuthUrl : Params) (p : string * string) =>
       if negb (bool_decide (fst p = "client_id"))
       then params_set (fst p) (snd p) microsoftAuthUrl
       else microsoftAuthUrl)
    query microsoftAuthUrl.

(** The query of the url that the handler redirects to: every
    parameter of the request but [client_id] is set in turn, then
    [client_id] is set to that of this application. *)
Definition authorize_params (env : Graph.Env) (query : Params) : Params :=
  params_set "client_id" (Graph.MICROSOFT_CLIENT_ID env) (copied query []).

(** [c.redirect(microsoftAuthUrl.toString())]: a 302 to the endpoint
    with that query. *)
Record Redirect : Type := {
  status : Z;
  location : string;
  query : Params
}.

Definition authorize (env : Graph.Env) (request_query : Params) : Redirect :=
  {| status := 302;
     location := Auth.getMicrosoftAuthEndpoint (Graph.MICROSOFT_TENANT_ID env) "authorize";
     query := authorize_params env request_query |}.

End Authorize.

(** ** [POST /token]: [src/api/index.ts] and [src/api/lib/microsoft-auth.ts] *)

Module Token.

(** A thrown value, by the members that [catch] and [onError] read. *)
Record Thrown : Type := {
  name : string;
  status : option Z;
  body : option string;
  message : string
}.

(** [new Error(message)]: its name is [Error], and it has neither a
    status nor a body. *)
Definition Error (message : string) : Thrown :=
  {| name := "Error"; status := None; body := None; message := message |}.

Inductive outcome (A : Type) : Type :=
| Returned (a : A)
| Raised (e : Thrown).
Arguments Returned {A} a.
Arguments Raised {A} e.

(** A Response of the token endpoint of Microsoft: its status, what
    [text()] gives and what [json()] gives (each may reject). *)
Record Response : Type := {
  code : Z;
  text : outcome string;
  json : outcome string
}.

(** One POST to the token endpoint. *)
Record Call : Type := {
  url : string;
  authorization : string;
  params : list (string * string)
}.

(** What each [fetch] to come is going to give (a Response, or the
    value that it rejects with), and the calls made so far. *)
Record Network : Type := {
  answers : list (outcome Response);
  calls : list Call
}.

(** The value that [fetch] rejects with once the script is used up. *)
Definition unreachable : Thrown :=
  {| name := "TypeError"; status := None; body := None; message := "fetch failed" |}.

Section Library.

(** [btoa] *)
Variable btoa : string -> string.

(** [fetch(getMicrosoftAuthEndpoint(tenantId, "api/token"), { method:
    "POST", headers: { Authorization: `Basic ${btoa(...)}` }, body })],
    then [if (!response.ok) throw new Error(...)] and
    [return response.json()]: the shared second half of
    [exchangeCodeForToken] and [refreshAccessToken]. *)
Definition post_token (failure : string) (clientId clientSecret tenantId : string)
           (form : list (string * string)) (net : Network)
  : outcome string * Network :=
  let call := {| url := Auth.getMicrosoftAuthEndpoint tenantId "api/token";
                 authorization := "Basic " +:+ btoa (clientId +:+ ":" +:+ clientSecret);
                 params := form |} in
  match answers net with
  | [] => (Raised unreachable, {| answers := []; calls := calls net ++ [call] |})
  | answer :: rest =>
      let net' := {| answers := rest; calls := calls net ++ [call] |} in
      match answer with
      | Raised e => (Raised e, net')
      | Returned response =>
          if negb (Graph.ok (code response)) then
            match text response with
            | Returned error => (Raised (Error (failure +:+ error)), net')
            | Raised e => (Raised e, net')
            end
          else (json response, net')
      end
  end.

(** An absent [code] or [redirect_uri] goes into the form as the text
    [undefined]; [code_verifier] is appended when it is truthy. *)
Definition exchangeCodeForToken (code redirectUri : option string)
           (clientId clientSecret tenantId : string) (codeVerifier : option string)
  : Network -> outcome string * Network :=
  post_token "Failed to exchange code for token: " clientId clientSecret tenantId
    ([("grant_type", "authorization_code");
      ("code", template code);
      ("redirect_uri", template redirectUri)]
     ++ match codeVerifier with
        | Some (String a r) => [("code_verifier", String a r)]
        | _ => []
        end).

Definition refreshAccessToken (refreshToken : option string)
           (clientId clientSecret tenantId : string)
  : Network -> outcome string * Network :=
  post_token "Failed to refresh token: " clientId clientSecret tenantId
    [("grant_type", "refresh_token");
     ("refresh_token", template refreshToken)].

(** The fields of [await c.req.parseBody()] that the handler reads. *)
Record Form : Type := {
  grant_type : option string;
  form_code : option string;
  redirect_uri : option string;
  code_verifier : option string;
  scope : option string;
  refresh_token : option string
}.

(** What goes back: [c.json(result)]; [c.json(e.body ?? { error:
    "invalid_request" }, { status })]; [c.json({ error:
    "unsupported_grant_type" }, 400)]; or what [onError] makes of
    [throw err]. *)
Inductive Reply : Type :=
| Tokens (result : string)
| OAuthFailure (status : Z) (body : option string)
| Unsupported
| Uncaught (reply : Webhook.HttpReply).

Definition allowedStatuses : list Z :=
  [400; 401; 403; 404; 405; 409; 410; 415; 422; 429; 500; 502; 503; 504].

(** [.onError] on a thrown value: a 401 when its status is 401, a 500
    otherwise. *)
Definition onError (e : Thrown) : Webhook.HttpReply :=
  if bool_decide (status e = Some 401) then
    Webhook.ErrorReply 401 "invalid_token"
      (Some (match message e with
             | EmptyString => "The access token is invalid or expired"
             | _ => message e
             end))
  else Webhook.ErrorReply 500 "server_error" None.

(** The [catch] of the handler. *)
Definition caught (e : Thrown) : Reply :=
  if bool_decide (name e = "OAuthHttpError") then
    let statusCandidate := match status e with
                           | Some 0 | None => 400
                           | Some n => n
                           end in
    OAuthFailure (if bool_decide (In statusCandidate allowedStatuses)
                  then statusCandidate else 400)
                 (body e)
  else Uncaught (onError e).

(** [try { const result = await ...; return c.json(result) } catch (err)
    { ... }]: what the handler makes of a run of either function of
    the library. *)
Definition answered (run : outcome string * Network) : Reply * Network :=
  match run with
  | (Returned result, net') => (Tokens result, net')
  | (Raised err, net') => (caught err, net')
  end.

(** [.post("/token", ...)]. The seventh argument of the call of
    [exchangeCodeForToken], the scope, is one more than the function
    takes. *)
Definition token (env : Graph.Env) (form : Form) (net : Network) : Reply * Network :=
  if bool_decide (grant_type form = Some "authorization_code") then
    answered (exchangeCodeForToken (form_code form) (redirect_uri form)
                (Graph.MICROSOFT_CLIENT_ID env) (Graph.MICROSOFT_CLIENT_SECRET env)
                (Graph.MICROSOFT_TENANT_ID env) (code_verifier form) net)
  else if bool_decide (grant_type form = Some "refresh_token") then
    answered (refreshAccessToken (refresh_token form)
                (Graph.MICROSOFT_CLIENT_ID env) (Graph.MICROSOFT_CLIENT_SECRET env)
                (Graph.MICROSOFT_TENANT_ID env) net)
  else (Unsupported, net).

End Library.

End Token.

(** ** The body of a notification as it arrives: [src/api/index.ts] *)

Module Wire.

(** What [await c.req.json()] and [body.value] make of the body of a
    request. [Unparsable]: the text is not JSON, and [c.req.json()]
    rejects. [NotIterable]: the body is [null], or its [value] is
    absent, [null], a number, a boolean or an object, and the read of
    [body.value] or the [for ... of] throws a TypeError. [Items]:
    [value] is an array, or a text, whose values are its characters. A
    [null] among the values is [None]; every other value is what the
    handlers read of it, and a value that is not an object (a number, a
    text, a character of a text) has none of the members. *)
Inductive Body : Type :=
| Unparsable
| NotIterable
| Items (values : list (option Webhook.Notification)).

(** What a handler reads of the request. *)
Record Request : Type := {
  validationToken : option string;
  x_mcp_name : option string;
  body : Body
}.

(** How a loop ends: at its end, with a value thrown by the body for a
    notification, or with the TypeError of the first read of a member
    of [null] ([bodyValue.resourceData], [bodyValue.clientState]). *)
Inductive ended (B : Type) : Type :=
| Done (acc : B)
| Thrown (e : exn)
| TypeError.
Arguments Done {B} acc.
Arguments Thrown {B} e.
Arguments TypeError {B}.

(** [for (const bodyValue of bodyValues) { ... }]; what was done for
    the values before a [null] stays done. *)
Fixpoint for_of {B : Type} (values : list (option Webhook.Notification))
         (body : Webhook.Notification -> B -> M KV.KVNamespace B) (acc : B)
         (kv : KV.KVNamespace) : ended B * KV.KVNamespace :=
  match values with
  | [] => (Done acc, kv)
  | None :: _ => (TypeError, kv)
  | Some bodyValue :: rest =>
      match body bodyValue acc kv with
      | (Ok acc', kv') => for_of rest body acc' kv'
      | (Throw e, kv') => (Thrown e, kv')
      end
  end.

(** The end of a handler, and [onError] for a thrown value; a
    TypeError has no status, so it is answered as every value whose
    status is not 401 is. *)
Definition finish {A : Type} (name : option string)
           (data : string -> string -> list A -> Webhook.ProcessData)
           (run : ended (Webhook.Collected A) * KV.KVNamespace)
  : Webhook.HttpReply * KV.KVNamespace :=
  match run with
  | (Done acc, kv') => (Webhook.JsonReply 200 (Webhook.respond name acc data), kv')
  | (Thrown e, kv') => (Webhook.onError e, kv')
  | (TypeError, kv') => (Webhook.ErrorReply 500 "server_error" None, kv')
  end.

Section Handlers.

(** [c.env.MICROSOFT_WEBHOOK_SECRET] *)
Variable secret : string.

(** The four handlers, and [onError], on a request with any body. *)
Definition post (route : Webhook.Endpoint) (req : Request) (kv : KV.KVNamespace)
  : Webhook.HttpReply * KV.KVNamespace :=
  match validationToken req with
  | Some (String _ _ as token) => (Webhook.JsonReply 200 (Webhook.challenge token), kv)
  | _ =>
      match body req with
      | Unparsable => (Webhook.onError BodyError, kv)
      | NotIterable => (Webhook.ErrorReply 500 "server_error" None, kv)
      | Items values =>
          match route with
          | Webhook.EmailNotify =>
              finish (x_mcp_name req) Webhook.EmailProcessData
                     (for_of values (Webhook.email_item secret) Webhook.nothing kv)
          | Webhook.CalendarNotify =>
              finish (x_mcp_name req) Webhook.CalendarProcessData
                     (for_of values (Webhook.calendar_item secret (x_mcp_name req))
                             Webhook.nothing kv)
          | Webhook.EmailLifecycle | Webhook.CalendarLifecycle =>
              finish (x_mcp_name req) Webhook.NotificationProcessData
                     (for_of values (Webhook.lifecycle_item secret) Webhook.nothing kv)
          end
      end
  end.

End Handlers.

(** A request whose values are all notifications, as a request with
    any body. *)
Definition of_request (req : Webhook.Request) : Request :=
  {| validationToken := Webhook.validationToken req;
     x_mcp_name := Webhook.x_mcp_name req;
     body := match Webhook.body req with
             | Some bodyValues => Items (map Some bodyValues)
             | None => Unparsable
             end |}.

End Wire.

(** * Vocabulary of the further statements *)

Section TokenVocabulary.
Import Token.

(** The grant types that [/token] serves. *)
Definition supported (form : Form) : Prop :=
  grant_type form = Some "authorization_code"
  \/ grant_type form = Some "refresh_token".

(** The next answer of Microsoft is [response]. *)
Definition next_answer (net : Network) (response : Response) : Prop :=
  exists rest, answers net = Returned response :: rest.

(** The next call rejects with [e]: at [fetch], or, once the Response
    is there, at the one of [text()] and [json()] that is called. *)
Definition rejects_with (net : Network) (e : Thrown) : Prop :=
  (exists rest, answers net = Raised e :: rest)
  \/ (exists response,
        next_answer net response
        /\ if Graph.ok (code response) then json response = Raised e
           else text response = Raised e).

End TokenVocabulary.

Section CalendarVocabulary.
Import KV Webhook.

(** The writes among the operations of a log. *)
Definition is_put (o : op) : bool :=
  match o with
  | Put _ _ _ => true
  | Get _ => false
  end.

Definition writes (l : list op) : list op := List.filter is_put l.

(** The id of a notification that has one. *)
Definition id_of (bodyValue : Notification) : string :=
  match resourceData_id bodyValue with
  | Some id => id
  | None => EmptyString
  end.

(** The event that an accepted notification adds to [events], and the
    write that it makes. *)
Definition event_of (bodyValue : Notification) : CalendarEventNotification :=
  {| eventId := id_of bodyValue; eventType := changeType bodyValue |}.

Definition write_of (name : option string) (bodyValue : Notification) : op :=
  Put (cache_key (nullish name "unknown") (changeType bodyValue) (id_of bodyValue))
      (JSON_stringify bodyValue) (Some DEBOUNCE_TTL).

(** What a request may have done to the entry under [key]: nothing, or
    the store of a notification of the batch under its own key, which held
    nothing readable before. *)
Definition entry_frame (secret : string) (name : option string)
           (bodyValues : list Notification) (kv kv' : KVNamespace) (key : string) : Prop :=
  entries kv' !! key = entries kv !! key
  \/ (truthy (lookup kv key) = false /\
      exists bodyValue,
        In bodyValue bodyValues /\ surviving secret bodyValue /\
        key = own_key name bodyValue (id_of bodyValue) /\
        entries kv' !! key = Some (debounce_entry kv bodyValue)).

(** Every entry of [kv] has a non-empty value and can be read throughout
    the debounce window that starts at the time of [kv0]. *)
Definition durable (kv0 kv : KVNamespace) : Prop :=
  forall key e,
    entries kv !! key = Some e ->
    value e <> EmptyString /\
    match expiration e with
    | None => True
    | Some t => clock kv0 + DEBOUNCE_TTL <= t
    end.

(** The store [kv] has something readable under the own key of the
    notification, or under a key that the branches on its [changeType]
    look up. *)
Definition suppressed_in (name : option string) (kv : KVNamespace)
           (bodyValue : Notification) : Prop :=
  truthy (lookup kv (own_key name bodyValue (id_of bodyValue))) = true
  \/ cross_hit kv (nullish name "unknown") (changeType bodyValue)
               (id_of bodyValue) = true.

(** Whatever can be read in [kv] can be read in [kv']. *)
Definition no_less (kv kv' : KVNamespace) : Prop :=
  forall key, truthy (lookup kv key) = true -> truthy (lookup kv' key) = true.

(** No colon in a string. *)
Fixpoint colon_free (s : string) : bool :=
  match s with
  | EmptyString => true
  | String c rest => negb (Ascii.eqb c ":") && colon_free rest
  end.

(** What a lifecycle notification adds to [events], if anything. *)
Definition lifecycle_contributes (secret : string) (bodyValue : Notification)
  : option string :=
  if authentic secret bodyValue then
    match lifecycleEvent bodyValue with
    | Some (String a r) =>
        if bool_decide (String a r = "missed") then None else Some (String a r)
    | _ => None
    end
  else None.

(** The subscription id of the first notification that adds something
    and has a non-empty one. *)
Definition first_subscription_of {A : Type} (adds : Notification -> option A)
           (bodyValues : list Notification) : option string :=
  head (omap (fun bodyValue =>
                match adds bodyValue, subscriptionId bodyValue with
                | Some _, Some (String a r) => Some (String a r)
                | _, _ => None
                end) bodyValues).

End CalendarVocabulary.

Section PaginationVocabulary.
Import Graph.

(** The url at which the loop stands after the pages of [book], each of
    which has a link, were asked for from [url] on. *)
Fixpoint last_link (url : string) (book : list Json) : string :=
  match book with
  | [] => url
  | page :: rest => last_link (template (odata_nextLink page)) rest
  end.

End PaginationVocabulary.

(** * Further sample data *)

Module Further.
Import KV Webhook.

(** A lifecycle notification, with the right secret. *)
Definition lifecycle_event (event : string) : Notification :=
  {| subscriptionId := Some "sub-cal";
     clientState := Some Sample.secret;
     changeType := None;
     lifecycleEvent := Some event;
     resourceData_id := None;
     members := Sample.member "lifecycleEvent" event |}.

(** A value that is not an object, a character of a text for one: it
    has none of the members that the handlers read. *)
Definition character : Notification :=
  {| subscriptionId := None;
     clientState := None;
     changeType := None;
     lifecycleEvent := None;
     resourceData_id := None;
     members := EmptyString |}.

(** A request with any body. *)
Definition arriving (name : option string) (body : Wire.Body) : Wire.Request :=
  {| Wire.validationToken := None; Wire.x_mcp_name := name; Wire.body := body |}.

(** Answers of the Graph API with a status and no body. *)
Definition expired : Graph.Response :=
  {| Graph.status := 401; Graph.statusText := "Unauthorized"; Graph.json := None |}.

Definition unavailable : Graph.Response :=
  {| Graph.status := 503; Graph.statusText := "Service Unavailable";
     Graph.json := None |}.

(** A token endpoint that turns the refresh down. *)
Definition refusing : Graph.TokenResponse :=
  {| Graph.token_status := 400; Graph.token_text := "invalid_grant";
     Graph.token_json := None |}.

(** Requests of a client to [/token]. *)
Definition code_grant : Token.Form :=
  {| Token.grant_type := Some "authorization_code";
     Token.form_code := Some "c0de";
     Token.redirect_uri := Some "https://client.example/cb";
     Token.code_verifier := Some "verifier";
     Token.scope := None;
     Token.refresh_token := None |}.

(** Microsoft turning a code down. *)
Definition invalid_grant : Token.Response :=
  {| Token.code := 400;
     Token.text := Token.Returned "invalid_grant";
     Token.json := Token.Returned "invalid_grant" |}.

(** A rejection with a value of the name that the handler passes on. *)
Definition teapot : Token.Thrown :=
  {| Token.name := "OAuthHttpError"; Token.status := Some 418;
     Token.body := Some "teapot"; Token.message := EmptyString |}.

Definition upstream (answers : list (Token.outcome Token.Response)) : Token.Network :=
  {| Token.answers := answers; Token.calls := [] |}.

(** A [btoa] that leaves its argument as it is. *)
Definition plain (s : string) : string := s.

End Further.

(** * Properties *)

(** ** Truthiness *)

Lemma truthy_Some_nonempty (s : string) :
  s <> EmptyString -> truthy (Some s) = true.
Proof. destruct s; [congruence | reflexivity]. Qed.

Lemma truthy_inv (o : option string) :
  truthy o = true -> exists s, o = Some s /\ s <> EmptyString.
Proof.
  destruct o as [[|a s]|]; simpl; try discriminate.
  intros _. exists (String a s). split; [reflexivity | discriminate].
Qed.

(** ** The event cache *)

Section CacheFacts.
Import KV.

Lemma lookup_logged (o : op) (kv : KVNamespace) (key : string) :
  lookup (logged o kv) key = lookup kv key.
Proof. reflexivity. Qed.

Lemma get_up (key : string) (kv : KVNamespace) :
  reads_fail kv = false ->
  get key kv = (Ok (lookup kv key), logged (Get key) kv).
Proof. intros H. unfold get. rewrite H. reflexivity. Qed.

Lemma get_down (key : string) (kv : KVNamespace) :
  reads_fail kv = true ->
  get key kv = (Throw KVError, logged (Get key) kv).
Proof. intros H. unfold get. rewrite H. reflexivity. Qed.

(** Under the invariant of the store, a read is truthy exactly when it
    finds an entry. *)
Lemma truthy_lookup (kv : KVNamespace) (key : string) :
  store_inv kv -> truthy (lookup kv key) = bool_decide (is_Some (lookup kv key)).
Proof.
  intros Hinv. unfold lookup.
  destruct (entries kv !! key) as [e|] eqn:He; [|reflexivity].
  destruct (live (clock kv) e); [|reflexivity].
  rewrite truthy_Some_nonempty by (eapply Hinv; eassumption).
  symmetry. apply bool_decide_eq_true. eauto.
Qed.

Lemma store_inv_empty (now : Z) : store_inv (empty now).
Proof. intros key e. unfold empty; simpl. rewrite lookup_empty. discriminate. Qed.

Lemma store_inv_tick (d : Z) (kv : KVNamespace) : store_inv kv -> store_inv (tick d kv).
Proof. intros H key e. apply H. Qed.

Lemma store_inv_logged (o : op) (kv : KVNamespace) :
  store_inv kv -> store_inv (logged o kv).
Proof. intros H key e. apply H. Qed.

Lemma store_inv_put (key data : string) (ttl : option Z) (kv : KVNamespace) :
  data <> EmptyString -> store_inv kv -> store_inv (snd (put key data ttl kv)).
Proof.
  intros Hd H. unfold put. destruct (writes_fail kv); simpl.
  - apply store_inv_logged, H.
  - intros k e. simpl. rewrite lookup_insert. case_decide.
    + intros [= <-]. exact Hd.
    + apply H.
Qed.

(** What a read finds [d] seconds after a successful [put]. *)
Lemma lookup_after_put (key data : string) (ttl : option Z) (kv : KVNamespace) (d : Z) :
  writes_fail kv = false ->
  lookup (tick d (snd (put key data ttl kv))) key =
  match ttl with
  | Some n => if d <? n then Some data else None
  | None => Some data
  end.
Proof.
  intros Hw. unfold put, lookup, tick, live. rewrite Hw. simpl.
  rewrite lookup_insert_eq. simpl. destruct ttl as [n|]; simpl; [|reflexivity].
  destruct (Z.ltb_spec d n); destruct (Z.ltb_spec (clock kv + d) (clock kv + n));
    try reflexivity; lia.
Qed.

End CacheFacts.

Lemma bind_Ok {S A B : Type} (c : M S A) (k : A -> M S B) (s s' : S) (a : A) :
  c s = (Ok a, s') -> bind c k s = k a s'.
Proof. intros H. unfold bind. rewrite H. reflexivity. Qed.

Lemma bind_Throw {S A B : Type} (c : M S A) (k : A -> M S B) (s s' : S) (e : exn) :
  c s = (Throw e, s') -> bind c k s = (Throw e, s').
Proof. intros H. unfold bind. rewrite H. reflexivity. Qed.

(** ** One notification of a calendar batch *)

Section CalendarItem.
Import KV Webhook.

Variable secret : string.

Lemma unchanged_refl (kv : KVNamespace) : unchanged kv kv.
Proof. repeat split. Qed.

Lemma unchanged_logged (o : op) (kv kv' : KVNamespace) :
  unchanged kv kv' -> unchanged kv (logged o kv').
Proof. intros H. exact H. Qed.

Lemma unchanged_lookup (kv kv' : KVNamespace) (key : string) :
  unchanged kv kv' -> lookup kv' key = lookup kv key.
Proof. intros (He & Hc & _). unfold lookup. rewrite He, Hc. reflexivity. Qed.

Lemma cross_type_up (serverName : string) (eventType : option string)
      (eventId : string) (kv : KVNamespace) :
  reads_fail kv = false ->
  exists kv', unchanged kv kv' /\
    cross_type serverName eventType eventId kv
    = (Ok (cross_hit kv serverName eventType eventId), kv').
Proof.
  intros Hr. unfold cross_type, cross_hit, getEventCache, bind.
  repeat case_bool_decide;
    rewrite ?get_up by assumption;
    repeat match goal with
    | |- context [truthy (lookup ?s ?k)] =>
        let E := fresh "E" in
        destruct (truthy (lookup s k)) eqn:E; simpl;
        rewrite ?get_up by assumption; rewrite ?lookup_logged
    end;
    eexists; (split; [|reflexivity]); repeat apply unchanged_logged;
    apply unchanged_refl.
Qed.

(** The run of [calendar_item] on a notification that passes the two
    checks, against a store whose reads succeed. *)
Lemma calendar_item_reads (name : option string) (bodyValue : Notification)
      (acc : Collected CalendarEventNotification) (kv : KVNamespace) (id : string) :
  reads_fail kv = false ->
  authentic secret bodyValue = true ->
  resourceData_id bodyValue = Some id -> id <> EmptyString ->
  exists kv', unchanged kv kv' /\
    calendar_item secret name bodyValue acc kv =
    if truthy (lookup kv (own_key name bodyValue id)) then
      (Ok acc, logged (Get (own_key name bodyValue id)) kv)
    else if cross_hit kv (nullish name "unknown") (changeType bodyValue) id then
      (Ok acc, kv')
    else
      (let* _ := put (own_key name bodyValue id) (JSON_stringify bodyValue)
                     (Some DEBOUNCE_TTL) in
       ret (push (accepted_event bodyValue id) bodyValue acc)) kv'.
Proof.
  intros Hr Ha Hid Hne. unfold calendar_item. rewrite Ha, Hid.
  destruct id as [|a r]; [congruence|]. set (id := String a r) in *.
  cbn [negb]. cbv iota.
  erewrite bind_Ok by (apply get_up; assumption).
  fold (own_key name bodyValue id).
  destruct (truthy (lookup kv (own_key name bodyValue id))) eqn:Hown.
  - exists kv. split; [apply unchanged_refl | reflexivity].
  - destruct (cross_type_up (nullish name "unknown") (changeType bodyValue) id
                (logged (Get (own_key name bodyValue id)) kv) Hr)
      as (kv' & Hun & Hx).
    exists kv'. split; [exact Hun|].
    erewrite bind_Ok by exact Hx.
    replace (cross_hit (logged (Get (own_key name bodyValue id)) kv)
               (nullish name "unknown") (changeType bodyValue) id)
      with (cross_hit kv (nullish name "unknown") (changeType bodyValue) id)
      by reflexivity.
    destruct (cross_hit kv (nullish name "unknown") (changeType bodyValue) id);
      reflexivity.
Qed.

(** The same run when writes succeed too. *)
Lemma calendar_item_up (name : option string) (bodyValue : Notification)
      (acc : Collected CalendarEventNotification) (kv : KVNamespace) (id : string) :
  reads_fail kv = false -> writes_fail kv = false ->
  authentic secret bodyValue = true ->
  resourceData_id bodyValue = Some id -> id <> EmptyString ->
  exists kv', unchanged kv kv' /\
    calendar_item secret name bodyValue acc kv =
    if truthy (lookup kv (own_key name bodyValue id)) then
      (Ok acc, logged (Get (own_key name bodyValue id)) kv)
    else if cross_hit kv (nullish name "unknown") (changeType bodyValue) id then
      (Ok acc, kv')
    else
      (Ok (push (accepted_event bodyValue id) bodyValue acc),
       snd (put (own_key name bodyValue id) (JSON_stringify bodyValue)
                (Some DEBOUNCE_TTL) kv')).
Proof.
  intros Hr Hw Ha Hid Hne.
  destruct (calendar_item_reads name bodyValue acc kv id Hr Ha Hid Hne)
    as (kv' & Hun & Heq).
  exists kv'. split; [exact Hun|]. rewrite Heq.
  destruct (truthy _); [reflexivity|]. destruct (cross_hit _ _ _ _); [reflexivity|].
  unfold bind, put, ret. destruct Hun as (_ & _ & _ & Hw'). rewrite Hw', Hw.
  reflexivity.
Qed.

(** A notification that is dropped by one of the two checks touches
    nothing, not even the log. *)
Lemma calendar_item_dropped (name : option string) (bodyValue : Notification)
      (acc : Collected CalendarEventNotification) (kv : KVNamespace) :
  authentic secret bodyValue = false \/ truthy (resourceData_id bodyValue) = false ->
  calendar_item secret name bodyValue acc kv = (Ok acc, kv).
Proof.
  intros [H|H]; unfold calendar_item.
  - rewrite H. reflexivity.
  - destruct (authentic secret bodyValue); [|reflexivity]. cbn [negb]. cbv iota.
    destruct (resourceData_id bodyValue) as [[|a r]|]; simpl in H; try discriminate;
      reflexivity.
Qed.

(** Every way in which [calendar_item] ends: with the loop variables as
    they were, with a thrown value, or with the notification accepted
    after an unanswered lookup of its own key and of its cross types. *)
Lemma calendar_item_inv (name : option string) (bodyValue : Notification)
      (acc : Collected CalendarEventNotification) (kv : KVNamespace) :
  fst (calendar_item secret name bodyValue acc kv) = Ok acc
  \/ fst (calendar_item secret name bodyValue acc kv) = Throw KVError
  \/ (exists id kv',
        authentic secret bodyValue = true /\
        resourceData_id bodyValue = Some id /\ id <> EmptyString /\
        reads_fail kv = false /\ writes_fail kv = false /\
        truthy (lookup kv (own_key name bodyValue id)) = false /\
        cross_hit kv (nullish name "unknown") (changeType bodyValue) id = false /\
        unchanged kv kv' /\
        calendar_item secret name bodyValue acc kv =
        (Ok (push (accepted_event bodyValue id) bodyValue acc),
         snd (put (own_key name bodyValue id) (JSON_stringify bodyValue)
                  (Some DEBOUNCE_TTL) kv'))).
Proof.
  destruct (authentic secret bodyValue) eqn:Ha;
    [|left; rewrite calendar_item_dropped by auto; reflexivity].
  destruct (truthy (resourceData_id bodyValue)) eqn:Hid;
    [|left; rewrite calendar_item_dropped by auto; reflexivity].
  apply truthy_inv in Hid as (id & Hid & Hne).
  destruct (reads_fail kv) eqn:Hr.
  - right; left. unfold calendar_item. rewrite Ha, Hid.
    destruct id as [|a r]; [congruence|]. cbn [negb]. cbv iota.
    erewrite bind_Throw by (apply get_down; assumption). reflexivity.
  - destruct (calendar_item_reads name bodyValue acc kv id Hr Ha Hid Hne)
      as (kv' & Hun & Heq).
    destruct (truthy (lookup kv (own_key name bodyValue id))) eqn:Hown;
      [left; rewrite Heq; reflexivity|].
    destruct (cross_hit kv (nullish name "unknown") (changeType bodyValue) id) eqn:Hx;
      [left; rewrite Heq; reflexivity|].
    destruct (writes_fail kv) eqn:Hw.
    + right; left. rewrite Heq. unfold bind, put.
      destruct Hun as (_ & _ & _ & Hw'). rewrite Hw', Hw. reflexivity.
    + right; right. exists id, kv'. repeat (split; [first [assumption | reflexivity]|]).
      rewrite Heq. unfold bind, put, ret.
      destruct Hun as (_ & _ & _ & Hw'). rewrite Hw', Hw. reflexivity.
Qed.

Lemma cross_hit_table (kv : KVNamespace) (accountName : string)
      (incoming : option string) (eventId : string) :
  store_inv kv ->
  cross_hit kv accountName incoming eventId
  = suppression_table kv accountName incoming eventId.
Proof.
  intros Hinv. unfold cross_hit, suppression_table, holds, cache_key, template.
  rewrite !truthy_lookup by assumption. reflexivity.
Qed.

Lemma entries_after_put (key data : string) (ttl : Z) (kv kv' : KVNamespace) :
  unchanged kv kv' -> writes_fail kv = false ->
  entries (snd (put key data (Some ttl) kv'))
  = <[key := {| value := data; expiration := Some (clock kv + ttl) |}]> (entries kv).
Proof.
  intros (He & Hc & _ & Hw') Hw. unfold put. rewrite Hw', Hw. simpl.
  rewrite He, Hc. reflexivity.
Qed.


Lemma JSON_stringify_nonempty (bodyValue : Notification) :
  JSON_stringify bodyValue <> EmptyString.
Proof. unfold JSON_stringify. discriminate. Qed.

(** *** The invariant of the store *)

Lemma preserved_ret (P : KVNamespace -> Prop) {A : Type} (a : A) : preserved P (ret a).
Proof. intros kv H. exact H. Qed.

Lemma preserved_bind (P : KVNamespace -> Prop) {A B : Type}
      (c : M KVNamespace A) (k : A -> M KVNamespace B) :
  preserved P c -> (forall a, preserved P (k a)) -> preserved P (bind c k).
Proof.
  intros Hc Hk kv H. unfold bind. specialize (Hc kv H).
  destruct (c kv) as [[a|e] kv']; simpl in *; [apply Hk, Hc | exact Hc].
Qed.

Lemma preserved_get (key : string) : preserved store_inv (get key).
Proof.
  intros kv H. unfold get. destruct (reads_fail kv); apply store_inv_logged, H.
Qed.

Lemma preserved_put (key data : string) (ttl : option Z) :
  data <> EmptyString -> preserved store_inv (put key data ttl).
Proof. intros Hd kv H. apply store_inv_put; assumption. Qed.

Ltac preserve :=
  repeat first
    [ apply preserved_ret
    | apply preserved_get
    | apply preserved_put, JSON_stringify_nonempty
    | apply preserved_bind; [|intros ?]
    | match goal with
      | |- preserved _ (if ?b then _ else _) => destruct b
      end ].

Lemma preserved_cross_type (serverName : string) (eventType : option string)
      (eventId : string) :
  preserved store_inv (cross_type serverName eventType eventId).
Proof. unfold cross_type, getEventCache. preserve. Qed.

Lemma preserved_calendar_item (name : option string) (bodyValue : Notification)
      (acc : Collected CalendarEventNotification) :
  preserved store_inv (calendar_item secret name bodyValue acc).
Proof.
  unfold calendar_item, getEventCache, putEventCache.
  destruct (negb (authentic secret bodyValue)); [apply preserved_ret|].
  destruct (resourceData_id bodyValue) as [[|a r]|]; try apply preserved_ret.
  apply preserved_bind; [apply preserved_get|]. intros eventData.
  destruct (truthy eventData); [apply preserved_ret|].
  apply preserved_bind; [apply preserved_cross_type|]. intros skip.
  preserve.
Qed.

Lemma preserved_throw (P : KVNamespace -> Prop) {A : Type} (e : exn) :
  preserved P (@throw KVNamespace A e).
Proof. intros kv H. exact H. Qed.

Lemma preserved_for_of {A B : Type} (body : A -> B -> M KVNamespace B)
      (xs : list A) :
  (forall x acc, preserved store_inv (body x acc)) ->
  forall acc, preserved store_inv (for_of xs body acc).
Proof.
  intros Hbody. induction xs as [|x xs IH]; intros acc; simpl.
  - apply preserved_ret.
  - apply preserved_bind; [apply Hbody | exact IH].
Qed.

Lemma preserved_email_item (bodyValue : Notification) (acc : Collected string) :
  preserved store_inv (email_item secret bodyValue acc).
Proof.
  unfold email_item. destruct (negb (authentic secret bodyValue)); [apply preserved_ret|].
  destruct (resourceData_id bodyValue) as [[|a r]|]; apply preserved_ret.
Qed.

Lemma preserved_lifecycle_item (bodyValue : Notification) (acc : Collected string) :
  preserved store_inv (lifecycle_item secret bodyValue acc).
Proof.
  unfold lifecycle_item.
  destruct (negb (authentic secret bodyValue)); [apply preserved_ret|].
  destruct (lifecycleEvent bodyValue) as [[|a r]|]; try apply preserved_ret.
  case_bool_decide; apply preserved_ret.
Qed.

(** Every request leaves the invariant of the store in place. *)
Lemma store_inv_post (route : Endpoint) (req : Request) (kv : KVNamespace) :
  store_inv kv -> store_inv (snd (post secret route req kv)).
Proof.
  intros Hinv.
  assert (Hh : preserved store_inv (handler secret route req)).
  { destruct route; simpl; unfold email_notify, lifecycle, calendar_notify;
      destruct (validationToken req) as [[|a r]|];
      destruct (body req) as [bodyValues|];
      try apply preserved_ret; try apply preserved_throw;
      (apply preserved_bind; [|intros acc; apply preserved_ret]);
      apply preserved_for_of; intros x acc;
      first [ apply preserved_email_item
            | apply preserved_lifecycle_item
            | apply preserved_calendar_item ]. }
  specialize (Hh kv Hinv). unfold post.
  destruct (handler secret route req kv) as [[response|err] kv']; exact Hh.
Qed.

(** A store that holds the entry of an accepted notification, within
    the debounce window, suppresses the notification at its own key. *)
Lemma calendar_item_again (name : option string) (bodyValue : Notification)
      (later : Collected CalendarEventNotification) (kv kv2 : KVNamespace)
      (id : string) :
  authentic secret bodyValue = true ->
  resourceData_id bodyValue = Some id -> id <> EmptyString ->
  reads_fail kv2 = false ->
  entries kv2 !! own_key name bodyValue id = Some (debounce_entry kv bodyValue) ->
  clock kv2 < clock kv + DEBOUNCE_TTL ->
  calendar_item secret name bodyValue later kv2
  = (Ok later, logged (Get (own_key name bodyValue id)) kv2).
Proof.
  intros Ha Hid Hne Hr Hent Hclock.
  destruct (calendar_item_reads name bodyValue later kv2 id Hr Ha Hid Hne)
    as (kv3 & _ & Heq).
  rewrite Heq.
  assert (Hlive : lookup kv2 (own_key name bodyValue id)
                  = Some (JSON_stringify bodyValue)).
  { unfold lookup. rewrite Hent. unfold live, debounce_entry. simpl.
    destruct (Z.ltb_spec (clock kv2) (clock kv + DEBOUNCE_TTL));
      [reflexivity | lia]. }
  rewrite Hlive, truthy_Some_nonempty by apply JSON_stringify_nonempty.
  reflexivity.
Qed.

(** The store after the [put] of an accepted notification. *)
Lemma after_accepting (name : option string) (bodyValue : Notification)
      (kv kv' : KVNamespace) (id : string) :
  unchanged kv kv' -> reads_fail kv = false -> writes_fail kv = false ->
  let kv2 := snd (put (own_key name bodyValue id) (JSON_stringify bodyValue)
                      (Some DEBOUNCE_TTL) kv') in
  entries kv2 !! own_key name bodyValue id = Some (debounce_entry kv bodyValue) /\
  reads_fail kv2 = false /\ clock kv2 = clock kv.
Proof.
  intros Hun Hr Hw kv2. split.
  - unfold kv2. rewrite (entries_after_put _ _ _ kv kv') by assumption.
    apply lookup_insert_eq.
  - unfold kv2, put. destruct Hun as (_ & Hc & Hr' & Hw').
    rewrite Hw', Hw. simpl. rewrite Hr', Hc. auto.
Qed.

(** C2. A notification that passed the two checks and whose own key
    [accountName:changeType:eventId] is in the cache is suppressed after
    that one lookup, before any lookup of the tie-break table. An
    accepted notification stores an entry under its own key for the
    debounce window, so the same notification delivered again less than
    [DEBOUNCE_TTL] seconds later is suppressed. Of two deliveries of a
    notification that the cache has no reason to suppress, exactly one is
    accepted. *)
Theorem self_deduplication (name : option string) (bodyValue : Notification)
        (kv : KVNamespace) (id : string) :
  authentic secret bodyValue = true ->
  resourceData_id bodyValue = Some id -> id <> EmptyString ->
  (store_inv kv -> reads_fail kv = false ->
   is_Some (lookup kv (own_key name bodyValue id)) ->
   forall acc,
     calendar_item secret name bodyValue acc kv
     = (Ok acc, logged (Get (own_key name bodyValue id)) kv))
  /\
  (forall acc acc',
     fst (calendar_item secret name bodyValue acc kv) = Ok acc' ->
     items acc' <> items acc ->
     acc' = push (accepted_event bodyValue id) bodyValue acc /\
     entries (snd (calendar_item secret name bodyValue acc kv))
       !! own_key name bodyValue id = Some (debounce_entry kv bodyValue) /\
     forall (d : Z) (later : Collected CalendarEventNotification),
       0 <= d < DEBOUNCE_TTL ->
       calendar_item secret name bodyValue later
         (tick d (snd (calendar_item secret name bodyValue acc kv)))
       = (Ok later,
          logged (Get (own_key name bodyValue id))
            (tick d (snd (calendar_item secret name bodyValue acc kv)))))
  /\
  (store_inv kv -> reads_fail kv = false -> writes_fail kv = false ->
   lookup kv (own_key name bodyValue id) = None ->
   suppression_table kv (nullish name "unknown") (changeType bodyValue) id = false ->
   forall acc,
     fst (for_of [bodyValue; bodyValue] (calendar_item secret name) acc kv)
     = Ok (push (accepted_event bodyValue id) bodyValue acc)).
Proof.
  intros Ha Hid Hne. split; [|split].
  - intros Hinv Hr Hsome acc.
    destruct (calendar_item_reads name bodyValue acc kv id Hr Ha Hid Hne)
      as (kv' & _ & Heq).
    rewrite Heq, truthy_lookup by assumption.
    rewrite bool_decide_eq_true_2 by assumption. reflexivity.
  - intros acc acc' Hacc Hitems.
    destruct (calendar_item_inv name bodyValue acc kv)
      as [H | [H | (id' & kv' & _ & Hid' & _ & Hr & Hw & _ & _ & Hun & Heq)]].
    + rewrite H in Hacc. injection Hacc as <-. contradiction.
    + rewrite H in Hacc. discriminate.
    + rewrite Hid in Hid'. injection Hid' as <-.
      rewrite Heq in Hacc |- *. simpl in Hacc. injection Hacc as <-.
      simpl snd.
      destruct (after_accepting name bodyValue kv kv' id Hun Hr Hw)
        as (Hent & Hr2 & Hc2).
      split; [reflexivity|]. split; [exact Hent|].
      intros d later Hd.
      apply (calendar_item_again name bodyValue later kv); try assumption.
      simpl. rewrite Hc2. lia.
  - intros Hinv Hr Hw Hown Htab acc.
    destruct (calendar_item_up name bodyValue acc kv id Hr Hw Ha Hid Hne)
      as (kv' & Hun & Heq).
    rewrite Hown, cross_hit_table, Htab in Heq by assumption. cbn [truthy] in Heq.
    destruct (after_accepting name bodyValue kv kv' id Hun Hr Hw)
      as (Hent & Hr2 & Hc2).
    assert (Hclock : clock (snd (put (own_key name bodyValue id)
                                     (JSON_stringify bodyValue)
                                     (Some DEBOUNCE_TTL) kv'))
                     < clock kv + DEBOUNCE_TTL)
      by (rewrite Hc2; unfold DEBOUNCE_TTL; lia).
    cbn [for_of]. erewrite bind_Ok by exact Heq.
    erewrite bind_Ok
      by exact (calendar_item_again name bodyValue _ kv _ id Ha Hid Hne Hr2 Hent Hclock).
    reflexivity.
Qed.

End CalendarItem.

(** ** Batches *)

Section Batches.
Import KV Webhook.

Variable secret : string.

Lemma for_of_filter {A B : Type} (keep : A -> bool) (body : A -> B -> M KVNamespace B) :
  (forall x acc kv, keep x = false -> body x acc kv = (Ok acc, kv)) ->
  forall xs acc kv,
    for_of xs body acc kv = for_of (List.filter keep xs) body acc kv.
Proof.
  intros Hdrop. induction xs as [|x xs IH]; intros acc kv; simpl; [reflexivity|].
  destruct (keep x) eqn:Hk.
  - simpl. unfold bind. destruct (body x acc kv) as [[acc'|e] kv'];
      [apply IH | reflexivity].
  - unfold bind. rewrite Hdrop by assumption. apply IH.
Qed.

Lemma for_of_pure {A B : Type} (body : A -> B -> M KVNamespace B) :
  (forall x acc kv, exists acc', body x acc kv = (Ok acc', kv)) ->
  forall xs acc kv, exists acc', for_of xs body acc kv = (Ok acc', kv).
Proof.
  intros Hpure. induction xs as [|x xs IH]; intros acc kv; simpl.
  - exists acc. reflexivity.
  - destruct (Hpure x acc kv) as (acc1 & H1). unfold bind. rewrite H1. apply IH.
Qed.

Lemma email_item_run (bodyValue : Notification) (acc : Collected string)
      (kv : KVNamespace) :
  email_item secret bodyValue acc kv
  = (Ok (match contributes secret bodyValue with
         | Some resourceId => push resourceId bodyValue acc
         | None => acc
         end), kv).
Proof.
  unfold email_item, contributes. destruct (authentic secret bodyValue); simpl;
    [|reflexivity].
  destruct (resourceData_id bodyValue) as [[|a r]|]; reflexivity.
Qed.

Lemma email_item_pure (bodyValue : Notification) (acc : Collected string)
      (kv : KVNamespace) :
  exists acc', email_item secret bodyValue acc kv = (Ok acc', kv).
Proof. eexists. apply email_item_run. Qed.

Lemma lifecycle_item_pure (bodyValue : Notification) (acc : Collected string)
      (kv : KVNamespace) :
  exists acc', lifecycle_item secret bodyValue acc kv = (Ok acc', kv).
Proof.
  unfold lifecycle_item. destruct (authentic secret bodyValue); simpl; [|eauto].
  destruct (lifecycleEvent bodyValue) as [[|a r]|]; [eauto| |eauto].
  case_bool_decide; eauto.
Qed.

Lemma lifecycle_item_dropped (bodyValue : Notification) (acc : Collected string)
      (kv : KVNamespace) :
  authentic secret bodyValue = false ->
  lifecycle_item secret bodyValue acc kv = (Ok acc, kv).
Proof. intros H. unfold lifecycle_item. rewrite H. reflexivity. Qed.

Lemma email_item_dropped (bodyValue : Notification) (acc : Collected string)
      (kv : KVNamespace) :
  authentic secret bodyValue = false ->
  email_item secret bodyValue acc kv = (Ok acc, kv).
Proof. intros H. unfold email_item. rewrite H. reflexivity. Qed.

Lemma respond_acknowledges {A : Type} (name : option string) (acc : Collected A)
      (data : string -> string -> list A -> ProcessData) :
  exists d, respond name acc data = acknowledge d.
Proof.
  unfold respond. destruct (subscription acc) as [[|a r]|]; eauto.
  destruct name as [[|a' r']|]; eauto. destruct (items acc); eauto.
Qed.

(** Without a challenge to answer, a handler parses the body and runs
    its loop. *)
Lemma email_notify_batch (req : Request) (bodyValues : list Notification) :
  truthy (validationToken req) = false -> body req = Some bodyValues ->
  email_notify secret req
  = (let* acc := for_of bodyValues (email_item secret) nothing in
     ret (respond (x_mcp_name req) acc EmailProcessData)).
Proof.
  intros Ht Hb. unfold email_notify. rewrite Hb.
  destruct (validationToken req) as [[|a r]|]; simpl in Ht; try discriminate;
    reflexivity.
Qed.

Lemma lifecycle_batch (req : Request) (bodyValues : list Notification) :
  truthy (validationToken req) = false -> body req = Some bodyValues ->
  lifecycle secret req
  = (let* acc := for_of bodyValues (lifecycle_item secret) nothing in
     ret (respond (x_mcp_name req) acc NotificationProcessData)).
Proof.
  intros Ht Hb. unfold lifecycle. rewrite Hb.
  destruct (validationToken req) as [[|a r]|]; simpl in Ht; try discriminate;
    reflexivity.
Qed.

Lemma calendar_notify_batch (req : Request) (bodyValues : list Notification) :
  truthy (validationToken req) = false -> body req = Some bodyValues ->
  calendar_notify secret req
  = (let* acc := for_of bodyValues (calendar_item secret (x_mcp_name req)) nothing in
     ret (respond (x_mcp_name req) acc CalendarProcessData)).
Proof.
  intros Ht Hb. unfold calendar_notify. rewrite Hb.
  destruct (validationToken req) as [[|a r]|]; simpl in Ht; try discriminate;
    reflexivity.
Qed.

(** Against a store that answers, the calendar loop runs to its end. *)
Lemma calendar_item_total (name : option string) (bodyValue : Notification)
      (acc : Collected CalendarEventNotification) (kv : KVNamespace) :
  reads_fail kv = false -> writes_fail kv = false ->
  exists acc' kv',
    calendar_item secret name bodyValue acc kv = (Ok acc', kv') /\
    reads_fail kv' = false /\ writes_fail kv' = false.
Proof.
  intros Hr Hw.
  destruct (authentic secret bodyValue) eqn:Ha;
    [|exists acc, kv; rewrite calendar_item_dropped by auto; auto].
  destruct (truthy (resourceData_id bodyValue)) eqn:Hid;
    [|exists acc, kv; rewrite calendar_item_dropped by auto; auto].
  apply truthy_inv in Hid as (id & Hid & Hne).
  destruct (calendar_item_up secret name bodyValue acc kv id Hr Hw Ha Hid Hne)
    as (kv' & (He & Hc & Hr' & Hw') & Heq).
  rewrite Heq. destruct (truthy _); [eauto|]. destruct (cross_hit _ _ _ _).
  - exists acc, kv'. rewrite Hr', Hw'. auto.
  - eexists _, _. split; [reflexivity|]. unfold put. rewrite Hw', Hw. simpl.
    rewrite Hr'. auto.
Qed.

Lemma calendar_loop_total (name : option string) (bodyValues : list Notification) :
  forall (acc : Collected CalendarEventNotification) (kv : KVNamespace),
    reads_fail kv = false -> writes_fail kv = false ->
    exists acc' kv',
      for_of bodyValues (calendar_item secret name) acc kv = (Ok acc', kv').
Proof.
  induction bodyValues as [|b bs IH]; intros acc kv Hr Hw; simpl.
  - exists acc, kv. reflexivity.
  - destruct (calendar_item_total name b acc kv Hr Hw) as (acc1 & kv1 & H1 & Hr1 & Hw1).
    unfold bind. rewrite H1. apply IH; assumption.
Qed.

(** C5 (as amended). On each of the four notification endpoints, a
    request whose [validationToken] query parameter is not empty is
    answered with code 200, content type text and the token itself as
    content, whatever the body (even one that does not parse), the
    header, the secret and the cache are; the cache is neither read nor
    written. *)
Theorem handshake_precedence (route : Endpoint) (req : Request)
        (kv : KVNamespace) (token : string) :
  validationToken req = Some token -> token <> EmptyString ->
  post secret route req kv = (JsonReply 200 (challenge token), kv).
Proof.
  intros Htok Hne. destruct token as [|a r]; [congruence|].
  unfold post. destruct route; simpl;
    unfold email_notify, lifecycle, calendar_notify; rewrite Htok; reflexivity.
Qed.

Lemma post_loop {A : Type} (body : Notification -> Collected A -> M KVNamespace (Collected A))
      (name : option string) (data : string -> string -> list A -> ProcessData)
      (bodyValues : list Notification) (kv : KVNamespace) :
  (forall x acc s, authentic secret x = false -> body x acc s = (Ok acc, s)) ->
  (let* acc := for_of bodyValues body nothing in ret (respond name acc data)) kv
  = (let* acc := for_of (List.filter (authentic secret) bodyValues) body nothing in
     ret (respond name acc data)) kv.
Proof.
  intros Hdrop. unfold bind.
  rewrite (for_of_filter (authentic secret) body Hdrop). reflexivity.
Qed.

(** The two halves of the statement below for a handler whose loop does
    not touch the cache. *)
Ltac pure_route item dropped pure bodyValues kv Hack :=
  split;
  [ simpl x_mcp_name; rewrite (post_loop item) by apply dropped; reflexivity
  | left;
    let acc := fresh "acc" in
    let Hacc := fresh "Hacc" in
    destruct (for_of_pure item pure bodyValues nothing kv) as (acc & Hacc);
    unfold bind; rewrite Hacc; unfold ret;
    match goal with
    | |- context [respond ?name acc ?data] =>
        let d := fresh "d" in
        destruct (Hack _ name acc data) as (d & ->)
    end;
    eauto ].

(** The loop of the calendar handler throws nothing but what the
    cache throws, and throws at a notification that passed the two
    checks. *)
Lemma calendar_loop_raises (name : option string) (bodyValues : list Notification) :
  forall (acc : Collected CalendarEventNotification) (kv kv' : KVNamespace) (e : exn),
    for_of bodyValues (calendar_item secret name) acc kv = (Throw e, kv') ->
    e = KVError /\ Exists (surviving secret) bodyValues.
Proof.
  induction bodyValues as [|b bs IH]; intros acc kv kv' e H; simpl in H; [discriminate|].
  unfold bind in H.
  destruct (authentic secret b) eqn:Ha; [destruct (truthy (resourceData_id b)) eqn:Hid|].
  - pose proof (calendar_item_inv secret name b acc kv) as Hstep.
    destruct (calendar_item secret name b acc kv) as [[acc1|e1] kv1].
    + destruct (IH _ _ _ _ H) as (He & Hex). split; [exact He|]. now apply Exists_cons_tl.
    + injection H as <- _. split; [|apply Exists_cons_hd; now split].
      destruct Hstep as [Hs|[Hs|(id & kv2 & _ & _ & _ & _ & _ & _ & _ & _ & Hs)]];
        simpl in Hs; congruence.
  - rewrite calendar_item_dropped in H by auto.
    destruct (IH _ _ _ _ H) as (He & Hex). split; [exact He|]. now apply Exists_cons_tl.
  - rewrite calendar_item_dropped in H by auto.
    destruct (IH _ _ _ _ H) as (He & Hex). split; [exact He|]. now apply Exists_cons_tl.
Qed.

(** C6 (as amended). In a batch, a notification whose [clientState] is
    not the configured secret is passed over: on each endpoint, and
    whatever the state of the cache, the request is handled as the same
    request without these notifications is, reply and cache alike. And
    the batch is answered with code 202, content type json and the
    content [{ ok: true }], with or without something to process, on
    every endpoint but one: on the calendar path, where the cache is read
    and written, a batch that holds a notification with the right secret
    and an id may get the 500 [server_error] instead when the cache
    rejects a read or a write. *)
Theorem silent_drop_and_acknowledgment (route : Endpoint) (req : Request)
        (bodyValues : list Notification) (kv : KVNamespace) :
  truthy (validationToken req) = false -> body req = Some bodyValues ->
  post secret route req kv
  = post secret route
         (with_batch req (List.filter (authentic secret) bodyValues)) kv
  /\
  ((exists data kv',
      post secret route req kv
      = (JsonReply 200
           {| reqResponseCode := 202;
              reqResponseContent :=
                "{" +:+ String (ascii_of_nat 34)
                          ("ok" +:+ String (ascii_of_nat 34) ":true}");
              reqResponseContentType := json;
              processData := data |},
         kv'))
   \/ (route = CalendarNotify
       /\ (reads_fail kv = true \/ writes_fail kv = true)
       /\ Exists (surviving secret) bodyValues
       /\ exists kv',
           post secret route req kv = (ErrorReply 500 "server_error" None, kv'))).
Proof.
  intros Ht Hb.
  assert (Ht' : forall xs, truthy (validationToken (with_batch req xs)) = false)
    by (intros; exact Ht).
  assert (Hb' : forall xs, body (with_batch req xs) = Some xs) by reflexivity.
  assert (Hack : forall A name (acc : Collected A) data,
             exists d, respond name acc data
                       = {| reqResponseCode := 202;
                            reqResponseContent :=
                              "{" +:+ String (ascii_of_nat 34)
                                        ("ok" +:+ String (ascii_of_nat 34) ":true}");
                            reqResponseContentType := json;
                            processData := d |}).
  { intros A name acc data.
    destruct (respond_acknowledges name acc data) as (d & ->). exists d. reflexivity. }
  unfold post. destruct route; simpl handler.
  - rewrite (email_notify_batch req bodyValues Ht Hb).
    rewrite (email_notify_batch _ _ (Ht' _) (Hb' _)).
    pure_route (email_item secret) email_item_dropped email_item_pure
               bodyValues kv Hack.
  - rewrite (lifecycle_batch req bodyValues Ht Hb).
    rewrite (lifecycle_batch _ _ (Ht' _) (Hb' _)).
    pure_route (lifecycle_item secret) lifecycle_item_dropped lifecycle_item_pure
               bodyValues kv Hack.
  - rewrite (calendar_notify_batch req bodyValues Ht Hb).
    rewrite (calendar_notify_batch _ _ (Ht' _) (Hb' _)). split.
    + simpl x_mcp_name.
      rewrite (post_loop (calendar_item secret (x_mcp_name req)))
        by (intros; apply calendar_item_dropped; auto).
      reflexivity.
    + unfold bind.
      destruct (for_of bodyValues (calendar_item secret (x_mcp_name req)) nothing kv)
        as [[acc|e] kv1] eqn:Hloop.
      * left. unfold ret.
        destruct (Hack _ (x_mcp_name req) acc CalendarProcessData) as (d & ->).
        eauto.
      * right. split; [reflexivity|].
        destruct (calendar_loop_raises _ _ _ _ _ _ Hloop) as (-> & Hex).
        split; [|split; [exact Hex|eauto]].
        destruct (reads_fail kv) eqn:Hr; [auto|].
        destruct (writes_fail kv) eqn:Hw; [auto|].
        destruct (calendar_loop_total (x_mcp_name req) bodyValues nothing kv Hr Hw)
          as (acc & kv2 & Hok). congruence.
  - rewrite (lifecycle_batch req bodyValues Ht Hb).
    rewrite (lifecycle_batch _ _ (Ht' _) (Hb' _)).
    pure_route (lifecycle_item secret) lifecycle_item_dropped lifecycle_item_pure
               bodyValues kv Hack.
Qed.

(** *** A cache that does not answer *)

Lemma calendar_item_reads_fail (name : option string) (bodyValue : Notification)
      (acc : Collected CalendarEventNotification) (kv : KVNamespace) :
  reads_fail kv = true -> surviving secret bodyValue ->
  exists kv', calendar_item secret name bodyValue acc kv = (Throw KVError, kv').
Proof.
  intros Hr (Ha & Hid). apply truthy_inv in Hid as (id & Hid & Hne).
  unfold calendar_item. rewrite Ha, Hid. destruct id as [|a r]; [congruence|].
  cbn [negb]. cbv iota. erewrite bind_Throw by (apply get_down; assumption). eauto.
Qed.

Lemma calendar_loop_reads_fail (name : option string) (bodyValues : list Notification) :
  forall (acc : Collected CalendarEventNotification) (kv : KVNamespace),
    reads_fail kv = true -> Exists (surviving secret) bodyValues ->
    exists kv',
      for_of bodyValues (calendar_item secret name) acc kv = (Throw KVError, kv').
Proof.
  induction bodyValues as [|b bs IH]; intros acc kv Hr Hex.
  - inversion Hex.
  - simpl.
    destruct (authentic secret b) eqn:Ha; [destruct (truthy (resourceData_id b)) eqn:Hid|].
    + destruct (calendar_item_reads_fail name b acc kv Hr (conj Ha Hid)) as (kv' & H).
      exists kv'. apply bind_Throw. exact H.
    + erewrite bind_Ok by (apply calendar_item_dropped; auto).
      apply IH; [assumption|]. apply Exists_cons in Hex as [(_ & Hs)|Hex]; [congruence|exact Hex].
    + erewrite bind_Ok by (apply calendar_item_dropped; auto).
      apply IH; [assumption|]. apply Exists_cons in Hex as [(Hs & _)|Hex]; [congruence|exact Hex].
Qed.

Lemma store_inv_unchanged (kv kv' : KVNamespace) :
  unchanged kv kv' -> store_inv kv -> store_inv kv'.
Proof. intros (He & _) H key e. rewrite He. apply H. Qed.

Lemma suppression_table_unchanged (kv kv' : KVNamespace) (accountName : string)
      (incoming : option string) (eventId : string) :
  unchanged kv kv' ->
  suppression_table kv' accountName incoming eventId
  = suppression_table kv accountName incoming eventId.
Proof.
  intros Hun. unfold suppression_table, holds.
  rewrite !(unchanged_lookup kv kv') by assumption. reflexivity.
Qed.

Lemma acceptable_unchanged (name : option string) (kv kv' : KVNamespace)
      (bodyValue : Notification) :
  unchanged kv kv' ->
  acceptable secret name kv bodyValue -> acceptable secret name kv' bodyValue.
Proof.
  intros Hun (Ha & id & Hid & Hne & Hown & Htab). split; [exact Ha|].
  exists id.
  rewrite (unchanged_lookup kv kv'), (suppression_table_unchanged kv kv') by assumption.
  auto.
Qed.

(** With writes that fail, [calendar_item] either leaves everything as
    it was or throws, and it throws on a notification that it would
    accept. *)
Lemma calendar_item_writes_fail (name : option string) (bodyValue : Notification)
      (acc : Collected CalendarEventNotification) (kv : KVNamespace) :
  store_inv kv -> reads_fail kv = false -> writes_fail kv = true ->
  (exists kv', calendar_item secret name bodyValue acc kv = (Throw KVError, kv'))
  \/ (~ acceptable secret name kv bodyValue /\
      exists kv', unchanged kv kv' /\
        calendar_item secret name bodyValue acc kv = (Ok acc, kv')).
Proof.
  intros Hinv Hr Hw.
  destruct (authentic secret bodyValue) eqn:Ha.
  2: { right. split; [intros (Ha' & _); congruence|]. exists kv.
       split; [apply unchanged_refl | apply calendar_item_dropped; auto]. }
  destruct (truthy (resourceData_id bodyValue)) eqn:Hid.
  2: { right. split.
       - intros (_ & id & Hid' & Hne & _). rewrite Hid' in Hid.
         rewrite truthy_Some_nonempty in Hid by assumption. discriminate.
       - exists kv. split; [apply unchanged_refl | apply calendar_item_dropped; auto]. }
  apply truthy_inv in Hid as (id & Hid & Hne).
  destruct (calendar_item_reads secret name bodyValue acc kv id Hr Ha Hid Hne)
    as (kv' & Hun & Heq).
  rewrite Heq, cross_hit_table by assumption.
  destruct (truthy (lookup kv (own_key name bodyValue id))) eqn:Hown.
  - right. split.
    + intros (_ & id' & Hid' & _ & Hnone & _). rewrite Hid in Hid'.
      injection Hid' as <-. rewrite Hnone in Hown. discriminate.
    + eexists. split; [|reflexivity]. apply unchanged_logged, unchanged_refl.
  - destruct (suppression_table kv (nullish name "unknown") (changeType bodyValue) id)
      eqn:Htab.
    + right. split.
      * intros (_ & id' & Hid' & _ & _ & Htab'). rewrite Hid in Hid'.
        injection Hid' as <-. congruence.
      * eauto.
    + left. unfold bind, put. destruct Hun as (_ & _ & _ & Hw'). rewrite Hw', Hw.
      eauto.
Qed.

Lemma calendar_loop_writes_fail (name : option string) (bodyValues : list Notification) :
  forall (acc : Collected CalendarEventNotification) (kv : KVNamespace),
    store_inv kv -> reads_fail kv = false -> writes_fail kv = true ->
    Exists (acceptable secret name kv) bodyValues ->
    exists kv',
      for_of bodyValues (calendar_item secret name) acc kv = (Throw KVError, kv').
Proof.
  induction bodyValues as [|b bs IH]; intros acc kv Hinv Hr Hw Hex.
  - inversion Hex.
  - simpl.
    destruct (calendar_item_writes_fail name b acc kv Hinv Hr Hw)
      as [(kv' & H) | (Hno & kv' & Hun & H)].
    + exists kv'. apply bind_Throw. exact H.
    + erewrite bind_Ok by exact H.
      apply Exists_cons in Hex as [Hb|Hex]; [contradiction|].
      pose proof Hun as (_ & _ & Hr' & Hw').
      apply IH.
      * eapply store_inv_unchanged; eassumption.
      * congruence.
      * congruence.
      * eapply Exists_impl; [exact Hex|]. intros x. apply acceptable_unchanged. exact Hun.
Qed.

(** C8 (as amended). The calendar endpoint does not catch a failure of
    the cache. When reads fail and some notification of the batch passes
    the two checks, or when writes fail and some notification of the
    batch would be accepted, the handler throws at that notification, no
    event is handed on, and what goes back to the provider is the 500
    [server_error] of [onError]. *)
Theorem cache_failure_is_not_caught (req : Request) (bodyValues : list Notification)
        (kv : KVNamespace) :
  truthy (validationToken req) = false -> body req = Some bodyValues ->
  (reads_fail kv = true -> Exists (surviving secret) bodyValues ->
   fst (post secret CalendarNotify req kv) = ErrorReply 500 "server_error" None)
  /\
  (store_inv kv -> reads_fail kv = false -> writes_fail kv = true ->
   Exists (acceptable secret (x_mcp_name req) kv) bodyValues ->
   fst (post secret CalendarNotify req kv) = ErrorReply 500 "server_error" None).
Proof.
  intros Ht Hb. unfold post. simpl handler.
  rewrite (calendar_notify_batch req bodyValues Ht Hb). split.
  - intros Hr Hex.
    destruct (calendar_loop_reads_fail (x_mcp_name req) bodyValues nothing kv Hr Hex)
      as (kv' & H).
    erewrite bind_Throw by exact H. reflexivity.
  - intros Hinv Hr Hw Hex.
    destruct (calendar_loop_writes_fail (x_mcp_name req) bodyValues nothing kv
                Hinv Hr Hw Hex) as (kv' & H).
    erewrite bind_Throw by exact H. reflexivity.
Qed.

(** *** The email path *)

Lemma first_subscription_Some (bodyValues : list Notification) (sub : string) :
  first_subscription secret bodyValues = Some sub ->
  sub <> EmptyString /\ email_ids secret bodyValues <> [].
Proof.
  unfold first_subscription, email_ids.
  induction bodyValues as [|b bs IH]; simpl; [discriminate|].
  destruct (contributes secret b) as [id|]; [|exact IH].
  destruct (subscriptionId b) as [[|a r]|]; simpl.
  - intros H. split; [apply IH, H | discriminate].
  - intros [= <-]. split; discriminate.
  - intros H. split; [apply IH, H | discriminate].
Qed.

Lemma email_loop_run (bodyValues : list Notification) :
  forall (acc : Collected string) (kv : KVNamespace),
  exists acc',
    for_of bodyValues (email_item secret) acc kv = (Ok acc', kv) /\
    items acc' = items acc ++ email_ids secret bodyValues /\
    (truthy (subscription acc) = true -> subscription acc' = subscription acc) /\
    (truthy (subscription acc) = false ->
     match first_subscription secret bodyValues with
     | Some sub => subscription acc' = Some sub
     | None => truthy (subscription acc') = false
     end).
Proof.
  unfold first_subscription, email_ids.
  induction bodyValues as [|b bs IH]; intros acc kv; simpl.
  - exists acc. rewrite app_nil_r. auto.
  - erewrite bind_Ok by apply email_item_run.
    destruct (contributes secret b) as [id|]; [|apply IH].
    destruct (IH (push id b acc) kv) as (acc' & Hrun & Hitems & Hkeep & Hfirst).
    exists acc'. split; [exact Hrun|]. split.
    { rewrite Hitems. simpl. rewrite <- app_assoc. reflexivity. }
    simpl in Hkeep, Hfirst.
    destruct (truthy (subscription acc)) eqn:Hs.
    + split; [intros _; apply Hkeep, Hs | discriminate].
    + split; [discriminate|]. intros _.
      destruct (subscriptionId b) as [[|a r]|]; simpl in *;
        first [exact (Hfirst eq_refl) | exact (Hkeep eq_refl)].
Qed.

(** C10 (as amended). On the email path a notification whose
    [clientState] is the secret and whose [resourceData.id] is not empty
    adds its id to [emailIds], once for each time it is delivered, without
    a read or a write of the cache: the handler gives back the cache as
    it got it, log included, and its answer does not depend on it. The
    list is handed on as [processData] when the request has a non-empty
    [x-mcp-name] header and one of these notifications has a non-empty
    subscription id, and not otherwise. Of the four endpoints, only
    calendar-notify touches the cache. *)
Theorem email_path_has_no_deduplication (req : Request)
        (bodyValues : list Notification) (kv : KVNamespace) :
  truthy (validationToken req) = false -> body req = Some bodyValues ->
  email_notify secret req kv
  = (Ok (acknowledge
           match x_mcp_name req, first_subscription secret bodyValues with
           | Some (String a r), Some sub =>
               Some (EmailProcessData (String a r) sub (email_ids secret bodyValues))
           | _, _ => None
           end), kv)
  /\
  (forall bodyValue id,
     contributes secret bodyValue = Some id ->
     email_ids secret [bodyValue; bodyValue] = [id; id])
  /\
  (forall route, route <> CalendarNotify -> snd (post secret route req kv) = kv).
Proof.
  intros Ht Hb. split; [|split].
  - rewrite (email_notify_batch req bodyValues Ht Hb).
    destruct (email_loop_run bodyValues nothing kv)
      as (acc & Hrun & Hitems & _ & Hfirst).
    erewrite bind_Ok by exact Hrun. unfold ret. f_equal. f_equal.
    simpl in Hitems. specialize (Hfirst eq_refl). unfold respond.
    destruct (first_subscription secret bodyValues) as [sub|] eqn:Hsub.
    + destruct (first_subscription_Some bodyValues sub Hsub) as (Hne & Hids).
      rewrite Hfirst, Hitems. destruct sub as [|a r]; [congruence|].
      destruct (x_mcp_name req) as [[|a' r']|]; try reflexivity.
      destruct (email_ids secret bodyValues); [congruence | reflexivity].
    + destruct (subscription acc) as [[|a r]|]; simpl in Hfirst; try discriminate;
        destruct (x_mcp_name req) as [[|a' r']|]; reflexivity.
  - intros bodyValue id H. unfold email_ids. simpl. rewrite H. reflexivity.
  - intros route Hroute. unfold post.
    destruct route; simpl handler; [| |congruence|].
    + rewrite (email_notify_batch req bodyValues Ht Hb).
      destruct (email_loop_run bodyValues nothing kv) as (acc & Hrun & _).
      erewrite bind_Ok by exact Hrun. reflexivity.
    + rewrite (lifecycle_batch req bodyValues Ht Hb).
      destruct (for_of_pure (lifecycle_item secret) lifecycle_item_pure
                  bodyValues nothing kv) as (acc & Hrun).
      erewrite bind_Ok by exact Hrun. reflexivity.
    + rewrite (lifecycle_batch req bodyValues Ht Hb).
      destruct (for_of_pure (lifecycle_item secret) lifecycle_item_pure
                  bodyValues nothing kv) as (acc & Hrun).
      erewrite bind_Ok by exact Hrun. reflexivity.
Qed.

End Batches.

(** ** The Graph client *)

Section Client.
Import Graph.

Lemma ok_not_401 (status : Z) : ok status = true -> (status =? 401) = false.
Proof.
  unfold ok. intros H. apply andb_true_iff in H as (_ & H).
  apply Z.leb_le in H. apply Z.eqb_neq. lia.
Qed.

Lemma fetch_graph_next (url method : string) (this : MicrosoftService) (net : Network)
      (response : Response) (rest : list Response) :
  graph net = response :: rest ->
  fetch_graph url method (this, net)
  = (Ok response,
     (this, {| graph := rest; login := login net;
               trace := trace net ++ [GraphCall url method (accessToken this)] |})).
Proof. intros H. unfold fetch_graph. rewrite H. reflexivity. Qed.

(** A request that is answered with a 2xx status takes one call. *)
Lemma makeRequest_ok (url method : string) (this : MicrosoftService) (net : Network)
      (response : Response) (rest : list Response) (data : Json) :
  graph net = response :: rest ->
  ok (status response) = true -> json response = Some data ->
  makeRequest url method (this, net)
  = (Ok data,
     (this, {| graph := rest; login := login net;
               trace := trace net ++ [GraphCall url method (accessToken this)] |})).
Proof.
  intros Hg Hok Hjson. unfold makeRequest.
  erewrite bind_Ok by (apply fetch_graph_next; exact Hg).
  rewrite ok_not_401, Hok, Hjson by assumption. reflexivity.
Qed.

(** C9. A refresh that the token endpoint answers with a 2xx status
    and tokens stores the new access token, stores the new refresh token
    exactly when one was issued and keeps the old one otherwise, and
    leaves the rest of the service ([env], [userId]) as it was. *)
Theorem refresh_token_rotation (this : MicrosoftService) (net : Network)
        (res : TokenResponse) (rest : list TokenResponse) (tokens : TokenJson) :
  login net = res :: rest ->
  ok (token_status res) = true -> token_json res = Some tokens ->
  exists this',
    refreshAccessToken (this, net)
    = (Ok tt, (this', {| graph := graph net; login := rest;
                         trace := trace net ++ [refresh_call this] |})) /\
    accessToken this' = access_token tokens /\
    (forall issued, refresh_token tokens = Some issued -> issued <> EmptyString ->
       refreshToken this' = issued) /\
    (truthy (refresh_token tokens) = false -> refreshToken this' = refreshToken this) /\
    env this' = env this /\ userId this' = userId this.
Proof.
  intros Hl Hok Hjson. exists (rotated this tokens). split.
  - unfold refreshAccessToken, bind, fetch_token. rewrite Hl, Hok, Hjson. simpl.
    unfold rotated, refresh_call. repeat f_equal.
    destruct (refresh_token tokens) as [[|a r]|]; reflexivity.
  - unfold rotated; simpl. repeat split.
    + intros issued -> Hne. destruct issued; [congruence | reflexivity].
    + intros ->. reflexivity.
Qed.

(** After a 401, the refresh and the replay, whatever the status of
    the replay is: its body is what the caller gets. *)
Lemma makeRequest_replay (url method : string) (this : MicrosoftService)
      (text1 text2 text3 : string) (body1 : option Json) (status2 : Z) (data : Json)
      (tokens : TokenJson) (more : list Response) (more_login : list TokenResponse)
      (calls : list Call) :
  makeRequest url method
    (this,
     {| graph := {| status := 401; statusText := text1; json := body1 |}
                 :: {| status := status2; statusText := text2; json := Some data |}
                 :: more;
        login := {| token_status := 200; token_text := text3;
                    token_json := Some tokens |} :: more_login;
        trace := calls |})
  = (Ok data,
     (rotated this tokens,
      {| graph := more; login := more_login;
         trace := calls ++ [GraphCall url method (accessToken this);
                            refresh_call this;
                            GraphCall url method (access_token tokens)] |})).
Proof.
  unfold makeRequest, refreshAccessToken, bind, fetch_graph, fetch_token; simpl.
  unfold rotated, refresh_call. rewrite <- !app_assoc. simpl.
  repeat f_equal. destruct (refresh_token tokens) as [[|a r]|]; reflexivity.
Qed.

(** C3, at the input where the code leaves it. The first answer is a
    401, the refresh succeeds, and the replay is answered with a 401
    again: there is one refresh, one replay with the new access token and
    no further call, but the second 401 is not reported. The caller gets
    the body of the 401 response as if it were the result. *)
Theorem second_401_is_returned_as_data (url method : string) (this : MicrosoftService)
        (text1 text2 text3 : string) (body1 : option Json) (data : Json)
        (tokens : TokenJson) (more : list Response) (more_login : list TokenResponse)
        (calls : list Call) :
  makeRequest url method
    (this,
     {| graph := {| status := 401; statusText := text1; json := body1 |}
                 :: {| status := 401; statusText := text2; json := Some data |}
                 :: more;
        login := {| token_status := 200; token_text := text3;
                    token_json := Some tokens |} :: more_login;
        trace := calls |})
  = (Ok data,
     (rotated this tokens,
      {| graph := more; login := more_login;
         trace := calls ++ [GraphCall url method (accessToken this);
                            refresh_call this;
                            GraphCall url method (access_token tokens)] |})).
Proof. apply makeRequest_replay. Qed.

(** Every run of [makeRequest] makes one, two or three calls: the
    request, then at most one refresh, then at most one replay. *)
Lemma makeRequest_calls (url method : string) (this : MicrosoftService) (net : Network) :
  let after := snd (makeRequest url method (this, net)) in
  trace (snd after) = trace net ++ [GraphCall url method (accessToken this)]
  \/ trace (snd after)
     = trace net ++ [GraphCall url method (accessToken this); refresh_call this]
  \/ trace (snd after)
     = trace net ++ [GraphCall url method (accessToken this); refresh_call this;
                     GraphCall url method (accessToken (fst after))].
Proof.
  unfold makeRequest, refreshAccessToken, bind, fetch_graph, fetch_token, parsed,
    store_tokens, refresh_call, ret, throw.
  destruct (graph net) as [|r1 g]; simpl; [auto|].
  destruct (status r1 =? 401).
  - destruct (login net) as [|t l]; simpl; [rewrite <- app_assoc; auto|].
    destruct (ok (token_status t)); simpl; [|rewrite <- app_assoc; auto].
    destruct (token_json t) as [tokens|]; simpl; [|rewrite <- app_assoc; auto].
    right; right.
    destruct g as [|r2 g]; simpl; [|destruct (json r2); simpl];
      rewrite <- !app_assoc; reflexivity.
  - destruct (ok (status r1)); simpl; [destruct (json r1); simpl|]; auto.
Qed.

(** *** Pagination *)

Lemma requests_length (book : list Json) :
  forall url, length (requests url book) = length book.
Proof. induction book as [|page book IH]; intros url; simpl; [|rewrite IH]; reflexivity. Qed.

Section Pagination.

Variable URLSearchParams : list (string * string) -> string.
Variable toString : Z -> string.

Lemma initialUrl_nonempty (this : MicrosoftService) (startDate endDate : string)
      (limit : Z) :
  initialUrl URLSearchParams toString this startDate endDate limit <> EmptyString.
Proof. unfold initialUrl, baseUrl. simpl. discriminate. Qed.

(** The loop over linked pages, from any turn on. *)
Lemma pages_linked (book : list Json) :
  forall (responses rest : list Response) (fuel : nat) (url : string)
         (events : list string) (this : MicrosoftService) (net : Network),
    linked book ->
    Forall2 (fun r page => ok (status r) = true /\ json r = Some page) responses book ->
    graph net = responses ++ rest ->
    url <> EmptyString ->
    (length book < fuel)%nat ->
    pages fuel (Some url) events (this, net)
    = (Ok (events ++ concat (map page_items book)),
       (this,
        {| graph := rest; login := login net;
           trace := trace net
                    ++ map (fun u => GraphCall u "GET" (accessToken this))
                           (requests url book) |})).
Proof.
  induction book as [|page book IH];
    intros responses rest fuel url events this net Hlinked Hresp Hgraph Hurl Hfuel.
  - destruct Hlinked.
  - inversion Hresp as [|r page' rs book' (Hok & Hjson) Hrest]; subst.
    destruct fuel as [|fuel]; [simpl in Hfuel; lia|].
    destruct url as [|a u]; [congruence|].
    cbn [pages]. set (url := String a u) in *.
    erewrite bind_Ok by (eapply makeRequest_ok; [exact Hgraph | exact Hok | exact Hjson]).
    assert (Hitems : match value page with
                     | Some newEvents => events ++ newEvents
                     | None => events
                     end = events ++ page_items page).
    { unfold page_items. destruct (value page); [reflexivity | symmetry; apply app_nil_r]. }
    rewrite Hitems.
    destruct book as [|page2 book].
    + simpl in Hlinked. unfold or_else. rewrite Hlinked.
      inversion Hrest; subst. destruct fuel as [|fuel]; [simpl in Hfuel; lia|].
      simpl. rewrite app_nil_r. reflexivity.
    + destruct Hlinked as (Hlink & Hlinked). unfold or_else. rewrite Hlink.
      apply truthy_inv in Hlink as (next & Hnext & Hne). rewrite Hnext.
      erewrite IH; [| exact Hlinked | exact Hrest | reflexivity | exact Hne
                    | simpl in Hfuel |- *; lia].
      cbn [trace login graph requests map concat]. rewrite Hnext. cbn [template].
      rewrite <- !app_assoc. reflexivity.
Qed.

(** C4. When the Graph API answers the first request and every request
    at a continuation link with a page, and the pages are linked until
    one has no link, [getUserCalendarEvents] asks for each page once, the
    first at the initial url and each other one at the link of the page
    before it, makes no other call, and returns the items of all pages in
    the order of the pages. *)
Theorem pagination_completeness (this : MicrosoftService) (net : Network)
        (responses rest : list Response) (book : list Json)
        (startDate endDate : string) (limit : Z) :
  linked book ->
  Forall2 (fun r page => ok (status r) = true /\ json r = Some page) responses book ->
  graph net = responses ++ rest ->
  getUserCalendarEvents URLSearchParams toString startDate endDate limit (this, net)
  = (Ok (concat (map page_items book)),
     (this,
      {| graph := rest; login := login net;
         trace := trace net
                  ++ map (fun u => GraphCall u "GET" (accessToken this))
                         (requests (initialUrl URLSearchParams toString this
                                               startDate endDate limit) book) |}))
  /\
  length (requests (initialUrl URLSearchParams toString this startDate endDate limit)
                   book) = length book.
Proof.
  intros Hlinked Hresp Hgraph. split.
  - unfold getUserCalendarEvents.
    apply (pages_linked book responses rest _ _ [] this net Hlinked Hresp Hgraph).
    + apply initialUrl_nonempty.
    + rewrite Hgraph, length_app. apply Forall2_length in Hresp. lia.
  - apply requests_length.
Qed.

(** The loop ends: every turn takes a response from the list, so the
    bound that [getUserCalendarEvents] puts on its turns is never reached. *)
Lemma makeRequest_progress (url method : string) (st : State) :
  match makeRequest url method st with
  | (Ok _, st') => (length (graph (snd st')) < length (graph (snd st)))%nat
  | (Throw e, _) => e <> OutOfFuel
  end.
Proof.
  destruct st as (this, net).
  unfold makeRequest, refreshAccessToken, bind, fetch_graph, fetch_token, parsed,
    store_tokens, ret, throw. cbn [snd].
  destruct (graph net) as [|r1 g]; simpl; [discriminate|].
  destruct (status r1 =? 401).
  - destruct (login net) as [|t l]; simpl; [discriminate|].
    destruct (ok (token_status t)); simpl; [|discriminate].
    destruct (token_json t) as [tokens|]; simpl; [|discriminate].
    destruct g as [|r2 g]; simpl; [discriminate|].
    destruct (json r2); simpl; [lia | discriminate].
  - destruct (ok (status r1)); simpl; [|discriminate].
    destruct (json r1); simpl; [lia | discriminate].
Qed.

Lemma pages_within_fuel (fuel : nat) :
  forall (url : option string) (events : list string) (st : State),
    (length (graph (snd st)) < fuel)%nat ->
    fst (pages fuel url events st) <> Throw OutOfFuel.
Proof.
  induction fuel as [|fuel IH]; intros url events st Hfuel; [lia|].
  cbn [pages]. destruct url as [[|a u]|]; try (simpl; discriminate).
  unfold bind. pose proof (makeRequest_progress (String a u) "GET" st) as Hstep.
  destruct (makeRequest (String a u) "GET" st) as [[data|e] st'].
  - apply IH. lia.
  - simpl. congruence.
Qed.

Lemma getUserCalendarEvents_ends (startDate endDate : string) (limit : Z) (st : State) :
  fst (getUserCalendarEvents URLSearchParams toString startDate endDate limit st)
  <> Throw OutOfFuel.
Proof.
  destruct st as (this, net). unfold getUserCalendarEvents.
  apply pages_within_fuel. simpl. lia.
Qed.

End Pagination.

End Client.

(** ** Expiry *)

Section Expiry.
Import KV Webhook.

(** C7 (as amended). An entry written by [putEventCache] without a ttl
    can be read for 60 seconds and no longer, one written with the ttl
    [null] can be read at any later time, and one written with a number
    can be read for that many seconds. The debounce window is 120
    seconds, and it is the ttl that the calendar handler passes when it
    stores an accepted notification under
    [accountName:changeType:eventId]. *)
Theorem cache_ttl_semantics :
  (forall (serverName : string) (eventType : option string)
          (eventId eventData : string) (arg : ttl_arg) (kv : KVNamespace) (d : Z),
     writes_fail kv = false ->
     lookup (tick d (snd (putEventCache serverName eventType eventId eventData arg kv)))
            (cache_key serverName eventType eventId)
     = match arg with
       | TtlUndefined => if d <? 60 then Some eventData else None
       | TtlNull => Some eventData
       | TtlNumber n => if d <? n then Some eventData else None
       end)
  /\
  DEBOUNCE_TTL = 120
  /\
  (forall (secret : string) (name : option string) (bodyValue : Notification)
          (acc acc' : Collected CalendarEventNotification) (kv : KVNamespace),
     fst (calendar_item secret name bodyValue acc kv) = Ok acc' ->
     items acc' <> items acc ->
     exists id before,
       resourceData_id bodyValue = Some id /\
       log (snd (calendar_item secret name bodyValue acc kv))
       = before ++ [Put (nullish name "unknown" +:+ ":" +:+
                         template (changeType bodyValue) +:+ ":" +:+ id)
                        (JSON_stringify bodyValue) (Some 120)]).
Proof.
  split; [|split; [reflexivity|]].
  - intros serverName eventType eventId eventData arg kv d Hw.
    unfold putEventCache. rewrite lookup_after_put by assumption.
    destruct arg; reflexivity.
  - intros secret name bodyValue acc acc' kv Hacc Hitems.
    destruct (calendar_item_inv secret name bodyValue acc kv)
      as [H | [H | (id & kv' & _ & Hid & _ & _ & Hw & _ & _ & Hun & Heq)]].
    + rewrite H in Hacc. injection Hacc as <-. contradiction.
    + rewrite H in Hacc. discriminate.
    + exists id, (log kv'). split; [exact Hid|]. rewrite Heq. unfold put.
      destruct Hun as (_ & _ & _ & Hw'). rewrite Hw', Hw. reflexivity.
Qed.

End Expiry.

(** ** The properties at the sample inputs *)

Section Instances.
Import KV Webhook.


(** Scenario A: [created:E1] is accepted at second 0 and suppressed at
    second 10. *)
Lemma self_deduplication_witness :
  fst (calendar_item Sample.secret (Some "work") (Sample.change "created" "E1")
                     nothing (KV.empty 0))
  = Ok {| items := [{| eventId := "E1"; eventType := Some "created" |}];
          subscription := Some "sub-cal" |}
  /\
  calendar_item Sample.secret (Some "work") (Sample.change "created" "E1") nothing
    (tick 10 (snd (calendar_item Sample.secret (Some "work")
                                 (Sample.change "created" "E1") nothing (KV.empty 0))))
  = (Ok nothing,
     logged (Get "work:created:E1")
       (tick 10 (snd (calendar_item Sample.secret (Some "work")
                                    (Sample.change "created" "E1") nothing
                                    (KV.empty 0))))).
Proof.
  split; [reflexivity|].
  refine (proj2 (proj2 (proj1 (proj2 (self_deduplication Sample.secret (Some "work")
                                        (Sample.change "created" "E1") (KV.empty 0) "E1"
                                        eq_refl eq_refl _))
                              nothing _ eq_refl _)) 10 nothing _).
  - discriminate.
  - discriminate.
  - unfold DEBOUNCE_TTL. lia.
Defined.

(** Scenario C: the challenge [abc123] is echoed by the calendar
    endpoint although the body does not parse and the cache is down. *)
Lemma handshake_precedence_witness :
  post Sample.secret CalendarNotify Sample.challenge_abc123 Sample.reads_down
  = (JsonReply 200 {| reqResponseCode := 200;
                      reqResponseContent := "abc123";
                      reqResponseContentType := text;
                      processData := None |},
     Sample.reads_down).
Proof.
  apply (handshake_precedence Sample.secret CalendarNotify Sample.challenge_abc123
           Sample.reads_down "abc123").
  - reflexivity.
  - discriminate.
Defined.

(** An empty [validationToken] is not echoed: the request is handled as
    a batch, and its notification is handed on. *)
Lemma empty_validation_token_is_not_echoed :
  validationToken Sample.empty_challenge = Some EmptyString /\
  fst (post Sample.secret EmailNotify Sample.empty_challenge (KV.empty 0))
  = JsonReply 200 (acknowledge (Some (EmailProcessData "work" "sub-mail" ["m1"]))) /\
  fst (post Sample.secret EmailNotify Sample.empty_challenge (KV.empty 0))
  <> JsonReply 200 (challenge EmptyString).
Proof. split; [reflexivity|]. split; [reflexivity | discriminate]. Qed.

(** Scenario D: a forged notification between two good ones; and a
    forged notification alone, with a cache that rejects every read. *)
Lemma silent_drop_and_acknowledgment_witness :
  post Sample.secret CalendarNotify
       (Sample.batch (Some "work")
          [Sample.change "created" "E1"; Sample.forged "E9"; Sample.change "created" "E3"])
       (KV.empty 0)
  = post Sample.secret CalendarNotify
         (Sample.batch (Some "work")
            [Sample.change "created" "E1"; Sample.change "created" "E3"])
         (KV.empty 0)
  /\
  (exists data kv',
     post Sample.secret CalendarNotify
          (Sample.batch (Some "work")
             [Sample.change "created" "E1"; Sample.forged "E9";
              Sample.change "created" "E3"])
          (KV.empty 0)
     = (JsonReply 200
          {| reqResponseCode := 202;
             reqResponseContent :=
               "{" +:+ String (ascii_of_nat 34)
                         ("ok" +:+ String (ascii_of_nat 34) ":true}");
             reqResponseContentType := json;
             processData := data |},
        kv'))
  /\
  (exists data kv',
     post Sample.secret CalendarNotify
          (Sample.batch (Some "work") [Sample.forged "E9"]) Sample.reads_down
     = (JsonReply 200
          {| reqResponseCode := 202;
             reqResponseContent :=
               "{" +:+ String (ascii_of_nat 34)
                         ("ok" +:+ String (ascii_of_nat 34) ":true}");
             reqResponseContentType := json;
             processData := data |},
        kv')).
Proof.
  pose proof (silent_drop_and_acknowledgment Sample.secret CalendarNotify
                (Sample.batch (Some "work")
                   [Sample.change "created" "E1"; Sample.forged "E9";
                    Sample.change "created" "E3"])
                [Sample.change "created" "E1"; Sample.forged "E9";
                 Sample.change "created" "E3"]
                (KV.empty 0) eq_refl eq_refl) as (Hdrop & Hack).
  pose proof (silent_drop_and_acknowledgment Sample.secret CalendarNotify
                (Sample.batch (Some "work") [Sample.forged "E9"])
                [Sample.forged "E9"] Sample.reads_down eq_refl eq_refl)
    as (_ & Hforged).
  split; [exact Hdrop|]. split.
  - destruct Hack as [Hack|(_ & _ & _ & kv' & H)]; [exact Hack|].
    vm_compute in H. discriminate.
  - destruct Hforged as [Hforged|(_ & _ & _ & kv' & H)]; [exact Hforged|].
    vm_compute in H. discriminate.
Defined.

(** A cache that rejects writes, with a forged notification and a good
    one in the batch: the batch is not acknowledged, the provider gets
    a 500; the same batch is acknowledged with code 202 when the cache
    answers. *)
Lemma unanswered_cache_is_not_acknowledged :
  fst (post Sample.secret CalendarNotify
            (Sample.batch (Some "work")
               [Sample.forged "E9"; Sample.change "deleted" "E7"])
            Sample.writes_down)
  = ErrorReply 500 "server_error" None /\
  fst (post Sample.secret CalendarNotify
            (Sample.batch (Some "work")
               [Sample.forged "E9"; Sample.change "deleted" "E7"])
            (KV.empty 0))
  = JsonReply 200
      {| reqResponseCode := 202;
         reqResponseContent :=
           "{" +:+ String (ascii_of_nat 34)
                     ("ok" +:+ String (ascii_of_nat 34) ":true}");
         reqResponseContentType := json;
         processData :=
           Some (CalendarProcessData "work" "sub-cal"
                   [{| eventId := "E7"; eventType := Some "deleted" |}]) |}.
Proof. split; reflexivity. Qed.

(** The debounce window at work: [created:E1] stored by the handler at
    second 0 is there at second 119 and gone at second 120. *)
Lemma cache_ttl_semantics_witness :
  lookup (tick 119 (snd (putEventCache "work" (Some "created") "E1" "{}"
                                       (TtlNumber DEBOUNCE_TTL) (KV.empty 0))))
         "work:created:E1" = Some "{}" /\
  lookup (tick 120 (snd (putEventCache "work" (Some "created") "E1" "{}"
                                       (TtlNumber DEBOUNCE_TTL) (KV.empty 0))))
         "work:created:E1" = None.
Proof.
  split.
  - exact (proj1 cache_ttl_semantics "work" (Some "created") "E1" "{}"
                 (TtlNumber DEBOUNCE_TTL) (KV.empty 0) 119 eq_refl).
  - exact (proj1 cache_ttl_semantics "work" (Some "created") "E1" "{}"
                 (TtlNumber DEBOUNCE_TTL) (KV.empty 0) 120 eq_refl).
Defined.

(** An entry written without a ttl is gone after 60 seconds, halfway
    through the debounce window of 120 seconds. *)
Lemma default_ttl_is_one_minute :
  lookup (tick 59 (snd (putEventCache "work" (Some "created") "E1" "{}"
                                      TtlUndefined (KV.empty 0))))
         "work:created:E1" = Some "{}" /\
  lookup (tick 60 (snd (putEventCache "work" (Some "created") "E1" "{}"
                                      TtlUndefined (KV.empty 0))))
         "work:created:E1" = None /\
  60 < DEBOUNCE_TTL.
Proof. split; [reflexivity|]. split; reflexivity. Qed.

(** A cache that rejects reads, or writes, with one good notification in
    the batch: the provider gets a 500 and nothing is accepted, where a
    cache that answers gives the 202 and hands the event on. *)
Lemma cache_failure_answers_500 :
  fst (post Sample.secret CalendarNotify
            (Sample.batch (Some "work") [Sample.change "created" "E1"])
            Sample.reads_down)
  = ErrorReply 500 "server_error" None /\
  fst (post Sample.secret CalendarNotify
            (Sample.batch (Some "work") [Sample.change "created" "E1"])
            Sample.writes_down)
  = ErrorReply 500 "server_error" None /\
  fst (post Sample.secret CalendarNotify
            (Sample.batch (Some "work") [Sample.change "created" "E1"])
            (KV.empty 0))
  = JsonReply 200
      (acknowledge
         (Some (CalendarProcessData "work" "sub-cal"
                  [{| eventId := "E1"; eventType := Some "created" |}]))).
Proof. split; [reflexivity|]. split; reflexivity. Qed.

Lemma cache_failure_is_not_caught_witness :
  fst (post Sample.secret CalendarNotify
            (Sample.batch (Some "work") [Sample.forged "E9"; Sample.change "created" "E1"])
            Sample.reads_down)
  = ErrorReply 500 "server_error" None /\
  fst (post Sample.secret CalendarNotify
            (Sample.batch (Some "work") [Sample.forged "E9"; Sample.change "created" "E1"])
            Sample.writes_down)
  = ErrorReply 500 "server_error" None.
Proof.
  split.
  - apply (proj1 (cache_failure_is_not_caught Sample.secret
                    (Sample.batch (Some "work")
                       [Sample.forged "E9"; Sample.change "created" "E1"])
                    [Sample.forged "E9"; Sample.change "created" "E1"]
                    Sample.reads_down eq_refl eq_refl)).
    + reflexivity.
    + apply Exists_cons_tl, Exists_cons_hd. split; reflexivity.
  - apply (proj2 (cache_failure_is_not_caught Sample.secret
                    (Sample.batch (Some "work")
                       [Sample.forged "E9"; Sample.change "created" "E1"])
                    [Sample.forged "E9"; Sample.change "created" "E1"]
                    Sample.writes_down eq_refl eq_refl)).
    + intros key e. simpl. rewrite lookup_empty. discriminate.
    + reflexivity.
    + reflexivity.
    + apply Exists_cons_tl, Exists_cons_hd. split; [reflexivity|].
      exists "E1". repeat split; try reflexivity. discriminate.
Defined.

(** The same email notification twice in one batch is handed on twice. *)
Lemma email_path_has_no_deduplication_witness :
  email_notify Sample.secret
    (Sample.batch (Some "work") [Sample.mail "m1"; Sample.mail "m1"]) (KV.empty 0)
  = (Ok (acknowledge (Some (EmailProcessData "work" "sub-mail" ["m1"; "m1"]))),
     KV.empty 0).
Proof.
  apply (proj1 (email_path_has_no_deduplication Sample.secret
                  (Sample.batch (Some "work") [Sample.mail "m1"; Sample.mail "m1"])
                  [Sample.mail "m1"; Sample.mail "m1"] (KV.empty 0) eq_refl eq_refl)).
Defined.

(** Without the [x-mcp-name] header, a good email notification is
    collected and then not handed on. *)
Lemma email_without_name_is_not_forwarded :
  contributes Sample.secret (Sample.mail "m1") = Some "m1" /\
  post Sample.secret EmailNotify (Sample.batch None [Sample.mail "m1"]) (KV.empty 0)
  = (JsonReply 200 (acknowledge None), KV.empty 0).
Proof. split; reflexivity. Qed.

(** *** The scenarios of the specification *)

(** Scenario A and P2: [created:E1] at second 0 is accepted, at second 10
    suppressed, at second 130 accepted again. *)
Example scenario_A :
  let request := Sample.batch (Some "work") [Sample.change "created" "E1"] in
  let accepted :=
    JsonReply 200
      (acknowledge
         (Some (CalendarProcessData "work" "sub-cal"
                  [{| eventId := "E1"; eventType := Some "created" |}]))) in
  let kv := snd (post Sample.secret CalendarNotify request (KV.empty 0)) in
  fst (post Sample.secret CalendarNotify request (KV.empty 0)) = accepted /\
  fst (post Sample.secret CalendarNotify request (tick 10 kv))
  = JsonReply 200 (acknowledge None) /\
  fst (post Sample.secret CalendarNotify request (tick 130 kv)) = accepted.
Proof. repeat split; reflexivity. Qed.

(** P3: of [updated] and then [created], or [updated] and then [deleted],
    for one id in one batch, only [updated] is accepted. *)
Example updated_first :
  fst (post Sample.secret CalendarNotify
            (Sample.batch (Some "work")
               [Sample.change "updated" "E2"; Sample.change "created" "E2";
                Sample.change "deleted" "E2"])
            (KV.empty 0))
  = JsonReply 200
      (acknowledge
         (Some (CalendarProcessData "work" "sub-cal"
                  [{| eventId := "E2"; eventType := Some "updated" |}]))).
Proof. reflexivity. Qed.

(** P4: a lifecycle batch of [missed] events only is acknowledged with
    nothing to process. *)
Example missed_only :
  let missed :=
    {| subscriptionId := Some "sub-cal"; clientState := Some Sample.secret;
       changeType := None; lifecycleEvent := Some "missed";
       resourceData_id := None; members := Sample.member "lifecycleEvent" "missed" |} in
  post Sample.secret CalendarLifecycle (Sample.batch (Some "work") [missed; missed])
       (KV.empty 0)
  = (JsonReply 200 (acknowledge None), KV.empty 0).
Proof. reflexivity. Qed.

End Instances.

Section ClientInstances.
Import Graph.

(** Three linked pages: three calls, five items in the order of the
    pages. *)
Lemma pagination_completeness_witness :
  getUserCalendarEvents GraphSample.query GraphSample.number "2024-01-01" "2024-02-01" 100
    (GraphSample.this, GraphSample.three_pages)
  = (Ok ["e1"; "e2"; "e3"; "e4"; "e5"],
     (GraphSample.this,
      {| graph := []; login := [];
         trace :=
           [GraphCall "https://graph.microsoft.com/v1.0/users/user-1/events?top=100"
                      "GET" "old-access";
            GraphCall "https://graph.microsoft.com/v1.0/page2" "GET" "old-access";
            GraphCall "https://graph.microsoft.com/v1.0/page3" "GET" "old-access"] |})).
Proof.
  apply (proj1 (pagination_completeness GraphSample.query GraphSample.number
                  GraphSample.this GraphSample.three_pages
                  (map GraphSample.answer GraphSample.book) [] GraphSample.book
                  "2024-01-01" "2024-02-01" 100
                  (conj eq_refl (conj eq_refl eq_refl))
                  ltac:(repeat constructor)
                  eq_refl)).
Defined.

(** A refresh that is answered with a new refresh token, and one that
    is answered without. *)
Lemma refresh_token_rotation_witness :
  (exists this',
     refreshAccessToken
       (GraphSample.this, {| graph := []; login := [GraphSample.rotating]; trace := [] |})
     = (Ok tt, (this', {| graph := []; login := [];
                          trace := [TokenCall "tenant" "client" "hush" "old-refresh"] |})) /\
     accessToken this' = "new-access" /\ refreshToken this' = "new-refresh" /\
     env this' = env GraphSample.this /\ userId this' = "user-1")
  /\
  (exists this',
     refreshAccessToken
       (GraphSample.this, {| graph := []; login := [GraphSample.keeping]; trace := [] |})
     = (Ok tt, (this', {| graph := []; login := [];
                          trace := [TokenCall "tenant" "client" "hush" "old-refresh"] |})) /\
     accessToken this' = "new-access" /\ refreshToken this' = "old-refresh" /\
     env this' = env GraphSample.this /\ userId this' = "user-1").
Proof.
  split.
  - destruct (refresh_token_rotation GraphSample.this
                {| graph := []; login := [GraphSample.rotating]; trace := [] |}
                GraphSample.rotating []
                {| access_token := "new-access"; refresh_token := Some "new-refresh" |}
                eq_refl eq_refl eq_refl)
      as (this' & Hrun & Haccess & Hnew & _ & Henv & Huser).
    exists this'. split; [exact Hrun|]. split; [exact Haccess|].
    split; [apply (Hnew "new-refresh" eq_refl); discriminate|].
    split; [exact Henv | exact Huser].
  - destruct (refresh_token_rotation GraphSample.this
                {| graph := []; login := [GraphSample.keeping]; trace := [] |}
                GraphSample.keeping []
                {| access_token := "new-access"; refresh_token := None |}
                eq_refl eq_refl eq_refl)
      as (this' & Hrun & Haccess & _ & Hold & Henv & Huser).
    exists this'. split; [exact Hrun|]. split; [exact Haccess|].
    split; [exact (Hold eq_refl)|].
    split; [exact Henv | exact Huser].
Defined.

End ClientInstances.

(** * Further properties *)

(** ** What a calendar request does to the cache *)

Section CalendarEffects.
Import KV Webhook.

Variable secret : string.

Lemma writes_app (l1 l2 : list op) : writes (l1 ++ l2) = writes l1 ++ writes l2.
Proof. unfold writes. apply List.filter_app. Qed.

Lemma writes_logged_get (key : string) (kv : KVNamespace) :
  writes (log (logged (Get key) kv)) = writes (log kv).
Proof. simpl. rewrite writes_app. simpl. apply app_nil_r. Qed.

(** The branches on [eventType] only read. *)
Lemma cross_type_run (serverName : string) (eventType : option string)
      (eventId : string) (kv : KVNamespace) :
  reads_fail kv = false ->
  exists kv', unchanged kv kv' /\ writes (log kv') = writes (log kv) /\
    cross_type serverName eventType eventId kv
    = (Ok (cross_hit kv serverName eventType eventId), kv').
Proof.
  intros Hr. unfold cross_type, cross_hit, getEventCache, bind.
  repeat case_bool_decide;
    rewrite ?get_up by assumption;
    repeat match goal with
    | |- context [truthy (lookup ?s ?k)] =>
        let E := fresh "E" in
        destruct (truthy (lookup s k)) eqn:E; simpl;
        rewrite ?get_up by assumption; rewrite ?lookup_logged
    end;
    eexists; (split; [|split; [|reflexivity]]);
    first [ repeat apply unchanged_logged; apply unchanged_refl
          | rewrite ?writes_logged_get; reflexivity ].
Qed.

Lemma surviving_id (bodyValue : Notification) :
  surviving secret bodyValue ->
  resourceData_id bodyValue = Some (id_of bodyValue) /\ id_of bodyValue <> EmptyString.
Proof.
  intros (_ & Hid). apply truthy_inv in Hid as (id & Hid & Hne).
  unfold id_of. rewrite Hid. auto.
Qed.

(** Every way in which [calendar_item] ends, with what it leaves in the
    store. *)
Lemma calendar_item_effect (name : option string) (bodyValue : Notification)
      (acc : Collected CalendarEventNotification) (kv : KVNamespace) :
  match calendar_item secret name bodyValue acc kv with
  | (Throw e, kv') => e = KVError /\ unchanged kv kv'
  | (Ok acc', kv') =>
      (acc' = acc /\ unchanged kv kv' /\ writes (log kv') = writes (log kv) /\
       (surviving secret bodyValue -> suppressed_in name kv bodyValue))
      \/ (surviving secret bodyValue /\
          acc' = push (event_of bodyValue) bodyValue acc /\
          reads_fail kv = false /\ writes_fail kv = false /\
          truthy (lookup kv (own_key name bodyValue (id_of bodyValue))) = false /\
          cross_hit kv (nullish name "unknown") (changeType bodyValue)
                    (id_of bodyValue) = false /\
          entries kv'
          = <[own_key name bodyValue (id_of bodyValue) := debounce_entry kv bodyValue]>
              (entries kv) /\
          clock kv' = clock kv /\ reads_fail kv' = reads_fail kv /\
          writes_fail kv' = writes_fail kv /\
          writes (log kv') = writes (log kv) ++ [write_of name bodyValue])
  end.
Proof.
  destruct (authentic secret bodyValue) eqn:Ha.
  2: { rewrite calendar_item_dropped by auto. left.
       repeat (split; [auto using unchanged_refl|]). intros (Ha' & _). congruence. }
  destruct (truthy (resourceData_id bodyValue)) eqn:Hid.
  2: { rewrite calendar_item_dropped by auto. left.
       repeat (split; [auto using unchanged_refl|]). intros (_ & Hid'). congruence. }
  destruct (surviving_id bodyValue (conj Ha Hid)) as (Hsome & Hne).
  unfold event_of, write_of, suppressed_in.
  remember (id_of bodyValue) as id eqn:Eid. clear Eid.
  destruct id as [|a r]; [congruence|].
  unfold calendar_item. rewrite Ha, Hsome. cbn [negb]. cbv iota.
  set (id := String a r) in *.
  destruct (reads_fail kv) eqn:Hr.
  - erewrite bind_Throw by (apply get_down; assumption).
    split; [reflexivity | apply unchanged_logged, unchanged_refl].
  - erewrite bind_Ok by (apply get_up; assumption).
    fold (own_key name bodyValue id).
    destruct (truthy (lookup kv (own_key name bodyValue id))) eqn:Hown.
    { left. split; [reflexivity|]. split; [apply unchanged_logged, unchanged_refl|].
      split; [apply writes_logged_get | auto]. }
    destruct (cross_type_run (nullish name "unknown") (changeType bodyValue) id
                (logged (Get (own_key name bodyValue id)) kv) Hr)
      as (kv1 & Hun & Hwr & Hx).
    erewrite bind_Ok by exact Hx.
    change (cross_hit (logged (Get (own_key name bodyValue id)) kv)
              (nullish name "unknown") (changeType bodyValue) id)
      with (cross_hit kv (nullish name "unknown") (changeType bodyValue) id).
    rewrite writes_logged_get in Hwr.
    destruct (cross_hit kv (nullish name "unknown") (changeType bodyValue) id) eqn:Hhit.
    { left. split; [reflexivity|]. split; [exact Hun|]. split; [exact Hwr | auto]. }
    destruct Hun as (He & Hc & Hr' & Hw'). simpl in He, Hc, Hr', Hw'.
    unfold bind, putEventCache, put. fold (own_key name bodyValue id).
    rewrite Hw'. destruct (writes_fail kv) eqn:Hw.
    + split; [reflexivity|]. unfold unchanged. simpl. repeat split; congruence.
    + right. unfold ret. split; [exact (conj Ha Hid)|].
      split; [reflexivity|]. repeat (split; [first [assumption | reflexivity]|]).
      simpl. unfold debounce_entry. rewrite He, Hc, Hr'.
      repeat (split; [first [assumption | reflexivity]|]).
      rewrite writes_app, Hwr. reflexivity.
Qed.

(** The loop throws nothing but what the cache throws. *)
Lemma calendar_loop_throws (name : option string) (bodyValues : list Notification) :
  forall (acc : Collected CalendarEventNotification) (kv kv' : KVNamespace) (e : exn),
    for_of bodyValues (calendar_item secret name) acc kv = (Throw e, kv') ->
    e = KVError.
Proof.
  induction bodyValues as [|b bs IH]; intros acc kv kv' e H; simpl in H.
  - discriminate.
  - unfold bind in H. pose proof (calendar_item_effect name b acc kv) as Hstep.
    destruct (calendar_item secret name b acc kv) as [[acc1|e1] kv1].
    + eapply IH, H.
    + injection H as <- _. apply Hstep.
Qed.

(** A loop that runs to its end has accepted some of the notifications
    of the batch, in their order: these are the events that it adds and
    the writes that it makes. *)
Lemma calendar_loop_effect (name : option string) (bodyValues : list Notification) :
  forall (acc acc' : Collected CalendarEventNotification) (kv kv' : KVNamespace),
    for_of bodyValues (calendar_item secret name) acc kv = (Ok acc', kv') ->
    exists accepted,
      accepted `sublist_of` bodyValues /\
      Forall (surviving secret) accepted /\
      items acc' = items acc ++ map event_of accepted /\
      writes (log kv') = writes (log kv) ++ map (write_of name) accepted.
Proof.
  induction bodyValues as [|b bs IH]; intros acc acc' kv kv' H; simpl in H.
  - injection H as <- <-. exists []. rewrite !app_nil_r. auto using sublist_nil.
  - unfold bind in H. pose proof (calendar_item_effect name b acc kv) as Hstep.
    destruct (calendar_item secret name b acc kv) as [[acc1|e1] kv1]; [|discriminate].
    destruct (IH _ _ _ _ H) as (accepted & Hsub & Hall & Hitems & Hwrites).
    destruct Hstep as [(-> & _ & Hw & _) | (Hs & -> & _ & _ & _ & _ & _ & _ & _ & _ & Hw)].
    + exists accepted. rewrite Hitems, Hwrites, Hw. auto using sublist_cons.
    + exists (b :: accepted). rewrite Hitems, Hwrites, Hw. simpl.
      rewrite <- !app_assoc. auto using sublist_skip.
Qed.

(** X1. When the calendar endpoint has handled a batch, the events
    that it hands on are the events of some notifications of the batch, in
    the order of the batch, each with the right secret and a non-empty id;
    and the writes that the request has made to the cache are the writes
    of exactly these notifications, one each, under
    [accountName:changeType:eventId] with the debounce ttl. The writes are
    made even when nothing is handed on for want of a name or a
    subscription id. *)
Theorem accepted_events_and_writes (req : Request) (bodyValues : list Notification)
        (kv kv' : KVNamespace) (response : WebhookResponse) :
  truthy (validationToken req) = false -> body req = Some bodyValues ->
  calendar_notify secret req kv = (Ok response, kv') ->
  exists accepted,
    accepted `sublist_of` bodyValues /\
    Forall (surviving secret) accepted /\
    writes (log kv') = writes (log kv) ++ map (write_of (x_mcp_name req)) accepted /\
    (processData response = None
     \/ exists name sub,
          x_mcp_name req = Some name /\
          processData response
          = Some (CalendarProcessData name sub (map event_of accepted))).
Proof.
  intros Ht Hb H. rewrite (calendar_notify_batch secret req bodyValues Ht Hb) in H.
  unfold bind in H.
  destruct (for_of bodyValues (calendar_item secret (x_mcp_name req)) nothing kv)
    as [[acc|e] kv1] eqn:Hloop; [|discriminate].
  injection H as <- <-.
  destruct (calendar_loop_effect _ _ _ _ _ _ Hloop)
    as (accepted & Hsub & Hall & Hitems & Hwrites).
  exists accepted. repeat (split; [assumption|]).
  simpl in Hitems. unfold respond.
  destruct (subscription acc) as [[|a r]|]; auto.
  destruct (x_mcp_name req) as [[|a' r']|]; auto.
  destruct (items acc) as [|ev evs] eqn:Hev; auto.
  right. exists (String a' r'), (String a r). rewrite <- Hitems. auto.
Qed.

(** *** The frame of a request *)

Lemma lookup_same (kv kv' : KVNamespace) (key : string) :
  entries kv' !! key = entries kv !! key -> clock kv' = clock kv ->
  lookup kv' key = lookup kv key.
Proof. intros He Hc. unfold lookup. rewrite He, Hc. reflexivity. Qed.

Lemma entry_frame_refl (name : option string) (bodyValues : list Notification)
      (kv kv' : KVNamespace) (key : string) :
  unchanged kv kv' -> entry_frame secret name bodyValues kv kv' key.
Proof. intros (He & _). left. rewrite He. reflexivity. Qed.

Lemma calendar_loop_frame (name : option string) (bodyValues : list Notification) :
  forall (acc : Collected CalendarEventNotification) (kv : KVNamespace),
    clock (snd (for_of bodyValues (calendar_item secret name) acc kv)) = clock kv /\
    reads_fail (snd (for_of bodyValues (calendar_item secret name) acc kv))
    = reads_fail kv /\
    writes_fail (snd (for_of bodyValues (calendar_item secret name) acc kv))
    = writes_fail kv /\
    forall key,
      entry_frame secret name bodyValues kv
        (snd (for_of bodyValues (calendar_item secret name) acc kv)) key.
Proof.
  induction bodyValues as [|b bs IH]; intros acc kv; simpl.
  - repeat split. intros key. left. reflexivity.
  - unfold bind. pose proof (calendar_item_effect name b acc kv) as Hstep.
    destruct (calendar_item secret name b acc kv) as [[acc1|e1] kv1].
    2: { destruct Hstep as (_ & He & Hc & Hr & Hw). simpl.
         repeat split; try assumption. intros key. left. rewrite He. reflexivity. }
    specialize (IH acc1 kv1).
    set (kv' := snd (for_of bs (calendar_item secret name) acc1 kv1)) in *.
    destruct IH as (Hc' & Hr' & Hw' & Hframe).
    destruct Hstep as [(_ & (He & Hc & Hr & Hw) & _ & _)
                      | (Hs & _ & _ & _ & Hown & _ & He & Hc & Hr & Hw & _)].
    + repeat split; try congruence. intros key.
      destruct (Hframe key) as [Hsame | (Hfalse & b' & Hin & Hs' & Hkey & Hent)].
      * left. rewrite Hsame, He. reflexivity.
      * right. split.
        { rewrite <- Hfalse. symmetry. f_equal. apply lookup_same; [|exact Hc].
          rewrite He. reflexivity. }
        exists b'. repeat split; try apply Hs'; auto using in_cons.
        rewrite Hent. unfold debounce_entry. rewrite Hc. reflexivity.
    + repeat split; try congruence. intros key.
      set (k0 := own_key name b (id_of b)) in *.
      assert (Hread : truthy (lookup kv1 k0) = true).
      { unfold lookup. rewrite He, lookup_insert_eq. unfold live, debounce_entry.
        simpl. rewrite Hc.
        destruct (Z.ltb_spec (clock kv) (clock kv + DEBOUNCE_TTL));
          [apply truthy_Some_nonempty, JSON_stringify_nonempty
          | unfold DEBOUNCE_TTL in *; lia]. }
      destruct (decide (key = k0)) as [->|Hne].
      * right. split; [exact Hown|]. exists b.
        split; [apply in_eq|]. split; [exact Hs|]. split; [reflexivity|].
        destruct (Hframe k0) as [Hsame | (Hfalse & _)].
        { rewrite Hsame, He. apply lookup_insert_eq. }
        { congruence. }
      * assert (Hother : entries kv1 !! key = entries kv !! key)
          by (rewrite He; apply lookup_insert_ne; congruence).
        destruct (Hframe key) as [Hsame | (Hfalse & b' & Hin & Hs' & Hkey & Hent)].
        { left. congruence. }
        { right. split.
          - rewrite <- Hfalse. symmetry. f_equal. apply lookup_same; assumption.
          - exists b'. repeat split; try apply Hs'; auto using in_cons.
            rewrite Hent. unfold debounce_entry. rewrite Hc. reflexivity. }
Qed.

(** X2. Whatever the request and however it ends, the calendar
    endpoint leaves the clock and the availability of the cache alone, and
    every key of the cache either holds what it held or holds the entry,
    good for the debounce window from now, of a notification of the batch
    that has the right secret, an id and this key as its own; and such a
    key held nothing readable when the request came in. So no entry is
    deleted, no entry of another key is touched, and an entry that can
    still be read is never replaced: a suppressed duplicate does not
    prolong the window. *)
Theorem calendar_request_frame (req : Request) (kv : KVNamespace) :
  clock (snd (post secret CalendarNotify req kv)) = clock kv /\
  reads_fail (snd (post secret CalendarNotify req kv)) = reads_fail kv /\
  writes_fail (snd (post secret CalendarNotify req kv)) = writes_fail kv /\
  forall key,
    entry_frame secret (x_mcp_name req)
      (match body req with Some bodyValues => bodyValues | None => [] end)
      kv (snd (post secret CalendarNotify req kv)) key.
Proof.
  assert (Hsame : forall reply,
             clock (snd (reply, kv)) = clock kv /\
             reads_fail (snd (reply : HttpReply, kv)) = reads_fail kv /\
             writes_fail (snd (reply, kv)) = writes_fail kv /\
             forall key,
               entry_frame secret (x_mcp_name req)
                 (match body req with Some bodyValues => bodyValues | None => [] end)
                 kv (snd (reply, kv)) key).
  { intros reply. repeat split. intros key. left. reflexivity. }
  unfold post. simpl handler. unfold calendar_notify.
  destruct (validationToken req) as [[|a r]|]; try apply Hsame;
    (destruct (body req) as [bodyValues|]; [|apply Hsame]);
    unfold bind;
    pose proof (calendar_loop_frame (x_mcp_name req) bodyValues nothing kv) as Hloop;
    destruct (for_of bodyValues (calendar_item secret (x_mcp_name req)) nothing kv)
      as [[acc|e] kv1]; exact Hloop.
Qed.

(** *** After the window *)

(** X4. An accepted notification no longer suppresses itself once the
    debounce window has passed: [DEBOUNCE_TTL] seconds or more after it
    was accepted, its own key reads as absent, and the same notification
    is accepted again unless the tie-break table suppresses it then. *)
Theorem accepted_again_after_window (name : option string) (bodyValue : Notification)
        (acc acc' : Collected CalendarEventNotification) (kv : KVNamespace) (d : Z) :
  store_inv kv ->
  fst (calendar_item secret name bodyValue acc kv) = Ok acc' ->
  items acc' <> items acc ->
  DEBOUNCE_TTL <= d ->
  lookup (tick d (snd (calendar_item secret name bodyValue acc kv)))
         (own_key name bodyValue (id_of bodyValue)) = None
  /\
  (suppression_table (tick d (snd (calendar_item secret name bodyValue acc kv)))
                     (nullish name "unknown") (changeType bodyValue)
                     (id_of bodyValue) = false ->
   forall later,
     fst (calendar_item secret name bodyValue later
            (tick d (snd (calendar_item secret name bodyValue acc kv))))
     = Ok (push (event_of bodyValue) bodyValue later)).
Proof.
  intros Hinv Hacc Hitems Hd.
  pose proof (preserved_calendar_item secret name bodyValue acc kv Hinv) as Hinv'.
  pose proof (calendar_item_effect name bodyValue acc kv) as Hstep.
  destruct (calendar_item secret name bodyValue acc kv) as [[acc1|e] kv'];
    simpl in Hacc; [|discriminate].
  injection Hacc as ->. simpl snd in *.
  destruct Hstep as [(-> & _) | (Hs & _ & Hr & Hw & _ & _ & He & Hc & Hr' & Hw' & _)];
    [contradiction|].
  destruct (surviving_id bodyValue Hs) as (Hid & Hne).
  assert (Hnone : lookup (tick d kv') (own_key name bodyValue (id_of bodyValue)) = None).
  { unfold lookup. change (entries (tick d kv')) with (entries kv').
    rewrite He, lookup_insert_eq. unfold live, debounce_entry. simpl. rewrite Hc.
    destruct (Z.ltb_spec (clock kv + d) (clock kv + DEBOUNCE_TTL)); [lia | reflexivity]. }
  split; [exact Hnone|]. intros Htab later.
  destruct (calendar_item_up secret name bodyValue later (tick d kv') (id_of bodyValue))
    as (kv2 & _ & Heq); try (simpl; congruence); try apply Hs; try assumption.
  rewrite Heq, Hnone, cross_hit_table, Htab by (apply store_inv_tick, Hinv').
  reflexivity.
Qed.

(** *** A batch delivered again *)

Lemma cross_hit_mono (kv kv' : KVNamespace) (serverName : string)
      (eventType : option string) (eventId : string) :
  no_less kv kv' ->
  cross_hit kv serverName eventType eventId = true ->
  cross_hit kv' serverName eventType eventId = true.
Proof.
  intros Hless. unfold cross_hit. repeat case_bool_decide; try discriminate.
  - intros Hor. apply orb_true_iff in Hor as [Hl|Hl]; apply Hless in Hl; rewrite Hl;
      [reflexivity | apply orb_true_r].
  - apply Hless.
  - apply Hless.
Qed.

Lemma suppressed_in_mono (name : option string) (kv kv' : KVNamespace)
      (bodyValue : Notification) :
  no_less kv kv' ->
  suppressed_in name kv bodyValue -> suppressed_in name kv' bodyValue.
Proof.
  intros Hless [H|H]; [left; apply Hless, H | right; eapply cross_hit_mono; eauto].
Qed.

(** Within the window, all that a durable store holds can be read. *)
Lemma durable_later (kv0 kv : KVNamespace) (d : Z) :
  durable kv0 kv -> clock kv = clock kv0 -> 0 <= d < DEBOUNCE_TTL ->
  no_less kv (tick d kv).
Proof.
  intros Hdur Hc Hd key. unfold lookup. change (entries (tick d kv)) with (entries kv).
  destruct (entries kv !! key) as [e|] eqn:He; [|discriminate].
  destruct (Hdur key e He) as (Hval & Hexp). unfold live. simpl.
  destruct (expiration e) as [t|]; [|auto].
  intros _. destruct (Z.ltb_spec (clock kv + d) t); [|lia].
  apply truthy_Some_nonempty, Hval.
Qed.

(** The first delivery: against a durable store that answers, the loop
    leaves a durable store in which every notification of the batch that
    passes the two checks is suppressed for the rest of the window. *)
Lemma calendar_loop_covers (name : option string) (kv0 : KVNamespace) (d : Z)
      (bodyValues : list Notification) :
  0 <= d < DEBOUNCE_TTL ->
  forall (acc : Collected CalendarEventNotification) (kv : KVNamespace),
    reads_fail kv = false -> writes_fail kv = false ->
    durable kv0 kv -> clock kv = clock kv0 ->
    no_less kv (tick d (snd (for_of bodyValues (calendar_item secret name) acc kv))) /\
    reads_fail (snd (for_of bodyValues (calendar_item secret name) acc kv)) = false /\
    Forall (fun bodyValue =>
              surviving secret bodyValue ->
              suppressed_in name
                (tick d (snd (for_of bodyValues (calendar_item secret name) acc kv)))
                bodyValue)
           bodyValues.
Proof.
  intros Hd. induction bodyValues as [|b bs IH]; intros acc kv Hr Hw Hdur Hc.
  - simpl. split; [eapply durable_later; eassumption|]. auto.
  - cbn [for_of]. unfold bind.
    pose proof (calendar_item_effect name b acc kv) as Hstep.
    destruct (calendar_item_total secret name b acc kv Hr Hw)
      as (acc1 & kv1 & Heq & Hr1 & Hw1).
    rewrite Heq in Hstep |- *.
    assert (Hnext : durable kv0 kv1 /\ clock kv1 = clock kv0 /\ no_less kv kv1 /\
                    (surviving secret b -> suppressed_in name kv1 b)).
    { destruct Hstep as [(_ & (He & Hc1 & _) & _ & Hwhy)
                        | (Hs & _ & _ & _ & _ & _ & He & Hc1 & _)].
      - assert (Hsame : no_less kv kv1).
        { intros key. unfold lookup. rewrite He, Hc1. auto. }
        split; [intros key e; rewrite He; apply Hdur|]. split; [congruence|].
        split; [exact Hsame|]. intros Hs. eapply suppressed_in_mono; eauto.
      - set (k0 := own_key name b (id_of b)) in *.
        assert (Hread : truthy (lookup kv1 k0) = true).
        { unfold lookup. rewrite He, lookup_insert_eq. unfold live, debounce_entry.
          simpl. rewrite Hc1.
          destruct (Z.ltb_spec (clock kv) (clock kv + DEBOUNCE_TTL));
            [apply truthy_Some_nonempty, JSON_stringify_nonempty
            | unfold DEBOUNCE_TTL in *; lia]. }
        split.
        { intros key e. rewrite He, lookup_insert. case_decide.
          - intros [= <-]. unfold debounce_entry. simpl.
            split; [apply JSON_stringify_nonempty | lia].
          - apply Hdur. }
        split; [congruence|]. split.
        { intros key Hkey. destruct (decide (key = k0)) as [->|Hne]; [exact Hread|].
          rewrite <- Hkey. f_equal. apply lookup_same; [|exact Hc1].
          rewrite He. apply lookup_insert_ne. congruence. }
        intros _. left. exact Hread. }
    destruct Hnext as (Hdur1 & Hc1 & Hless & Hhead).
    destruct (IH acc1 kv1 Hr1 Hw1 Hdur1 Hc1) as (Hless' & Hr' & Hall).
    split; [intros key Hkey; apply Hless', Hless, Hkey|]. split; [exact Hr'|].
    constructor; [|exact Hall].
    intros Hs. eapply suppressed_in_mono; [exact Hless'|]. apply Hhead, Hs.
Qed.

(** The second delivery: where every notification that passes the two
    checks is suppressed, the loop adds nothing and stores nothing. *)
Lemma calendar_loop_suppressed (name : option string) (bodyValues : list Notification) :
  forall (acc : Collected CalendarEventNotification) (kv : KVNamespace),
    reads_fail kv = false ->
    Forall (fun bodyValue =>
              surviving secret bodyValue -> suppressed_in name kv bodyValue)
           bodyValues ->
    exists kv',
      unchanged kv kv' /\
      for_of bodyValues (calendar_item secret name) acc kv = (Ok acc, kv').
Proof.
  induction bodyValues as [|b bs IH]; intros acc kv Hr Hall.
  - exists kv. split; [apply unchanged_refl | reflexivity].
  - inversion Hall as [|b' bs' Hb Hbs]; subst. cbn [for_of].
    assert (Hhead : exists kv1, unchanged kv kv1 /\
                      calendar_item secret name b acc kv = (Ok acc, kv1)).
    { destruct (authentic secret b) eqn:Ha;
        [|exists kv; split; [apply unchanged_refl | apply calendar_item_dropped; auto]].
      destruct (truthy (resourceData_id b)) eqn:Hid;
        [|exists kv; split; [apply unchanged_refl | apply calendar_item_dropped; auto]].
      destruct (surviving_id b (conj Ha Hid)) as (Hsome & Hne).
      destruct (calendar_item_reads secret name b acc kv (id_of b) Hr Ha Hsome Hne)
        as (kv1 & Hun & Heq).
      rewrite Heq.
      destruct (truthy (lookup kv (own_key name b (id_of b)))) eqn:Hown.
      - eexists. split; [|reflexivity]. apply unchanged_logged, unchanged_refl.
      - destruct (Hb (conj Ha Hid)) as [H|H]; [congruence|]. rewrite H. eauto. }
    destruct Hhead as (kv1 & Hun & Heq).
    erewrite bind_Ok by exact Heq.
    destruct (IH acc kv1) as (kv' & Hun' & Hrun).
    + destruct Hun as (_ & _ & Hr1 & _). congruence.
    + eapply Forall_impl; [exact Hbs|]. intros x Hx Hs.
      eapply suppressed_in_mono; [|exact (Hx Hs)].
      intros key. rewrite (unchanged_lookup kv kv1) by assumption. auto.
    + exists kv'. split; [|exact Hrun].
      destruct Hun as (He & Hc & Hr1 & Hw1), Hun' as (He' & Hc' & Hr2 & Hw2).
      repeat split; congruence.
Qed.

(** X5. A whole batch delivered again within the debounce window
    yields nothing: when the cache answers and everything in it can be
    read until the window of the first delivery ends (an empty cache, for
    one), the same request sent again less than [DEBOUNCE_TTL] seconds
    after the first is acknowledged with nothing to process, and stores
    nothing. *)
Theorem batch_delivered_again (req : Request) (bodyValues : list Notification)
        (kv : KVNamespace) (d : Z) :
  truthy (validationToken req) = false -> body req = Some bodyValues ->
  reads_fail kv = false -> writes_fail kv = false ->
  durable kv kv ->
  0 <= d < DEBOUNCE_TTL ->
  fst (post secret CalendarNotify req
            (tick d (snd (post secret CalendarNotify req kv))))
  = JsonReply 200 (acknowledge None)
  /\
  unchanged (tick d (snd (post secret CalendarNotify req kv)))
            (snd (post secret CalendarNotify req
                       (tick d (snd (post secret CalendarNotify req kv))))).
Proof.
  intros Ht Hb Hr Hw Hdur Hd.
  destruct (calendar_loop_covers (x_mcp_name req) kv d bodyValues Hd nothing kv
              Hr Hw Hdur eq_refl) as (_ & Hr' & Hall).
  assert (Hfirst : snd (post secret CalendarNotify req kv)
                   = snd (for_of bodyValues (calendar_item secret (x_mcp_name req))
                                 nothing kv)).
  { unfold post. simpl handler.
    rewrite (calendar_notify_batch secret req bodyValues Ht Hb). unfold bind.
    destruct (for_of bodyValues (calendar_item secret (x_mcp_name req)) nothing kv)
      as [[acc|e] kv1]; reflexivity. }
  rewrite Hfirst.
  set (kv1 := snd (for_of bodyValues (calendar_item secret (x_mcp_name req)) nothing kv))
    in *.
  destruct (calendar_loop_suppressed (x_mcp_name req) bodyValues nothing (tick d kv1)
              Hr' Hall) as (kv2 & Hun & Hrun).
  unfold post. simpl handler.
  rewrite (calendar_notify_batch secret req bodyValues Ht Hb).
  erewrite bind_Ok by exact Hrun. unfold ret, respond. simpl.
  split; [reflexivity | exact Hun].
Qed.

End CalendarEffects.

(** ** The lifecycle endpoints *)

Section LifecycleFacts.
Import KV Webhook.

Variable secret : string.

Lemma first_subscription_of_Some {A : Type} (adds : Notification -> option A)
      (bodyValues : list Notification) (sub : string) :
  first_subscription_of adds bodyValues = Some sub ->
  sub <> EmptyString /\ omap adds bodyValues <> [].
Proof.
  unfold first_subscription_of.
  induction bodyValues as [|b bs IH]; simpl; [discriminate|].
  destruct (adds b) as [x|]; [|exact IH].
  destruct (subscriptionId b) as [[|a r]|]; simpl.
  - intros H. split; [apply IH, H | discriminate].
  - intros [= <-]. split; discriminate.
  - intros H. split; [apply IH, H | discriminate].
Qed.

(** A loop that collects what [adds] gives and touches nothing else. *)
Lemma collect_loop_run {A : Type} (adds : Notification -> option A)
      (item : Notification -> Collected A -> M KVNamespace (Collected A)) :
  (forall bodyValue acc kv,
     item bodyValue acc kv
     = (Ok (match adds bodyValue with
            | Some x => push x bodyValue acc
            | None => acc
            end), kv)) ->
  forall (bodyValues : list Notification) (acc : Collected A) (kv : KVNamespace),
  exists acc',
    for_of bodyValues item acc kv = (Ok acc', kv) /\
    items acc' = items acc ++ omap adds bodyValues /\
    (truthy (subscription acc) = true -> subscription acc' = subscription acc) /\
    (truthy (subscription acc) = false ->
     match first_subscription_of adds bodyValues with
     | Some sub => subscription acc' = Some sub
     | None => truthy (subscription acc') = false
     end).
Proof.
  intros Hitem. unfold first_subscription_of.
  induction bodyValues as [|b bs IH]; intros acc kv; simpl.
  - exists acc. rewrite app_nil_r. auto.
  - erewrite bind_Ok by apply Hitem.
    destruct (adds b) as [x|]; [|apply IH].
    destruct (IH (push x b acc) kv) as (acc' & Hrun & Hitems & Hkeep & Hfirst).
    exists acc'. split; [exact Hrun|]. split.
    { rewrite Hitems. simpl. rewrite <- app_assoc. reflexivity. }
    simpl in Hkeep, Hfirst.
    destruct (truthy (subscription acc)) eqn:Hs.
    + split; [intros _; apply Hkeep, Hs | discriminate].
    + split; [discriminate|]. intros _.
      destruct (subscriptionId b) as [[|a r]|]; simpl in *;
        first [exact (Hfirst eq_refl) | exact (Hkeep eq_refl)].
Qed.

Lemma lifecycle_item_run (bodyValue : Notification) (acc : Collected string)
      (kv : KVNamespace) :
  lifecycle_item secret bodyValue acc kv
  = (Ok (match lifecycle_contributes secret bodyValue with
         | Some eventType => push eventType bodyValue acc
         | None => acc
         end), kv).
Proof.
  unfold lifecycle_item, lifecycle_contributes.
  destruct (authentic secret bodyValue); simpl; [|reflexivity].
  destruct (lifecycleEvent bodyValue) as [[|a r]|]; try reflexivity.
  case_bool_decide; reflexivity.
Qed.

Lemma lifecycle_contributes_event (bodyValue : Notification) (eventType : string) :
  lifecycle_contributes secret bodyValue = Some eventType ->
  authentic secret bodyValue = true /\
  lifecycleEvent bodyValue = Some eventType /\
  eventType <> EmptyString /\ eventType <> "missed".
Proof.
  unfold lifecycle_contributes. destruct (authentic secret bodyValue); [|discriminate].
  destruct (lifecycleEvent bodyValue) as [[|a r]|]; try discriminate.
  case_bool_decide; [discriminate|]. intros [= <-]. repeat split; auto; discriminate.
Qed.

(** X6. Each lifecycle endpoint hands on, in the order of the batch,
    the [lifecycleEvent] of every notification that has the right secret
    and a non-empty event other than [missed], and nothing else: no
    [missed] event and no event of a notification with a wrong secret is
    ever among them. They are handed on when the request has a non-empty
    [x-mcp-name] header and one of these notifications has a non-empty
    subscription id, the first such id going with them. The cache is
    neither read nor written. *)
Theorem lifecycle_events (req : Request) (bodyValues : list Notification)
        (kv : KVNamespace) :
  truthy (validationToken req) = false -> body req = Some bodyValues ->
  lifecycle secret req kv
  = (Ok (acknowledge
           match x_mcp_name req,
                 first_subscription_of (lifecycle_contributes secret) bodyValues with
           | Some (String a r), Some sub =>
               Some (NotificationProcessData (String a r) sub
                       (omap (lifecycle_contributes secret) bodyValues))
           | _, _ => None
           end), kv)
  /\
  Forall (fun eventType =>
            eventType <> "missed" /\
            exists bodyValue,
              In bodyValue bodyValues /\ authentic secret bodyValue = true /\
              lifecycleEvent bodyValue = Some eventType)
         (omap (lifecycle_contributes secret) bodyValues).
Proof.
  intros Ht Hb. split.
  - rewrite (lifecycle_batch secret req bodyValues Ht Hb).
    destruct (collect_loop_run (lifecycle_contributes secret) (lifecycle_item secret)
                lifecycle_item_run bodyValues nothing kv)
      as (acc & Hrun & Hitems & _ & Hfirst).
    erewrite bind_Ok by exact Hrun. unfold ret. f_equal. f_equal.
    simpl in Hitems. specialize (Hfirst eq_refl). unfold respond.
    destruct (first_subscription_of (lifecycle_contributes secret) bodyValues)
      as [sub|] eqn:Hsub.
    + destruct (first_subscription_of_Some _ bodyValues sub Hsub) as (Hne & Hids).
      rewrite Hfirst, Hitems. destruct sub as [|a r]; [congruence|].
      destruct (x_mcp_name req) as [[|a' r']|]; try reflexivity.
      destruct (omap (lifecycle_contributes secret) bodyValues);
        [congruence | reflexivity].
    + destruct (subscription acc) as [[|a r]|]; simpl in Hfirst; try discriminate;
        destruct (x_mcp_name req) as [[|a' r']|]; reflexivity.
  - clear Hb. induction bodyValues as [|b bs IH]; simpl; [constructor|].
    destruct (lifecycle_contributes secret b) as [eventType|] eqn:Hc.
    + apply lifecycle_contributes_event in Hc as (Ha & He & _ & Hm).
      constructor.
      * split; [exact Hm|]. exists b. auto.
      * eapply Forall_impl; [exact IH|]. intros x (Hx & b' & Hin & Hb').
        split; [exact Hx|]. exists b'. auto.
    + eapply Forall_impl; [exact IH|]. intros x (Hx & b' & Hin & Hb').
      split; [exact Hx|]. exists b'. auto.
Qed.

End LifecycleFacts.

(** ** The keys of the cache *)

Section KeyFacts.
Import KV.

Lemma append_colon_inj (s1 s2 r1 r2 : string) :
  colon_free s1 = true -> colon_free s2 = true ->
  s1 +:+ ":" +:+ r1 = s2 +:+ ":" +:+ r2 -> s1 = s2 /\ r1 = r2.
Proof.
  revert s2. induction s1 as [|c1 s1 IH]; intros [|c2 s2]; simpl; intros H1 H2 Heq;
    unfold String.append in Heq; fold String.append in Heq.
  - injection Heq as ->. auto.
  - injection Heq as <- _. discriminate.
  - injection Heq as -> _. discriminate.
  - injection Heq as -> Heq.
    apply andb_true_iff in H1 as (_ & H1). apply andb_true_iff in H2 as (_ & H2).
    destruct (IH s2 H1 H2 Heq) as (-> & ->). auto.
Qed.

(** Keys tell account names, change types and ids apart, as long as
    the first two have no colon. *)
Lemma cache_key_inj (name1 name2 : string) (type1 type2 : option string)
      (id1 id2 : string) :
  colon_free name1 = true -> colon_free name2 = true ->
  colon_free (template type1) = true -> colon_free (template type2) = true ->
  cache_key name1 type1 id1 = cache_key name2 type2 id2 ->
  name1 = name2 /\ template type1 = template type2 /\ id1 = id2.
Proof.
  intros Hn1 Hn2 Ht1 Ht2 Heq. unfold cache_key in Heq.
  apply append_colon_inj in Heq as (-> & Heq); try assumption.
  apply append_colon_inj in Heq as (-> & ->); auto.
Qed.

(** With a colon in a name, two accounts share keys. *)
Example cache_key_collision :
  cache_key "ann" (Some "created:x") "E1" = cache_key "ann:created" (Some "x") "E1".
Proof. reflexivity. Qed.

(** X7. The entries of different accounts, change types or events do
    not meet: when account names and change types have no colon, storing
    an event for one (account, change type, id) leaves what
    [getEventCache] reads for every other one as it was. *)
Theorem cache_entries_are_separate (name1 name2 : string) (type1 type2 : option string)
        (id1 id2 eventData : string) (ttl : ttl_arg) (kv : KVNamespace) :
  colon_free name1 = true -> colon_free name2 = true ->
  colon_free (template type1) = true -> colon_free (template type2) = true ->
  (name1, template type1, id1) <> (name2, template type2, id2) ->
  fst (getEventCache name2 type2 id2
         (snd (putEventCache name1 type1 id1 eventData ttl kv)))
  = fst (getEventCache name2 type2 id2 kv).
Proof.
  intros Hn1 Hn2 Ht1 Ht2 Hne.
  assert (Hkey : cache_key name1 type1 id1 <> cache_key name2 type2 id2).
  { intros Heq. apply cache_key_inj in Heq as (-> & Htype & ->); try assumption.
    apply Hne. rewrite Htype. reflexivity. }
  unfold getEventCache, putEventCache, get, put.
  destruct (writes_fail kv), (reads_fail kv) eqn:Hr; simpl; rewrite ?Hr;
    try reflexivity.
  simpl. f_equal. unfold lookup. simpl.
  rewrite lookup_insert_ne by exact Hkey. reflexivity.
Qed.

End KeyFacts.

(** ** Errors and refreshes under pagination *)

Section ClientErrors.
Import Graph.

Variable URLSearchParams : list (string * string) -> string.
Variable toString : Z -> string.

(** A refresh that the token endpoint turns down ends the request: no
    replay, and the tokens stay as they were. *)
Lemma makeRequest_refresh_refused (url method : string) (this : MicrosoftService)
      (net : Network) (response : Response) (rest : list Response)
      (res : TokenResponse) (more : list TokenResponse) :
  graph net = response :: rest -> status response = 401 ->
  login net = res :: more -> ok (token_status res) = false ->
  makeRequest url method (this, net)
  = (Throw (RefreshError (token_text res)),
     (this, {| graph := rest; login := more;
               trace := trace net ++ [GraphCall url method (accessToken this);
                                      refresh_call this] |})).
Proof.
  intros Hg Hs Hl Hok.
  unfold makeRequest, refreshAccessToken, bind, fetch_graph, fetch_token.
  rewrite Hg, Hs. simpl. rewrite Hl, Hok. simpl.
  unfold refresh_call. rewrite <- app_assoc. reflexivity.
Qed.

(** X8. When the first answer to [getUserCalendarEvents] is a 401
    and the token endpoint turns the refresh down, the call fails with the
    text of the token endpoint's answer after exactly two calls, the
    request and the refresh: there is no replay and no second refresh, and
    the tokens of the service stay as they were. *)
Theorem refresh_failure_ends_the_call (this : MicrosoftService) (net : Network)
        (response : Response) (rest : list Response)
        (res : TokenResponse) (more : list TokenResponse)
        (startDate endDate : string) (limit : Z) :
  graph net = response :: rest -> status response = 401 ->
  login net = res :: more -> ok (token_status res) = false ->
  getUserCalendarEvents URLSearchParams toString startDate endDate limit (this, net)
  = (Throw (RefreshError (token_text res)),
     (this,
      {| graph := rest; login := more;
         trace := trace net
                  ++ [GraphCall (initialUrl URLSearchParams toString this
                                            startDate endDate limit)
                                "GET" (accessToken this);
                      refresh_call this] |})).
Proof.
  intros Hg Hs Hl Hok. unfold getUserCalendarEvents. rewrite Hg. cbn [length pages].
  pose proof (initialUrl_nonempty URLSearchParams toString this startDate endDate limit)
    as Hne.
  destruct (initialUrl URLSearchParams toString this startDate endDate limit)
    as [|a u]; [congruence|].
  erewrite bind_Throw; [reflexivity|].
  eapply makeRequest_refresh_refused; eassumption.
Qed.

(** The loop over pages that all have a link. *)
Lemma pages_onward (book : list Json) :
  forall (responses rest : list Response) (fuel : nat) (url : string)
         (events : list string) (this : MicrosoftService) (net : Network),
    Forall (fun page => truthy (odata_nextLink page) = true) book ->
    Forall2 (fun r page => ok (status r) = true /\ json r = Some page) responses book ->
    graph net = responses ++ rest ->
    url <> EmptyString ->
    last_link url book <> EmptyString /\
    pages (length book + fuel) (Some url) events (this, net)
    = pages fuel (Some (last_link url book))
            (events ++ concat (map page_items book))
            (this,
             {| graph := rest; login := login net;
                trace := trace net
                         ++ map (fun u => GraphCall u "GET" (accessToken this))
                                (requests url book) |}).
Proof.
  induction book as [|page book IH];
    intros responses rest fuel url events this net Hlinks Hresp Hgraph Hurl.
  - inversion Hresp; subst. simpl in *. split; [exact Hurl|].
    rewrite !app_nil_r. destruct net; simpl in *. subst. reflexivity.
  - inversion Hresp as [|r page' rs book' (Hok & Hjson) Hrest]; subst.
    inversion Hlinks as [|page' book' Hlink Hlinks']; subst.
    destruct url as [|a u]; [congruence|].
    cbn [length Nat.add pages last_link]. set (url := String a u) in *.
    erewrite bind_Ok by (eapply makeRequest_ok; [exact Hgraph | exact Hok | exact Hjson]).
    assert (Hitems : match value page with
                     | Some newEvents => events ++ newEvents
                     | None => events
                     end = events ++ page_items page).
    { unfold page_items. destruct (value page); [reflexivity | symmetry; apply app_nil_r]. }
    rewrite Hitems. unfold or_else. rewrite Hlink.
    apply truthy_inv in Hlink as (next & Hnext & Hne). rewrite Hnext. cbn [template].
    destruct (IH rs rest fuel next (events ++ page_items page) this
                 {| graph := rs ++ rest; login := login net;
                    trace := trace net ++ [GraphCall url "GET" (accessToken this)] |}
                 Hlinks' Hrest eq_refl Hne) as (Hlast & Hrun).
    split; [exact Hlast|]. etransitivity; [exact Hrun|].
    cbn [trace login graph requests map concat]. rewrite Hnext. cbn [template].
    rewrite <- !app_assoc. reflexivity.
Qed.

(** X9. Pagination is all or nothing. When the pages answered so far
    all have a link and the next request is answered with a status that
    is neither 2xx nor 401, [getUserCalendarEvents] fails with that status
    and its text: the items of the pages read so far are not returned, no
    refresh is tried and no further page is asked for. *)
Theorem pagination_stops_at_an_error (this : MicrosoftService) (net : Network)
        (responses rest : list Response) (book : list Json) (bad : Response)
        (startDate endDate : string) (limit : Z) :
  Forall (fun page => truthy (odata_nextLink page) = true) book ->
  Forall2 (fun r page => ok (status r) = true /\ json r = Some page) responses book ->
  graph net = responses ++ bad :: rest ->
  ok (status bad) = false -> status bad <> 401 ->
  getUserCalendarEvents URLSearchParams toString startDate endDate limit (this, net)
  = (Throw (ApiError (status bad) (statusText bad)),
     (this,
      {| graph := rest; login := login net;
         trace := trace net
                  ++ map (fun u => GraphCall u "GET" (accessToken this))
                         (requests (initialUrl URLSearchParams toString this
                                               startDate endDate limit) book
                          ++ [last_link (initialUrl URLSearchParams toString this
                                                    startDate endDate limit) book]) |})).
Proof.
  intros Hlinks Hresp Hgraph Hok H401. unfold getUserCalendarEvents.
  assert (Hfuel : S (length (graph net))
                  = (length book + S (S (length rest)))%nat).
  { rewrite Hgraph, length_app. simpl. apply Forall2_length in Hresp. lia. }
  rewrite Hfuel.
  destruct (pages_onward book responses (bad :: rest) (S (S (length rest)))
              (initialUrl URLSearchParams toString this startDate endDate limit)
              [] this net Hlinks Hresp Hgraph
              (initialUrl_nonempty _ _ _ _ _ _)) as (Hlast & ->).
  destruct (last_link (initialUrl URLSearchParams toString this startDate endDate limit)
                      book) as [|a u] eqn:Hu; [congruence|].
  cbn [pages]. unfold makeRequest, bind, fetch_graph. simpl.
  apply Z.eqb_neq in H401. rewrite H401, Hok. simpl.
  rewrite map_app, <- app_assoc. reflexivity.
Qed.

(** One turn of the loop. *)
Lemma pages_turn (fuel : nat) (url : string) (events : list string) (st : State) :
  url <> EmptyString ->
  pages (S fuel) (Some url) events st
  = (let* data := makeRequest url "GET" in
     pages fuel (or_else (odata_nextLink data) None)
           (match value data with
            | Some newEvents => events ++ newEvents
            | None => events
            end)) st.
Proof. intros Hne. destruct url; [congruence | reflexivity]. Qed.

(** A 401, a refresh that succeeds, and a replay that is answered. *)
Lemma makeRequest_refreshed (url method : string) (this : MicrosoftService)
      (net : Network) (first replay : Response) (rest : list Response)
      (res : TokenResponse) (more : list TokenResponse) (tokens : TokenJson)
      (data : Json) :
  graph net = first :: replay :: rest -> status first = 401 ->
  login net = res :: more -> ok (token_status res) = true ->
  token_json res = Some tokens -> json replay = Some data ->
  makeRequest url method (this, net)
  = (Ok data,
     (rotated this tokens,
      {| graph := rest; login := more;
         trace := trace net ++ [GraphCall url method (accessToken this);
                                refresh_call this;
                                GraphCall url method (access_token tokens)] |})).
Proof.
  intros Hg Hs Hl Hok Htok Hjson.
  unfold makeRequest, refreshAccessToken, bind, fetch_graph, fetch_token.
  rewrite Hg, Hs. simpl. rewrite Hl, Hok. simpl. rewrite Htok. simpl. rewrite Hjson.
  simpl. unfold rotated, refresh_call. rewrite <- !app_assoc. simpl.
  repeat f_equal. destruct (refresh_token tokens) as [[|a r]|]; reflexivity.
Qed.

(** X10. An access token that has expired does not cost a page. When
    the first request is answered with a 401, the refresh succeeds and
    the replay and the requests at the links are answered with the linked
    pages, [getUserCalendarEvents] returns the items of all pages in
    order; it has refreshed once, and the replay and every later request
    carry the new access token. *)
Theorem pagination_after_a_refresh (this : MicrosoftService) (net : Network)
        (first : Response) (responses rest : list Response) (book : list Json)
        (res : TokenResponse) (more : list TokenResponse) (tokens : TokenJson)
        (startDate endDate : string) (limit : Z) :
  linked book ->
  Forall2 (fun r page => ok (status r) = true /\ json r = Some page) responses book ->
  graph net = first :: responses ++ rest -> status first = 401 ->
  login net = res :: more -> ok (token_status res) = true ->
  token_json res = Some tokens ->
  getUserCalendarEvents URLSearchParams toString startDate endDate limit (this, net)
  = (Ok (concat (map page_items book)),
     (rotated this tokens,
      {| graph := rest; login := more;
         trace := trace net
                  ++ [GraphCall (initialUrl URLSearchParams toString this
                                            startDate endDate limit)
                                "GET" (accessToken this);
                      refresh_call this]
                  ++ map (fun u => GraphCall u "GET" (access_token tokens))
                         (requests (initialUrl URLSearchParams toString this
                                               startDate endDate limit) book) |})).
Proof.
  intros Hlinked Hresp Hgraph Hs Hl Hok Htok.
  destruct book as [|page book]; [destruct Hlinked|].
  inversion Hresp as [|replay page' rs book' (Hok1 & Hjson1) Hrest]; subst.
  unfold getUserCalendarEvents.
  rewrite pages_turn by apply initialUrl_nonempty.
  erewrite bind_Ok
    by (eapply makeRequest_refreshed; try eassumption; rewrite Hgraph; reflexivity).
  assert (Hitems : match value page with
                   | Some newEvents => [] ++ newEvents
                   | None => []
                   end = page_items page).
  { unfold page_items. destruct (value page); reflexivity. }
  rewrite Hitems.
  destruct book as [|page2 book].
  - simpl in Hlinked. unfold or_else. rewrite Hlinked.
    inversion Hrest; subst. rewrite Hgraph. simpl. rewrite app_nil_r. reflexivity.
  - destruct Hlinked as (Hlink & Hlinked). unfold or_else. rewrite Hlink.
    apply truthy_inv in Hlink as (next & Hnext & Hnext_ne). rewrite Hnext.
    erewrite pages_linked;
      [| exact Hlinked | exact Hrest | reflexivity | exact Hnext_ne
       | rewrite Hgraph; cbn [length]; rewrite length_app;
         apply Forall2_length in Hrest; simpl in *; lia].
    cbn [trace login graph requests map concat accessToken rotated].
    rewrite Hnext. cbn [template]. rewrite <- !app_assoc. reflexivity.
Qed.

End ClientErrors.

(** ** The bearer middleware and the [/process] routes *)

Section BearerFacts.
Import Auth.

Lemma substring_whole (s : string) :
  String.substring 0 (String.length s) s = s.
Proof. induction s as [|a s IH]; simpl; [reflexivity|]. now rewrite IH. Qed.

Lemma prefix_append (p s : string) : String.prefix p (p +:+ s) = true.
Proof.
  induction p as [|a p IH]; simpl.
  - now destruct s.
  - destruct (ascii_dec a a); [exact IH|congruence].
Qed.

Lemma prefix_split (p s : string) :
  String.prefix p s = true -> exists rest, s = p +:+ rest.
Proof.
  revert s. induction p as [|a p IH]; intros s H.
  - now exists s.
  - destruct s as [|b s]; simpl in H; [discriminate|].
    destruct (ascii_dec a b) as [->|]; [|discriminate].
    destruct (IH s H) as [rest ->]. now exists rest.
Qed.

(** The two ways of the middleware. *)
Lemma middleware_cases (headers : Headers) :
  (exists token,
      Authorization headers = Some ("Bearer " +:+ token)
      /\ microsoftBearerTokenAuthMiddleware headers
         = Ok {| accessToken := token;
                 refreshToken := default EmptyString
                                         (X_Microsoft_Refresh_Token headers) |})
  \/ ((forall token, Authorization headers <> Some ("Bearer " +:+ token))
      /\ microsoftBearerTokenAuthMiddleware headers
         = Throw (HTTPException 401 "Missing or invalid access token")).
Proof.
  unfold microsoftBearerTokenAuthMiddleware.
  destruct (Authorization headers) as [authHeader|]; [|right; split; [discriminate|reflexivity]].
  destruct (String.prefix "Bearer " authHeader) eqn:Hp; cbn [negb].
  - left. destruct (prefix_split _ _ Hp) as [token ->]. exists token. split; [reflexivity|].
    f_equal. f_equal.
    + change (String.length ("Bearer " +:+ token)) with (7 + String.length token)%nat.
      replace (7 + String.length token - 7)%nat with (String.length token) by lia.
      change (String.substring 7 (String.length token) ("Bearer " +:+ token))
        with (String.substring 0 (String.length token) token).
      apply substring_whole.
    + now destruct (X_Microsoft_Refresh_Token headers) as [[|a r]|].
  - right. split; [|reflexivity]. intros token [= ->].
    now rewrite prefix_append in Hp.
Qed.

(** X11. The middleware lets a request through exactly when its
    Authorization header starts with [Bearer ] (in this case, with the
    space); the access token is then all that follows these seven
    characters, whatever it is and even when it is empty, and the
    refresh token is the header X-Microsoft-Refresh-Token or else the
    empty string. Every other request, the one without the header
    included, is thrown out with the 401 HTTPException [Missing or
    invalid access token]. *)
Theorem bearer_token_is_the_rest_of_the_header (headers : Headers) :
  (exists token,
      Authorization headers = Some ("Bearer " +:+ token)
      /\ microsoftBearerTokenAuthMiddleware headers
         = Ok {| accessToken := token;
                 refreshToken := default EmptyString
                                         (X_Microsoft_Refresh_Token headers) |})
  \/ ((forall token, Authorization headers <> Some ("Bearer " +:+ token))
      /\ microsoftBearerTokenAuthMiddleware headers
         = Throw (HTTPException 401 "Missing or invalid access token")).
Proof. exact (middleware_cases headers). Qed.

End BearerFacts.

Section ProcessFacts.
Import Auth Process.

Lemma length_append (s1 s2 : string) :
  String.length (s1 +:+ s2) = (String.length s1 + String.length s2)%nat.
Proof. induction s1 as [|a s1 IH]; simpl; [reflexivity|]. now rewrite IH. Qed.

Lemma append_inv_tail (tail s1 s2 : string) :
  s1 +:+ tail = s2 +:+ tail -> s1 = s2.
Proof.
  revert s2. induction s1 as [|a s1 IH]; intros [|b s2] H.
  - reflexivity.
  - apply (f_equal String.length) in H. rewrite !length_append in H. simpl in H. lia.
  - apply (f_equal String.length) in H. rewrite !length_append in H. simpl in H. lia.
  - unfold String.append in H; fold String.append in H.
    injection H as -> H. f_equal. now apply IH.
Qed.

(** X12. A [/process] route answers in one of three ways, decided in
    this order. A request whose Authorization header does not start
    with [Bearer ] gets the 401 [invalid_token] with the description
    [Missing or invalid access token], whatever its body. A request
    that has such a header and a body that is not JSON gets the 500
    [server_error]. Every other request gets a 200 with the prompt of
    its route around its body: the token itself is never looked at. *)
Theorem process_replies (route : Webhook.Endpoint) (req : Request) :
  ((forall token, Authorization (headers req) <> Some ("Bearer " +:+ token))
   /\ post route req
      = Failed (Webhook.ErrorReply 401 "invalid_token"
                  (Some "Missing or invalid access token")))
  \/ ((exists token, Authorization (headers req) = Some ("Bearer " +:+ token))
      /\ pretty req = None
      /\ post route req = Failed (Webhook.ErrorReply 500 "server_error" None))
  \/ ((exists token, Authorization (headers req) = Some ("Bearer " +:+ token))
      /\ exists printed,
          pretty req = Some printed
          /\ post route req = Prompt 200 (promptContent route printed)).
Proof.
  unfold post.
  destruct (middleware_cases (headers req))
    as [(token & Hh & ->)|[Hno ->]].
  - right. destruct (pretty req) as [printed|].
    + right. split; [now exists token|]. now exists printed.
    + left. split; [now exists token|]. now split.
  - left. now split.
Qed.

(** X13. The prompt of a [/process] route tells the route and the
    body apart: two prompts are equal only for the same route and the
    same printed body. *)
Theorem prompt_identifies_route_and_body
        (route1 route2 : Webhook.Endpoint) (printed1 printed2 : string) :
  promptContent route1 printed1 = promptContent route2 printed2 ->
  route1 = route2 /\ printed1 = printed2.
Proof.
  unfold promptContent, newline.
  destruct route1, route2; cbn [title]; intros H;
    unfold String.append in H; fold String.append in H;
    try (exfalso; congruence);
    (split; [reflexivity|]);
    repeat match type of H with
           | String _ _ = String _ _ => injection H as H
           end;
    exact (append_inv_tail _ _ _ H).
Qed.

End ProcessFacts.

(** ** [GET /authorize] *)

Section AuthorizeFacts.
Import Authorize.

Lemma params_get_app (name : string) (ps qs : Params) :
  params_get name (ps ++ qs)
  = match params_get name ps with
    | Some v => Some v
    | None => params_get name qs
    end.
Proof.
  induction ps as [|[k v] ps IH]; simpl; [reflexivity|].
  now case_bool_decide.
Qed.

Lemma params_get_None (name : string) (ps : Params) :
  params_get name ps = None <-> ~ In name (map fst ps).
Proof.
  induction ps as [|[k v] ps IH]; simpl; [tauto|].
  case_bool_decide; [split; [discriminate|tauto]|]. rewrite IH. tauto.
Qed.

Lemma params_remove_names (name other : string) (ps : Params) :
  In other (map fst (params_remove name ps))
  <-> other <> name /\ In other (map fst ps).
Proof.
  unfold params_remove. rewrite !in_map_iff. split.
  - intros ([k v] & <- & Hin). apply filter_In in Hin as [Hin Hk]. simpl in *.
    apply negb_true_iff, bool_decide_eq_false in Hk.
    split; [exact Hk|]. exists (k, v). now split.
  - intros (Hne & [k v] & <- & Hin). exists (k, v). split; [reflexivity|].
    apply filter_In. split; [exact Hin|]. simpl in *.
    now apply negb_true_iff, bool_decide_eq_false.
Qed.

Lemma params_remove_NoDup (name : string) (ps : Params) :
  NoDup (map fst ps) -> NoDup (map fst (params_remove name ps)).
Proof.
  induction ps as [|[k v] ps IH]; simpl; intros H; [constructor|].
  apply NoDup_cons in H as [Hk H]. rewrite list_elem_of_In in Hk.
  case_bool_decide; simpl; [now apply IH|].
  apply NoDup_cons. split; [|now apply IH].
  rewrite list_elem_of_In, params_remove_names. tauto.
Qed.

Lemma params_get_remove (name other : string) (ps : Params) :
  other <> name -> params_get other (params_remove name ps) = params_get other ps.
Proof.
  intros Hne. induction ps as [|[k v] ps IH]; simpl; [reflexivity|].
  repeat (case_bool_decide; simpl); subst; try congruence.
Qed.

Lemma params_get_set (name value : string) (ps : Params) :
  params_get name (params_set name value ps) = Some value.
Proof.
  induction ps as [|[k v] ps IH]; simpl.
  - now rewrite bool_decide_eq_true_2.
  - case_bool_decide; simpl.
    + now rewrite bool_decide_eq_true_2.
    + now rewrite bool_decide_eq_false_2.
Qed.

Lemma params_get_set_other (name value other : string) (ps : Params) :
  other <> name -> params_get other (params_set name value ps) = params_get other ps.
Proof.
  intros Hne. induction ps as [|[k v] ps IH]; simpl.
  - now rewrite bool_decide_eq_false_2 by congruence.
  - case_bool_decide as Hk; simpl.
    + subst k. rewrite !bool_decide_eq_false_2 by congruence.
      now apply params_get_remove.
    + now rewrite IH.
Qed.

Lemma params_set_names (name value other : string) (ps : Params) :
  In other (map fst (params_set name value ps))
  <-> other = name \/ In other (map fst ps).
Proof.
  induction ps as [|[k v] ps IH]; simpl; [intuition congruence|].
  case_bool_decide as Hk; simpl.
  - subst k. rewrite params_remove_names.
    destruct (decide (other = name)); intuition congruence.
  - rewrite IH. intuition congruence.
Qed.

Lemma params_set_NoDup (name value : string) (ps : Params) :
  NoDup (map fst ps) -> NoDup (map fst (params_set name value ps)).
Proof.
  induction ps as [|[k v] ps IH]; simpl; intros H.
  - apply NoDup_singleton.
  - apply NoDup_cons in H as [Hk H]. rewrite list_elem_of_In in Hk.
    case_bool_decide as Hname; simpl.
    + apply NoDup_cons. split; [|now apply params_remove_NoDup].
      rewrite list_elem_of_In, params_remove_names. tauto.
    + apply NoDup_cons. split; [|now apply IH].
      rewrite list_elem_of_In, params_set_names.
      intuition congruence.
Qed.

Lemma params_set_fresh (name value : string) (ps : Params) :
  ~ In name (map fst ps) -> params_set name value ps = ps ++ [(name, value)].
Proof.
  induction ps as [|[k v] ps IH]; simpl; intros H; [reflexivity|].
  rewrite bool_decide_eq_false_2 by tauto. rewrite IH by tauto. reflexivity.
Qed.

Lemma copied_names (query acc : Params) (name : string) :
  In name (map fst (copied query acc))
  <-> In name (map fst acc)
      \/ (name <> "client_id" /\ In name (map fst query)).
Proof.
  revert acc. induction query as [|[k v] query IH]; intros acc; simpl.
  - tauto.
  - fold (copied query). rewrite IH.
    case_bool_decide as Hk; cbn [negb].
    + subst k. intuition congruence.
    + rewrite params_set_names. intuition congruence.
Qed.

Lemma copied_NoDup (query acc : Params) :
  NoDup (map fst acc) -> NoDup (map fst (copied query acc)).
Proof.
  revert acc. induction query as [|[k v] query IH]; intros acc H; simpl; [exact H|].
  apply IH. case_bool_decide; cbn [negb]; [exact H|]. now apply params_set_NoDup.
Qed.

Lemma copied_get (query acc : Params) (name : string) :
  name <> "client_id" ->
  params_get name (copied query acc)
  = match params_get name (rev query) with
    | Some v => Some v
    | None => params_get name acc
    end.
Proof.
  intros Hname. revert acc. induction query as [|[k v] query IH]; intros acc; simpl.
  - reflexivity.
  - fold (copied query). rewrite IH, params_get_app. simpl.
    destruct (params_get name (rev query)); [reflexivity|].
    case_bool_decide as Hk; cbn [negb].
    + subst k. now rewrite bool_decide_eq_false_2 by congruence.
    + case_bool_decide as Hn.
      * subst k. apply params_get_set.
      * now apply params_get_set_other.
Qed.

(** X14. The url that [/authorize] redirects to carries the client_id
    of this application, once and as its last parameter: a client_id
    that the caller sent, however often, is not in it. *)
Theorem authorize_uses_own_client_id (env : Graph.Env) (request_query : Params) :
  exists rest,
    query (authorize env request_query)
    = rest ++ [("client_id", Graph.MICROSOFT_CLIENT_ID env)]
    /\ ~ In "client_id" (map fst rest).
Proof.
  exists (copied request_query []).
  assert (~ In "client_id" (map fst (copied request_query []))) as Hfresh.
  { rewrite copied_names. simpl. tauto. }
  split; [|exact Hfresh].
  unfold authorize, authorize_params. simpl.
  now apply params_set_fresh.
Qed.

(** X15. Every other parameter of the request goes to Microsoft under
    its name with the value of its last occurrence in the request, and
    a name that the request does not have is not added. *)
Theorem authorize_forwards_last_values
        (env : Graph.Env) (request_query : Params) (name : string) :
  name <> "client_id" ->
  params_get name (query (authorize env request_query))
  = params_get name (rev request_query).
Proof.
  intros Hname. unfold authorize, authorize_params. simpl.
  fold (copied request_query []).
  rewrite params_get_set_other by exact Hname.
  rewrite copied_get by exact Hname.
  now destruct (params_get name (rev request_query)).
Qed.

(** X16. No name occurs twice in the query of the redirect, however
    often it occurs in the request. *)
Theorem authorize_names_are_unique (env : Graph.Env) (request_query : Params) :
  NoDup (map fst (query (authorize env request_query))).
Proof.
  unfold authorize, authorize_params. simpl.
  apply params_set_NoDup, copied_NoDup, NoDup_nil_2.
Qed.

End AuthorizeFacts.

(** ** [POST /token] *)

Section TokenFacts.
Import Token.

Variable btoa : string -> string.

Lemma caught_not_Unsupported (e : Thrown) : caught e <> Unsupported.
Proof. unfold caught. now case_bool_decide. Qed.

Lemma caught_not_Tokens (e : Thrown) (result : string) : caught e <> Tokens result.
Proof. unfold caught. now case_bool_decide. Qed.

Lemma caught_Error (message : string) :
  caught (Error message) = Uncaught (Webhook.ErrorReply 500 "server_error" None).
Proof. reflexivity. Qed.

Lemma caught_OAuthFailure (e : Thrown) (status : Z) (body : option string) :
  caught e = OAuthFailure status body ->
  name e = "OAuthHttpError" /\ body = Token.body e /\ In status allowedStatuses.
Proof.
  unfold caught. case_bool_decide as Hname; [|discriminate].
  intros [= <- <-]. split; [exact Hname|]. split; [reflexivity|].
  case_bool_decide as Hin; [exact Hin|]. simpl. auto.
Qed.

(** Either function of the library is one run of [post_token]. *)
Lemma token_cases (env : Graph.Env) (form : Form) (net : Network) :
  (supported form
   /\ exists failure params,
       token btoa env form net
       = answered (post_token btoa failure
                     (Graph.MICROSOFT_CLIENT_ID env) (Graph.MICROSOFT_CLIENT_SECRET env)
                     (Graph.MICROSOFT_TENANT_ID env) params net)
       /\ head params = option_map (pair "grant_type") (grant_type form))
  \/ (~ supported form /\ token btoa env form net = (Unsupported, net)).
Proof.
  unfold token, supported.
  case_bool_decide as H1.
  - left. split; [now left|]. eexists _, _. split; [reflexivity|]. now rewrite H1.
  - case_bool_decide as H2.
    + left. split; [now right|]. eexists _, _. split; [reflexivity|]. now rewrite H2.
    + right. split; [tauto|reflexivity].
Qed.

(** One run of [post_token] as the handler sees it. *)
Lemma answered_post_token (failure clientId clientSecret tenantId : string)
      (form : list (string * string)) (net : Network) :
  answered (post_token btoa failure clientId clientSecret tenantId form net)
  = (match answers net with
     | [] => caught unreachable
     | Raised e :: _ => caught e
     | Returned response :: _ =>
         if Graph.ok (code response) then
           match json response with
           | Returned result => Tokens result
           | Raised e => caught e
           end
         else
           match text response with
           | Returned error => caught (Error (failure +:+ error))
           | Raised e => caught e
           end
     end,
     {| answers := tail (answers net);
        calls := calls net
                 ++ [{| url := Auth.getMicrosoftAuthEndpoint tenantId "api/token";
                        authorization :=
                          "Basic " +:+ btoa (clientId +:+ ":" +:+ clientSecret);
                        params := form |}] |}).
Proof.
  unfold post_token, answered.
  destruct (answers net) as [|[response|e] rest]; simpl; try reflexivity.
  destruct (Graph.ok (code response)); simpl.
  - now destruct (json response).
  - now destruct (text response).
Qed.

(** X17. The reply [unsupported_grant_type] is that of the requests
    whose grant_type is neither [authorization_code] nor
    [refresh_token], the one without a grant_type included, and of
    them only; for such a request nothing is sent to Microsoft. *)
Theorem unsupported_grant_reply (env : Graph.Env) (form : Form) (net : Network) :
  (fst (token btoa env form net) = Unsupported <-> ~ supported form)
  /\ (~ supported form -> snd (token btoa env form net) = net).
Proof.
  destruct (token_cases env form net)
    as [(Hs & failure & params & -> & _)|[Hs ->]]; [|simpl; tauto].
  split; [|tauto]. split; [|tauto]. intros H. exfalso. revert H.
  rewrite answered_post_token. simpl.
  destruct (answers net) as [|[response|e] rest]; try apply caught_not_Unsupported.
  destruct (Graph.ok (code response)).
  - destruct (json response); [discriminate|apply caught_not_Unsupported].
  - destruct (text response); apply caught_not_Unsupported.
Qed.

(** X18. When Microsoft answers a supported request with a status
    outside 200..299, the reply of [/token] is the 500 [server_error]
    of [onError], whatever the status and the text of the answer of
    Microsoft: what the library throws is a plain Error, whose name is
    not the one that the handler passes on. The answer has been used
    and one call has been made. *)
Theorem upstream_error_is_a_server_error
        (env : Graph.Env) (form : Form) (net : Network)
        (response : Response) (error : string) :
  supported form ->
  next_answer net response ->
  Graph.ok (code response) = false ->
  text response = Returned error ->
  fst (token btoa env form net)
  = Uncaught (Webhook.ErrorReply 500 "server_error" None)
  /\ answers (snd (token btoa env form net)) = tail (answers net)
  /\ length (calls (snd (token btoa env form net))) = S (length (calls net)).
Proof.
  intros Hs [rest Hnext] Hok Htext.
  destruct (token_cases env form net)
    as [(_ & failure & params & -> & _)|[Hno _]]; [|tauto].
  rewrite answered_post_token, Hnext, Hok, Htext. simpl.
  rewrite length_app. simpl. split; [reflexivity|]. split; [reflexivity|lia].
Qed.

(** X19. The reply carries tokens exactly when the grant type is
    supported and Microsoft answers with a status in 200..299 and a
    body that is JSON; the tokens are then that body as it is. *)
Theorem tokens_are_those_of_microsoft
        (env : Graph.Env) (form : Form) (net : Network) (result : string) :
  fst (token btoa env form net) = Tokens result
  <-> supported form
      /\ exists response,
          next_answer net response
          /\ Graph.ok (code response) = true
          /\ json response = Returned result.
Proof.
  destruct (token_cases env form net)
    as [(Hs & failure & params & -> & _)|[Hno ->]].
  - rewrite answered_post_token. simpl. unfold next_answer. split.
    + intros H. split; [exact Hs|].
      destruct (answers net) as [|[response|e] rest];
        try (now apply caught_not_Tokens in H).
      exists response. split; [now exists rest|].
      destruct (Graph.ok (code response)).
      * destruct (json response) as [r|e]; [|now apply caught_not_Tokens in H].
        injection H as ->. auto.
      * destruct (text response); now apply caught_not_Tokens in H.
    + intros (_ & response & [rest ->] & -> & ->). reflexivity.
  - simpl. split; [discriminate|tauto].
Qed.

(** X20. A reply with a status and a body of Microsoft passed on is
    never made from an answer of Microsoft that arrived: it takes a
    rejection (of [fetch], or of [text()] or [json()]) with a value
    whose name is [OAuthHttpError], and its status is then one of the
    fourteen that the handler allows. *)
Theorem passed_on_failure
        (env : Graph.Env) (form : Form) (net : Network)
        (status : Z) (body : option string) :
  fst (token btoa env form net) = OAuthFailure status body ->
  In status allowedStatuses
  /\ exists e,
      rejects_with net e /\ name e = "OAuthHttpError" /\ body = Token.body e.
Proof.
  destruct (token_cases env form net)
    as [(Hs & failure & params & -> & _)|[Hno ->]]; [|discriminate].
  rewrite answered_post_token. simpl. unfold rejects_with, next_answer.
  destruct (answers net) as [|[response|e] rest] eqn:Hnet.
  - intros H. now apply caught_OAuthFailure in H as [H _].
  - destruct (Graph.ok (code response)) eqn:Hok.
    + destruct (json response) as [r|e] eqn:Hjson; [discriminate|].
      intros H. apply caught_OAuthFailure in H as (Hname & Hbody & Hin).
      split; [exact Hin|]. exists e. split; [|auto].
      right. exists response. split; [now exists rest|]. now rewrite Hok.
    + destruct (text response) as [r|e] eqn:Htext.
      * intros H. now apply caught_OAuthFailure in H as [H _].
      * intros H. apply caught_OAuthFailure in H as (Hname & Hbody & Hin).
        split; [exact Hin|]. exists e. split; [|auto].
        right. exists response. split; [now exists rest|]. now rewrite Hok.
  - intros H. apply caught_OAuthFailure in H as (Hname & Hbody & Hin).
    split; [exact Hin|]. exists e. split; [|auto]. left. now exists rest.
Qed.

(** X21. A supported request makes one call, whatever comes back: a
    POST to [/oauth2/v2.0/api/token] of the tenant, with the client id
    and the secret of this application as Basic credentials and with
    the grant type of the request as the first field of the form. *)
Theorem token_request_makes_one_call
        (env : Graph.Env) (form : Form) (net : Network) :
  supported form ->
  exists call,
    calls (snd (token btoa env form net)) = calls net ++ [call]
    /\ url call
       = "https://login.microsoftonline.com/" +:+ Graph.MICROSOFT_TENANT_ID env
         +:+ "/oauth2/v2.0/api/token"
    /\ authorization call
       = "Basic " +:+ btoa (Graph.MICROSOFT_CLIENT_ID env +:+ ":" +:+
                            Graph.MICROSOFT_CLIENT_SECRET env)
    /\ head (params call) = option_map (pair "grant_type") (grant_type form).
Proof.
  intros Hs.
  destruct (token_cases env form net)
    as [(_ & failure & params & -> & Hhead)|[Hno _]]; [|tauto].
  rewrite answered_post_token. simpl. eexists. split; [reflexivity|].
  simpl. auto.
Qed.

End TokenFacts.

(** ** The tokens of the service *)

Section ServiceFrame.
Import Graph.

Variable URLSearchParams : list (string * string) -> string.
Variable toString : Z -> string.

(** A request whose first answer is not a 401 takes that answer, makes
    one call and leaves the service as it is. *)
Lemma makeRequest_frame (url method : string) (this : MicrosoftService) (net : Network) :
  Forall (fun response => status response <> 401) (graph net) ->
  snd (makeRequest url method (this, net))
  = (this, {| graph := tail (graph net); login := login net;
              trace := trace net ++ [GraphCall url method (accessToken this)] |}).
Proof.
  intros Hall. unfold makeRequest, bind, fetch_graph, parsed, ret, throw.
  destruct (graph net) as [|r g]; simpl; [reflexivity|].
  apply Forall_cons in Hall as [Hr _].
  destruct (status r =? 401) eqn:E; [apply Z.eqb_eq in E; contradiction|].
  destruct (ok (status r)); simpl; [|reflexivity].
  now destruct (json r).
Qed.

Lemma pages_frame (fuel : nat) :
  forall (url : option string) (events : list string)
         (this : MicrosoftService) (net : Network),
    Forall (fun response => status response <> 401) (graph net) ->
    let after := snd (pages fuel url events (this, net)) in
    fst after = this
    /\ login (snd after) = login net
    /\ exists new,
        trace (snd after) = trace net ++ new
        /\ Forall (fun call => exists url, call = GraphCall url "GET" (accessToken this))
                  new.
Proof.
  induction fuel as [|fuel IH]; intros url events this net Hall.
  - simpl. split; [reflexivity|]. split; [reflexivity|].
    exists []. rewrite app_nil_r. split; [reflexivity|constructor].
  - cbn [pages].
    assert (fst (this, net) = this /\ login (snd (this, net)) = login net
            /\ exists new, trace (snd (this, net)) = trace net ++ new
               /\ Forall (fun call => exists url,
                              call = GraphCall url "GET" (accessToken this)) new)
      as Hsame.
    { split; [reflexivity|]. split; [reflexivity|].
      exists []. rewrite app_nil_r. split; [reflexivity|constructor]. }
    destruct url as [[|a u]|]; try exact Hsame.
    unfold bind.
    pose proof (makeRequest_frame (String a u) "GET" this net Hall) as Hstep.
    destruct (makeRequest (String a u) "GET" (this, net)) as [[data|e] st'];
      cbn [snd] in Hstep; subst st'.
    + match goal with
      | |- context [pages fuel ?u ?ev (this, ?n)] =>
          destruct (IH u ev this n) as (Hthis & Hlogin & new & Htrace & Hnew)
      end.
      { cbn [graph]. destruct (graph net) as [|r g]; [constructor|].
        now apply Forall_cons in Hall as [_ Hall]. }
      split; [exact Hthis|]. split; [exact Hlogin|].
      exists (GraphCall (String a u) "GET" (accessToken this) :: new).
      split.
      * etransitivity; [exact Htrace|]. cbn [trace]. now rewrite <- app_assoc.
      * constructor; [now exists (String a u)|exact Hnew].
    + cbn [snd fst login trace]. split; [reflexivity|]. split; [reflexivity|].
      exists [GraphCall (String a u) "GET" (accessToken this)].
      split; [reflexivity|]. constructor; [now exists (String a u)|constructor].
Qed.

(** X22. While no answer of the Graph API is a 401, a listing of the
    calendar leaves the service as it was (its tokens are the ones it
    was built with), asks nothing of the token endpoint, and sends
    every one of its requests as a GET with the access token that the
    service was built with; this holds whether the listing returns or
    throws. *)
Theorem tokens_kept_without_a_401
        (startDate endDate : string) (limit : Z)
        (this : MicrosoftService) (net : Network) :
  Forall (fun response => status response <> 401) (graph net) ->
  let after := snd (getUserCalendarEvents URLSearchParams toString
                      startDate endDate limit (this, net)) in
  fst after = this
  /\ login (snd after) = login net
  /\ exists new,
      trace (snd after) = trace net ++ new
      /\ Forall (fun call => exists url, call = GraphCall url "GET" (accessToken this))
                new.
Proof. intros Hall. unfold getUserCalendarEvents. now apply pages_frame. Qed.

End ServiceFrame.

(** ** The replies to a notification *)

Section WireFacts.
Import KV Webhook.

Variable secret : string.

(** On values that are all notifications the loop is the loop of the
    handler. *)
Lemma wire_for_of_Some {B : Type} (body : Notification -> B -> M KVNamespace B)
      (bodyValues : list Notification) :
  forall (acc : B) (kv : KVNamespace),
    Wire.for_of (map Some bodyValues) body acc kv
    = match for_of bodyValues body acc kv with
      | (Ok acc', kv') => (Wire.Done acc', kv')
      | (Throw e, kv') => (Wire.Thrown e, kv')
      end.
Proof.
  induction bodyValues as [|b bs IH]; intros acc kv; simpl; [reflexivity|].
  unfold bind. destruct (body b acc kv) as [[acc'|e] kv']; [apply IH|reflexivity].
Qed.

(** On a request whose values are all notifications, the handlers on
    any body are the handlers. *)
Lemma post_of_request (route : Endpoint) (req : Request) (kv : KVNamespace) :
  Wire.post secret route (Wire.of_request req) kv = post secret route req kv.
Proof.
  unfold Wire.post, post, Wire.of_request.
  cbn [Wire.validationToken Wire.x_mcp_name Wire.body].
  destruct route; cbn [handler];
    unfold email_notify, lifecycle, calendar_notify;
    (destruct (validationToken req) as [[|a r]|]; [|reflexivity|]);
    (destruct (body req) as [bodyValues|]; [|reflexivity]);
    rewrite wire_for_of_Some; unfold bind, Wire.finish, ret;
    match goal with
    | |- context [for_of bodyValues ?f nothing kv] =>
        destruct (for_of bodyValues f nothing kv) as [[acc|e] kv']; reflexivity
    end.
Qed.

(** How a loop ends when its body throws nothing but what the cache
    throws, and that only when the cache rejects a read or a write. *)
Lemma wire_loop_ends {B : Type} (body : Notification -> B -> M KVNamespace B)
      (reason : Prop) :
  (forall bodyValue acc kv,
      match body bodyValue acc kv with
      | (Ok _, kv') => reads_fail kv' = reads_fail kv /\ writes_fail kv' = writes_fail kv
      | (Throw e, _) =>
          e = KVError /\ reason /\ (reads_fail kv = true \/ writes_fail kv = true)
      end) ->
  forall values acc kv,
    match Wire.for_of values body acc kv with
    | (Wire.Done _, _) => ~ In None values
    | (Wire.TypeError, _) => In None values
    | (Wire.Thrown e, _) =>
        e = KVError /\ reason /\ (reads_fail kv = true \/ writes_fail kv = true)
    end.
Proof.
  intros Hbody. induction values as [|[b|] rest IH]; intros acc kv; simpl.
  - tauto.
  - pose proof (Hbody b acc kv) as Hstep.
    destruct (body b acc kv) as [[acc'|e] kv']; [|exact Hstep].
    destruct Hstep as (Hr & Hw). pose proof (IH acc' kv') as Hrest.
    destruct (Wire.for_of rest body acc' kv') as [[acc2|e2|] kv2].
    + intros [Hin|Hin]; [discriminate|contradiction].
    + now rewrite <- Hr, <- Hw.
    + now right.
  - now left.
Qed.

Lemma calendar_item_ends (name : option string) (bodyValue : Notification)
      (acc : Collected CalendarEventNotification) (kv : KVNamespace) :
  match calendar_item secret name bodyValue acc kv with
  | (Ok _, kv') => reads_fail kv' = reads_fail kv /\ writes_fail kv' = writes_fail kv
  | (Throw e, _) =>
      e = KVError /\ True /\ (reads_fail kv = true \/ writes_fail kv = true)
  end.
Proof.
  pose proof (calendar_item_effect secret name bodyValue acc kv) as Hstep.
  destruct (calendar_item secret name bodyValue acc kv) as [[acc'|e] kv'] eqn:Hrun.
  - destruct Hstep as [(_ & (_ & _ & Hr & Hw) & _)
                      |(_ & _ & _ & _ & _ & _ & _ & _ & Hr & Hw & _)]; auto.
  - destruct Hstep as (-> & _). split; [reflexivity|]. split; [exact I|].
    destruct (reads_fail kv) eqn:Hr; [auto|].
    destruct (writes_fail kv) eqn:Hw; [auto|].
    destruct (calendar_item_total secret name bodyValue acc kv Hr Hw)
      as (acc2 & kv2 & Hok & _). congruence.
Qed.

Lemma pure_item_ends {B : Type} (body : Notification -> B -> M KVNamespace B) :
  (forall bodyValue acc kv, exists acc', body bodyValue acc kv = (Ok acc', kv)) ->
  forall bodyValue acc kv,
    match body bodyValue acc kv with
    | (Ok _, kv') => reads_fail kv' = reads_fail kv /\ writes_fail kv' = writes_fail kv
    | (Throw e, _) =>
        e = KVError /\ False /\ (reads_fail kv = true \/ writes_fail kv = true)
    end.
Proof.
  intros Hpure bodyValue acc kv. destruct (Hpure bodyValue acc kv) as (acc' & ->). auto.
Qed.

(** The reply after a loop. *)
Lemma finish_cases {A : Type} (name : option string)
      (data : string -> string -> list A -> ProcessData)
      (body : Notification -> Collected A -> M KVNamespace (Collected A))
      (reason : Prop) (values : list (option Notification)) (kv : KVNamespace) :
  (forall bodyValue acc kv,
      match body bodyValue acc kv with
      | (Ok _, kv') => reads_fail kv' = reads_fail kv /\ writes_fail kv' = writes_fail kv
      | (Throw e, _) =>
          e = KVError /\ reason /\ (reads_fail kv = true \/ writes_fail kv = true)
      end) ->
  (~ In None values
   /\ exists d kv',
       Wire.finish name data (Wire.for_of values body nothing kv)
       = (JsonReply 200
            {| reqResponseCode := 202;
               reqResponseContent :=
                 "{" +:+ String (ascii_of_nat 34)
                           ("ok" +:+ String (ascii_of_nat 34) ":true}");
               reqResponseContentType := json;
               processData := d |},
          kv'))
  \/ ((In None values
       \/ (reason /\ (reads_fail kv = true \/ writes_fail kv = true)))
      /\ exists kv',
          Wire.finish name data (Wire.for_of values body nothing kv)
          = (ErrorReply 500 "server_error" None, kv')).
Proof.
  intros Hbody. pose proof (wire_loop_ends body reason Hbody values nothing kv) as Hloop.
  destruct (Wire.for_of values body nothing kv) as [[acc|e|] kv'];
    unfold Wire.finish.
  - left. split; [exact Hloop|].
    destruct (respond_acknowledges name acc data) as (d & ->).
    exists d, kv'. reflexivity.
  - right. destruct Hloop as (-> & Hreason & Hfail). split; [auto|].
    exists kv'. reflexivity.
  - right. split; [auto|]. exists kv'. reflexivity.
Qed.

(** X3. What the provider gets back from a notification endpoint is
    one of three things. The echo of a non-empty validation token, with
    code 200 and type text. The acknowledgment with code 202 and the
    content [{ ok: true }], which takes a body whose [value] is iterated
    to its end without a [null]. Or the 500 [server_error] of [onError]:
    this is the reply to every body that is not JSON, whose [value]
    cannot be iterated or holds a [null], and apart from these it is
    given on the calendar path only, when the cache rejects a read or a
    write. It never gets a 401 or any other status. *)
Theorem webhook_replies (route : Endpoint) (req : Wire.Request) (kv : KVNamespace) :
  (exists token,
     Wire.validationToken req = Some token /\ token <> EmptyString /\
     Wire.post secret route req kv
     = (JsonReply 200
          {| reqResponseCode := 200;
             reqResponseContent := token;
             reqResponseContentType := text;
             processData := None |},
        kv))
  \/ (truthy (Wire.validationToken req) = false /\
      ((exists values data kv',
          Wire.body req = Wire.Items values /\ ~ In None values /\
          Wire.post secret route req kv
          = (JsonReply 200
               {| reqResponseCode := 202;
                  reqResponseContent :=
                    "{" +:+ String (ascii_of_nat 34)
                              ("ok" +:+ String (ascii_of_nat 34) ":true}");
                  reqResponseContentType := json;
                  processData := data |},
             kv'))
       \/ ((Wire.body req = Wire.Unparsable
            \/ Wire.body req = Wire.NotIterable
            \/ (exists values, Wire.body req = Wire.Items values /\ In None values)
            \/ (route = CalendarNotify
                /\ (reads_fail kv = true \/ writes_fail kv = true)))
           /\ exists kv',
               Wire.post secret route req kv
               = (ErrorReply 500 "server_error" None, kv')))).
Proof.
  assert (Hbatch : truthy (Wire.validationToken req) = false ->
                   forall reply,
                     reply = match Wire.validationToken req with
                             | Some (String _ _ as token) =>
                                 (JsonReply 200 (challenge token), kv)
                             | _ => reply
                             end).
  { intros Ht reply. destruct (Wire.validationToken req) as [[|a r]|];
      [reflexivity|discriminate|reflexivity]. }
  destruct (truthy (Wire.validationToken req)) eqn:Ht.
  { left. apply truthy_inv in Ht as (token & Htok & Hne). exists token.
    split; [exact Htok|]. split; [exact Hne|].
    unfold Wire.post. rewrite Htok. destruct token; [congruence|reflexivity]. }
  right. split; [reflexivity|]. unfold Wire.post. rewrite <- (Hbatch eq_refl).
  destruct (Wire.body req) as [| |values] eqn:Hbody.
  - right. split; [auto|]. exists kv. reflexivity.
  - right. split; [auto|]. exists kv. reflexivity.
  - destruct route.
    + destruct (finish_cases (Wire.x_mcp_name req) EmailProcessData
                  (email_item secret) False values kv
                  (pure_item_ends _ (email_item_pure secret)))
        as [(Hnone & d & kv' & ->)|([Hin|([] & _)] & kv' & ->)].
      * left. exists values, d, kv'. auto.
      * right. split; [|exists kv'; reflexivity]. right; right; left. eauto.
    + destruct (finish_cases (Wire.x_mcp_name req) NotificationProcessData
                  (lifecycle_item secret) False values kv
                  (pure_item_ends _ (lifecycle_item_pure secret)))
        as [(Hnone & d & kv' & ->)|([Hin|([] & _)] & kv' & ->)].
      * left. exists values, d, kv'. auto.
      * right. split; [|exists kv'; reflexivity]. right; right; left. eauto.
    + destruct (finish_cases (Wire.x_mcp_name req) CalendarProcessData
                  (calendar_item secret (Wire.x_mcp_name req)) True values kv
                  (calendar_item_ends (Wire.x_mcp_name req)))
        as [(Hnone & d & kv' & ->)|([Hin|(_ & Hfail)] & kv' & ->)].
      * left. exists values, d, kv'. auto.
      * right. split; [|exists kv'; reflexivity]. right; right; left. eauto.
      * right. split; [|exists kv'; reflexivity]. right; right; right. auto.
    + destruct (finish_cases (Wire.x_mcp_name req) NotificationProcessData
                  (lifecycle_item secret) False values kv
                  (pure_item_ends _ (lifecycle_item_pure secret)))
        as [(Hnone & d & kv' & ->)|([Hin|([] & _)] & kv' & ->)].
      * left. exists values, d, kv'. auto.
      * right. split; [|exists kv'; reflexivity]. right; right; left. eauto.
Qed.

End WireFacts.

(** * Instances of the further properties *)

Section FurtherInstances.
Import KV Webhook.

(** One accepted notification: one event handed on, one write. *)
Lemma accepted_events_and_writes_witness :
  exists response kv',
    calendar_notify Sample.secret
      (Sample.batch (Some "work") [Sample.change "created" "E1"]) (KV.empty 0)
    = (Ok response, kv')
    /\ exists accepted,
        accepted `sublist_of` [Sample.change "created" "E1"]
        /\ Forall (surviving Sample.secret) accepted
        /\ writes (log kv')
           = writes (log (KV.empty 0)) ++ map (write_of (Some "work")) accepted
        /\ (processData response = None
            \/ exists name sub,
                Some "work" = Some name
                /\ processData response
                   = Some (CalendarProcessData name sub (map event_of accepted))).
Proof.
  eexists _, _. split; [vm_compute; reflexivity|].
  apply (accepted_events_and_writes Sample.secret
           (Sample.batch (Some "work") [Sample.change "created" "E1"])
           [Sample.change "created" "E1"] (KV.empty 0)); reflexivity.
Defined.

(** Two minutes after [created:E1] was accepted, its key reads as
    absent. *)
Lemma accepted_again_after_window_witness :
  KV.lookup
    (tick 120 (snd (calendar_item Sample.secret (Some "work")
                      (Sample.change "created" "E1") nothing (KV.empty 0))))
    (own_key (Some "work") (Sample.change "created" "E1")
             (id_of (Sample.change "created" "E1")))
  = None.
Proof.
  refine (proj1 (accepted_again_after_window Sample.secret (Some "work")
                   (Sample.change "created" "E1") nothing
                   (push (event_of (Sample.change "created" "E1"))
                         (Sample.change "created" "E1") nothing)
                   (KV.empty 0) 120 _ _ _ _)).
  - apply store_inv_empty.
  - reflexivity.
  - vm_compute. discriminate.
  - vm_compute. discriminate.
Defined.

(** The same batch half a minute later: nothing to process. *)
Lemma batch_delivered_again_witness :
  fst (post Sample.secret CalendarNotify
            (Sample.batch (Some "work") [Sample.change "created" "E1"])
            (tick 30 (snd (post Sample.secret CalendarNotify
                             (Sample.batch (Some "work") [Sample.change "created" "E1"])
                             (KV.empty 0)))))
  = JsonReply 200 (acknowledge None).
Proof.
  refine (proj1 (batch_delivered_again Sample.secret
                   (Sample.batch (Some "work") [Sample.change "created" "E1"])
                   [Sample.change "created" "E1"] (KV.empty 0) 30 _ _ _ _ _ _)).
  - reflexivity.
  - reflexivity.
  - reflexivity.
  - reflexivity.
  - intros key e H. vm_compute in H. discriminate.
  - unfold DEBOUNCE_TTL. lia.
Defined.

(** A batch of three lifecycle notifications: the [missed] one is left
    out. *)
Lemma lifecycle_events_witness :
  fst (lifecycle Sample.secret
         (Sample.batch (Some "work")
            [Further.lifecycle_event "reauthorizationRequired";
             Further.lifecycle_event "missed";
             Further.lifecycle_event "subscriptionRemoved"])
         (KV.empty 0))
  = Ok (acknowledge
          (Some (NotificationProcessData "work" "sub-cal"
                   ["reauthorizationRequired"; "subscriptionRemoved"]))).
Proof.
  exact (f_equal fst
           (proj1 (lifecycle_events Sample.secret
                     (Sample.batch (Some "work")
                        [Further.lifecycle_event "reauthorizationRequired";
                         Further.lifecycle_event "missed";
                         Further.lifecycle_event "subscriptionRemoved"])
                     [Further.lifecycle_event "reauthorizationRequired";
                      Further.lifecycle_event "missed";
                      Further.lifecycle_event "subscriptionRemoved"]
                     (KV.empty 0) eq_refl eq_refl))).
Defined.

(** What is stored for [work] is not read for [home]. *)
Lemma cache_entries_are_separate_witness :
  fst (getEventCache "home" (Some "created") "E1"
         (snd (putEventCache "work" (Some "created") "E1" "data" TtlUndefined
                 (KV.empty 0))))
  = fst (getEventCache "home" (Some "created") "E1" (KV.empty 0)).
Proof.
  apply (cache_entries_are_separate "work" "home" (Some "created") (Some "created")
           "E1" "E1" "data" TtlUndefined (KV.empty 0));
    try reflexivity.
  discriminate.
Defined.

(** A [null] between two good notifications, on each path: the
    provider gets a 500, and on the calendar path the first
    notification has been stored by then. A text for [value]: its
    characters are passed over and the batch is acknowledged. A value
    that cannot be iterated: a 500. *)
Example null_among_the_values :
  fst (Wire.post Sample.secret EmailNotify
         (Further.arriving (Some "work")
            (Wire.Items [Some (Sample.mail "m1"); None; Some (Sample.mail "m3")]))
         (KV.empty 0))
  = ErrorReply 500 "server_error" None /\
  fst (Wire.post Sample.secret CalendarLifecycle
         (Further.arriving (Some "work")
            (Wire.Items [Some (Further.lifecycle_event "subscriptionRemoved"); None]))
         (KV.empty 0))
  = ErrorReply 500 "server_error" None /\
  fst (Wire.post Sample.secret CalendarNotify
         (Further.arriving (Some "work")
            (Wire.Items [Some (Sample.change "created" "E1"); None;
                         Some (Sample.change "created" "E3")]))
         (KV.empty 0))
  = ErrorReply 500 "server_error" None /\
  truthy (KV.lookup
            (snd (Wire.post Sample.secret CalendarNotify
                    (Further.arriving (Some "work")
                       (Wire.Items [Some (Sample.change "created" "E1"); None;
                                    Some (Sample.change "created" "E3")]))
                    (KV.empty 0)))
            "work:created:E1") = true /\
  KV.lookup
    (snd (Wire.post Sample.secret CalendarNotify
            (Further.arriving (Some "work")
               (Wire.Items [Some (Sample.change "created" "E1"); None;
                            Some (Sample.change "created" "E3")]))
            (KV.empty 0)))
    "work:created:E3" = None.
Proof. repeat (split; [reflexivity|]). reflexivity. Qed.

Example text_for_a_value :
  Wire.post Sample.secret EmailNotify
    (Further.arriving (Some "work")
       (Wire.Items [Some Further.character; Some Further.character;
                    Some Further.character]))
    (KV.empty 0)
  = (JsonReply 200
       {| reqResponseCode := 202;
          reqResponseContent :=
            "{" +:+ String (ascii_of_nat 34)
                      ("ok" +:+ String (ascii_of_nat 34) ":true}");
          reqResponseContentType := json;
          processData := None |},
     KV.empty 0) /\
  Wire.post Sample.secret EmailNotify
    (Further.arriving (Some "work") Wire.NotIterable) (KV.empty 0)
  = (ErrorReply 500 "server_error" None, KV.empty 0).
Proof. split; reflexivity. Qed.

End FurtherInstances.

Section FurtherClientInstances.
Import Graph.

(** A 401 and a refresh that is turned down: two calls. *)
Lemma refresh_failure_ends_the_call_witness :
  getUserCalendarEvents GraphSample.query GraphSample.number "2024-01-01" "2024-02-01" 100
    (GraphSample.this,
     {| graph := [Further.expired]; login := [Further.refusing]; trace := [] |})
  = (Throw (RefreshError "invalid_grant"),
     (GraphSample.this,
      {| graph := []; login := [];
         trace :=
           [GraphCall "https://graph.microsoft.com/v1.0/users/user-1/events?top=100"
                      "GET" "old-access";
            TokenCall "tenant" "client" "hush" "old-refresh"] |})).
Proof.
  apply (refresh_failure_ends_the_call GraphSample.query GraphSample.number
           GraphSample.this
           {| graph := [Further.expired]; login := [Further.refusing]; trace := [] |}
           Further.expired [] Further.refusing []
           "2024-01-01" "2024-02-01" 100 eq_refl eq_refl eq_refl eq_refl).
Defined.

(** A first page and then a 503: the items of the first page are lost. *)
Lemma pagination_stops_at_an_error_witness :
  getUserCalendarEvents GraphSample.query GraphSample.number "2024-01-01" "2024-02-01" 100
    (GraphSample.this,
     {| graph := [GraphSample.answer
                    (GraphSample.page ["e1"; "e2"]
                       (Some "https://graph.microsoft.com/v1.0/page2"));
                  Further.unavailable];
        login := []; trace := [] |})
  = (Throw (ApiError 503 "Service Unavailable"),
     (GraphSample.this,
      {| graph := []; login := [];
         trace :=
           [GraphCall "https://graph.microsoft.com/v1.0/users/user-1/events?top=100"
                      "GET" "old-access";
            GraphCall "https://graph.microsoft.com/v1.0/page2" "GET" "old-access"] |})).
Proof.
  apply (pagination_stops_at_an_error GraphSample.query GraphSample.number
           GraphSample.this
           {| graph := [GraphSample.answer
                          (GraphSample.page ["e1"; "e2"]
                             (Some "https://graph.microsoft.com/v1.0/page2"));
                        Further.unavailable];
              login := []; trace := [] |}
           [GraphSample.answer
              (GraphSample.page ["e1"; "e2"]
                 (Some "https://graph.microsoft.com/v1.0/page2"))]
           []
           [GraphSample.page ["e1"; "e2"]
              (Some "https://graph.microsoft.com/v1.0/page2")]
           Further.unavailable
           "2024-01-01" "2024-02-01" 100
           ltac:(repeat constructor) ltac:(repeat constructor)
           eq_refl eq_refl ltac:(discriminate)).
Defined.

(** A 401, a refresh, and then the three pages with the new token. *)
Lemma pagination_after_a_refresh_witness :
  getUserCalendarEvents GraphSample.query GraphSample.number "2024-01-01" "2024-02-01" 100
    (GraphSample.this,
     {| graph := Further.expired :: map GraphSample.answer GraphSample.book;
        login := [GraphSample.rotating]; trace := [] |})
  = (Ok ["e1"; "e2"; "e3"; "e4"; "e5"],
     ({| env := env GraphSample.this; accessToken := "new-access";
         refreshToken := "new-refresh"; userId := "user-1" |},
      {| graph := []; login := [];
         trace :=
           [GraphCall "https://graph.microsoft.com/v1.0/users/user-1/events?top=100"
                      "GET" "old-access";
            TokenCall "tenant" "client" "hush" "old-refresh";
            GraphCall "https://graph.microsoft.com/v1.0/users/user-1/events?top=100"
                      "GET" "new-access";
            GraphCall "https://graph.microsoft.com/v1.0/page2" "GET" "new-access";
            GraphCall "https://graph.microsoft.com/v1.0/page3" "GET" "new-access"] |})).
Proof.
  apply (pagination_after_a_refresh GraphSample.query GraphSample.number
           GraphSample.this
           {| graph := Further.expired :: map GraphSample.answer GraphSample.book;
              login := [GraphSample.rotating]; trace := [] |}
           Further.expired (map GraphSample.answer GraphSample.book) []
           GraphSample.book GraphSample.rotating []
           {| access_token := "new-access"; refresh_token := Some "new-refresh" |}
           "2024-01-01" "2024-02-01" 100
           (conj eq_refl (conj eq_refl eq_refl))
           ltac:(repeat constructor)
           eq_refl eq_refl eq_refl eq_refl eq_refl).
Defined.

(** Three pages and no 401: the service is as it was. *)
Lemma tokens_kept_without_a_401_witness :
  fst (snd (getUserCalendarEvents GraphSample.query GraphSample.number
              "2024-01-01" "2024-02-01" 100
              (GraphSample.this, GraphSample.three_pages)))
  = GraphSample.this.
Proof.
  apply (tokens_kept_without_a_401 GraphSample.query GraphSample.number
           "2024-01-01" "2024-02-01" 100 GraphSample.this GraphSample.three_pages).
  repeat constructor; discriminate.
Defined.

End FurtherClientInstances.

Section FurtherRouteInstances.

(** Equal prompts of the calendar route: equal bodies. *)
Lemma prompt_identifies_route_and_body_witness :
  Webhook.CalendarNotify = Webhook.CalendarNotify /\ "{}" = "{}".
Proof.
  apply (prompt_identifies_route_and_body Webhook.CalendarNotify Webhook.CalendarNotify
           "{}" "{}" eq_refl).
Defined.

(** A scope sent twice and a client_id of the caller: the second scope
    goes on. *)
Lemma authorize_forwards_last_values_witness :
  Authorize.params_get "scope"
    (Authorize.query
       (Authorize.authorize (Graph.env GraphSample.this)
          [("scope", "openid"); ("client_id", "theirs"); ("scope", "Mail.Read")]))
  = Some "Mail.Read".
Proof.
  apply (authorize_forwards_last_values (Graph.env GraphSample.this)
           [("scope", "openid"); ("client_id", "theirs"); ("scope", "Mail.Read")]
           "scope").
  discriminate.
Defined.

(** Microsoft answers a code with a 400 [invalid_grant]: the client
    gets a 500. *)
Lemma upstream_error_is_a_server_error_witness :
  fst (Token.token Further.plain (Graph.env GraphSample.this) Further.code_grant
         (Further.upstream [Token.Returned Further.invalid_grant]))
  = Token.Uncaught (Webhook.ErrorReply 500 "server_error" None).
Proof.
  refine (proj1 (upstream_error_is_a_server_error Further.plain
                   (Graph.env GraphSample.this) Further.code_grant
                   (Further.upstream [Token.Returned Further.invalid_grant])
                   Further.invalid_grant "invalid_grant" _ _ eq_refl eq_refl)).
  - left. reflexivity.
  - exists []. reflexivity.
Defined.

(** A rejection with a status that is not allowed: a 400 goes back. *)
Lemma passed_on_failure_witness :
  In 400 Token.allowedStatuses.
Proof.
  refine (proj1 (passed_on_failure Further.plain
                   (Graph.env GraphSample.this) Further.code_grant
                   (Further.upstream [Token.Raised Further.teapot])
                   400 (Some "teapot") _)).
  reflexivity.
Defined.

(** The call that a code grant makes. *)
Lemma token_request_makes_one_call_witness :
  exists call,
    Token.calls
      (snd (Token.token Further.plain (Graph.env GraphSample.this) Further.code_grant
              (Further.upstream [Token.Returned Further.invalid_grant])))
    = [call]
    /\ Token.url call
       = "https://login.microsoftonline.com/tenant/oauth2/v2.0/api/token"
    /\ Token.authorization call = "Basic client:hush"
    /\ head (Token.params call) = Some ("grant_type", "authorization_code").
Proof.
  apply (token_request_makes_one_call Further.plain
           (Graph.env GraphSample.this) Further.code_grant
           (Further.upstream [Token.Returned Further.invalid_grant])).
  left. reflexivity.
Defined.

End FurtherRouteInstances.
